(** * Colorimetry engine of the beauty-palette server

    A shallow embedding of [ColorAnalyzer] (src/metodos_server.py, lines
    41-305): undertone scoring, season decision table, and the HSL harmony
    generator, together with the parts of the Python runtime it calls
    ([int(_, 16)], [str.lstrip], slicing, float arithmetic, [colorsys]).

    Python [float] is IEEE binary64 and is modelled by Rocq's primitive
    floats, so every rounding of the source is reproduced bit for bit.
    Python [str] is modelled by [string]; a character is read as the code
    point of the same number, so the model covers the strings whose code
    points are below 256.  Python exceptions are values of [exn] carried by
    [result]. *)

From Stdlib Require Import ZArith QArith Ascii String Floats Uint63 HexadecimalString.
From stdpp Require Import gmap strings list.

Set Warnings "-inexact-float".
Local Open Scope Z_scope.

(** ** Exceptions *)

Inductive exn : Set :=
  | ValueError
  | ZeroDivisionError
  | OverflowError
  | KeyError.

Inductive result (A : Type) : Type :=
  | Ok (a : A)
  | Raise (e : exn).
Arguments Ok {A} a.
Arguments Raise {A} e.

#[global] Instance result_ret : MRet result := λ A a, Ok a.
#[global] Instance result_bind : MBind result := λ A B k m,
  match m with
  | Ok a => k a
  | Raise e => Raise e
  end.
#[global] Instance result_fmap : FMap result := λ A B f m,
  match m with
  | Ok a => Ok (f a)
  | Raise e => Raise e
  end.

Definition is_ok {A} (m : result A) : bool :=
  match m with Ok _ => true | Raise _ => false end.

(** ** Python strings *)

Module PyStr.

(** [s.lstrip('#')]: every leading '#' is removed. *)
Fixpoint lstrip (c : ascii) (s : string) : string :=
  match s with
  | String a s' => if Ascii.eqb a c then lstrip c s' else s
  | EmptyString => EmptyString
  end.

(** [s[i:j]] for [0 <= i <= j]; indices past the end are clipped. *)
Definition slice (i j : nat) (s : string) : string :=
  String.substring i (j - i) s.

Definition chars (s : string) : list ascii := list_ascii_of_string s.

(** Whitespace skipped by [int]: the ASCII blanks, and NEL and NBSP,
    which CPython rewrites to a blank before parsing. *)
Definition isspace (c : ascii) : bool :=
  let n := N_of_ascii c in
  ((9 <=? n) && (n <=? 13) || (n =? 32) || (n =? 133) || (n =? 160))%N.

(** [_PyLong_DigitValue]: the value of a character as a digit, for any
    base up to 36. *)
Definition digit_value (c : ascii) : option Z :=
  let n := Z.of_N (N_of_ascii c) in
  if (48 <=? n) && (n <=? 57) then Some (n - 48)
  else if (97 <=? n) && (n <=? 122) then Some (n - 87)
  else if (65 <=? n) && (n <=? 90) then Some (n - 55)
  else None.

Definition hex_value (c : ascii) : option Z :=
  match digit_value c with
  | Some d => if d <? 16 then Some d else None
  | None => None
  end.

(** The digit loop of [PyLong_FromString]: hex digits, single underscores
    allowed between two digits.  [prev_us] records that the previous
    character was an underscore; [seen] that a digit was read.  Returns
    the accumulated value and the unread rest. *)
Fixpoint digits16 (cs : list ascii) (acc : Z) (seen prev_us : bool)
  : option (Z * list ascii) :=
  match cs with
  | [] => if prev_us || negb seen then None else Some (acc, [])
  | c :: cs' =>
      if Ascii.eqb c "_" then
        if prev_us || negb seen then None else digits16 cs' acc seen true
      else
        match hex_value c with
        | Some d => digits16 cs' (16 * acc + d) true false
        | None => if prev_us || negb seen then None else Some (acc, cs)
        end
  end.

Fixpoint skip_space (cs : list ascii) : list ascii :=
  match cs with
  | c :: cs' => if isspace c then skip_space cs' else cs
  | [] => []
  end.

(** [int(s, 16)]: blanks, an optional sign, an optional [0x] prefix (one
    underscore may follow it), the digits, blanks, end of string.
    Anything else raises [ValueError]. *)
Definition int16 (s : string) : result Z :=
  let cs := skip_space (chars s) in
  let '(neg, cs) :=
    match cs with
    | c :: t => if Ascii.eqb c "+" then (false, t)
                else if Ascii.eqb c "-" then (true, t)
                else (false, cs)
    | [] => (false, cs)
    end in
  let cs :=
    match cs with
    | z :: x :: t =>
        if Ascii.eqb z "0" && (Ascii.eqb x "x" || Ascii.eqb x "X")
        then match t with
             | u :: t' => if Ascii.eqb u "_" then t' else t
             | [] => t
             end
        else cs
    | _ => cs
    end in
  match digits16 cs 0 false false with
  | Some (v, rest) =>
      match skip_space rest with
      | [] => Ok (if neg then - v else v)
      | _ :: _ => Raise ValueError
      end
  | None => Raise ValueError
  end.

(** [format(n, "02x")]: lowercase hexadecimal, sign first, zero-padded
    to a total width of two. *)
Definition hex_of_N (n : N) : string :=
  NilZero.string_of_uint (N.to_hex_uint n).

Definition format_02x (n : Z) : string :=
  match n with
  | Zneg p =>
      String "-" (hex_of_N (Npos p))
  | _ =>
      let d := hex_of_N (Z.to_N n) in
      if (String.length d <? 2)%nat then String "0" d else d
  end.

End PyStr.

(** ** Python floats *)

Module PyFloat.

(** [float(n)] for an [int] with [|n| < 2^63]; the only integers the
    engine converts are channel values read from two characters. *)
Definition of_Z (z : Z) : float :=
  if z <? 0 then (- of_uint63 (Uint63.of_Z (- z)))%float
  else of_uint63 (Uint63.of_Z z).

(** Integer part of [a] for [1 <= a < 2^53]: the 53-bit mantissa shifted
    right by the number of fractional bits. *)
Definition trunc_small (a : float) : int :=
  let '(m, e) := frshiftexp a in
  Uint63.lsr (normfr_mantissa m) (Uint63.sub 2154%uint63 e).

(** C's [fmod(a, 1.0)] for [a >= 0] (exact); [nan] on [inf] and [nan]. *)
Definition fmod1_pos (a : float) : float :=
  if (a <? 1)%float then a
  else if (a <? 0x1p53)%float then (a - of_uint63 (trunc_small a))%float
  else if (a <? infinity)%float then 0%float
  else nan.

(** [x % 1.0] ([float_rem]): [fmod], then the sign of the divisor is
    forced, a zero remainder becoming [+0.0] and a negative one being
    increased by [1.0]. *)
Definition mod1 (x : float) : float :=
  if (x <? 0)%float then
    let r := fmod1_pos (- x)%float in
    if (r =? 0)%float then 0%float
    else if (r =? r)%float then (- r + 1)%float
    else r
  else if (x =? 0)%float then 0%float
  else fmod1_pos x.

(** [a / b]: [ZeroDivisionError] when the divisor is zero. *)
Definition div (a b : float) : result float :=
  if (b =? 0)%float then Raise ZeroDivisionError else Ok (a / b)%float.

(** Exact value of a finite float as an integer times a power of two. *)
Definition to_Q (x : float) : option Q :=
  match Prim2SF x with
  | S754_zero _ => Some 0%Q
  | S754_finite s m e =>
      let q := if 0 <=? e then inject_Z (Z.pos m * 2 ^ e)
               else (Z.pos m # Pos.shiftl_nat 1 (Z.to_nat (- e))) in
      Some (if s then - q else q)%Q
  | _ => None
  end.

(** Integer part of a finite float with [|x| >= 2^53], which is an
    integer already. *)
Definition trunc_big (x : float) : Z :=
  match Prim2SF x with
  | S754_finite s m e => let v := Z.shiftl (Z.pos m) e in if s then - v else v
  | _ => 0
  end.

(** [int(x)]: truncation toward zero; [ValueError] on [nan],
    [OverflowError] on an infinity.  The two finite ranges are tested
    first: neither test holds of [nan] or of an infinity. *)
Definition to_int (x : float) : result Z :=
  let a := abs x in
  if (a <? 1)%float then Ok 0
  else if (a <? 0x1p53)%float then
    let n := Uint63.to_Z (trunc_small a) in
    Ok (if (x <? 0)%float then - n else n)
  else if is_nan x then Raise ValueError
  else if is_infinity x then Raise OverflowError
  else Ok (trunc_big x).

(** [max(a, b)] and [min(a, b)]: the second argument replaces the first
    only when it is strictly greater (smaller). *)
Definition max (a b : float) : float := if (a <? b)%float then b else a.
Definition min (a b : float) : float := if (b <? a)%float then b else a.

End PyFloat.

(** ** [colorsys] (CPython, Lib/colorsys.py, as of 3.12: the saturation of a
    light colour divides by [2.0-maxc-minc]) *)

Module colorsys.

Definition ONE_THIRD : float := Eval vm_compute in (1 / 3)%float.
Definition ONE_SIXTH : float := Eval vm_compute in (1 / 6)%float.
Definition TWO_THIRD : float := Eval vm_compute in (2 / 3)%float.

Definition rgb_to_hls (r g b : float) : result (float * float * float) :=
  let maxc := PyFloat.max (PyFloat.max r g) b in
  let minc := PyFloat.min (PyFloat.min r g) b in
  let sumc := (maxc + minc)%float in
  let rangec := (maxc - minc)%float in
  let l := (sumc / 2)%float in
  if (minc =? maxc)%float then Ok (0%float, l, 0%float)
  else
    s ← (if (l <=? 0.5)%float then PyFloat.div rangec sumc
         else PyFloat.div rangec (2 - maxc - minc)%float);
    rc ← PyFloat.div (maxc - r)%float rangec;
    gc ← PyFloat.div (maxc - g)%float rangec;
    bc ← PyFloat.div (maxc - b)%float rangec;
    let h := if (r =? maxc)%float then (bc - gc)%float
             else if (g =? maxc)%float then (2 + rc - bc)%float
             else (4 + gc - rc)%float in
    Ok (PyFloat.mod1 (h / 6)%float, l, s).

Definition _v (m1 m2 hue : float) : float :=
  let hue := PyFloat.mod1 hue in
  if (hue <? ONE_SIXTH)%float then (m1 + (m2 - m1) * hue * 6)%float
  else if (hue <? 0.5)%float then m2
  else if (hue <? TWO_THIRD)%float then
    (m1 + (m2 - m1) * (TWO_THIRD - hue) * 6)%float
  else m1.

Definition hls_to_rgb (h l s : float) : float * float * float :=
  if (s =? 0)%float then (l, l, l)
  else
    let m2 := if (l <=? 0.5)%float then (l * (1 + s))%float
              else (l + s - l * s)%float in
    let m1 := (2 * l - m2)%float in
    (_v m1 m2 (h + ONE_THIRD)%float, _v m1 m2 h, _v m1 m2 (h - ONE_THIRD)%float).

End colorsys.

(** ** Python numbers: [int] and [float] mixed by the usual coercion *)

Inductive pynum : Set :=
  | PyInt (z : Z)
  | PyFlt (f : float).

Module PyNum.

Definition to_float (a : pynum) : float :=
  match a with
  | PyInt z => PyFloat.of_Z z
  | PyFlt f => f
  end.

Definition add (a b : pynum) : pynum :=
  match a, b with
  | PyInt x, PyInt y => PyInt (x + y)
  | _, _ => PyFlt (to_float a + to_float b)
  end.

Definition mul (a b : pynum) : pynum :=
  match a, b with
  | PyInt x, PyInt y => PyInt (x * y)
  | _, _ => PyFlt (to_float a * to_float b)
  end.

Definition abs (a : pynum) : pynum :=
  match a with
  | PyInt x => PyInt (Z.abs x)
  | PyFlt f => PyFlt (PrimFloat.abs f)
  end.

(** Comparisons; an [int] below [2^53] in magnitude converts exactly, so
    the mixed cases agree with Python's exact comparison there. *)
Definition ltb (a b : pynum) : bool :=
  match a, b with
  | PyInt x, PyInt y => x <? y
  | _, _ => (to_float a <? to_float b)%float
  end.

Definition leb (a b : pynum) : bool :=
  match a, b with
  | PyInt x, PyInt y => x <=? y
  | _, _ => (to_float a <=? to_float b)%float
  end.

Definition min (a b : pynum) : pynum := if ltb b a then b else a.

(** Exact rational value, when finite. *)
Definition to_Q (a : pynum) : option Q :=
  match a with
  | PyInt x => Some (inject_Z x)
  | PyFlt f => PyFloat.to_Q f
  end.

End PyNum.

(** [d.get(k, 0)] on a table of numbers. *)
Definition get_num (d : gmap string pynum) (k : string) : pynum :=
  default (PyInt 0) (d !! k).

(** ** ColorAnalyzer *)

Record season_info : Set := {
  name : string;
  characteristics : string;
  temperature : string;
  saturation : string;
  contrast : string;
  best_colors : list string;
  avoid_colors : list string
}.

(** The display texts hold their accented letters in UTF-8. *)
Definition SEASONS : gmap string season_info :=
  list_to_map [
    ("primavera_calida",
      {| name := "Primavera Cálida";
         characteristics := "Colores vibrantes, cálidos y claros";
         temperature := "calido"; saturation := "alta"; contrast := "medio";
         best_colors := ["#FF6B35"; "#F7931E"; "#FFD700"; "#32CD32"; "#FF69B4"; "#87CEEB"];
         avoid_colors := ["#000000"; "#FFFFFF"; "#4169E1"; "#8B008B"] |});
    ("primavera_clara",
      {| name := "Primavera Clara";
         characteristics := "Colores suaves, cálidos y luminosos";
         temperature := "calido"; saturation := "media"; contrast := "bajo";
         best_colors := ["#FFB6C1"; "#FFDAB9"; "#F0E68C"; "#98FB98"; "#87CEFA"; "#DDA0DD"];
         avoid_colors := ["#000000"; "#8B0000"; "#000080"; "#4B0082"] |});
    ("verano_suave",
      {| name := "Verano Suave";
         characteristics := "Colores apagados, frescos y suaves";
         temperature := "frio"; saturation := "baja"; contrast := "bajo";
         best_colors := ["#B0C4DE"; "#D8BFD8"; "#F0F8FF"; "#E6E6FA"; "#FAFAFA"; "#F5F5DC"];
         avoid_colors := ["#FF4500"; "#FFD700"; "#32CD32"; "#FF1493"] |});
    ("verano_frio",
      {| name := "Verano Frío";
         characteristics := "Colores frescos, suaves con base azul";
         temperature := "frio"; saturation := "media"; contrast := "medio";
         best_colors := ["#4169E1"; "#9370DB"; "#FF69B4"; "#20B2AA"; "#BA55D3"; "#7B68EE"];
         avoid_colors := ["#FF8C00"; "#FF6347"; "#DAA520"; "#CD853F"] |});
    ("otono_suave",
      {| name := "Otoño Suave";
         characteristics := "Colores terrosos, cálidos y apagados";
         temperature := "calido"; saturation := "baja"; contrast := "bajo";
         best_colors := ["#D2B48C"; "#DEB887"; "#F4A460"; "#CD853F"; "#BC8F8F"; "#A0522D"];
         avoid_colors := ["#FF1493"; "#00BFFF"; "#7FFF00"; "#FF00FF"] |});
    ("otono_profundo",
      {| name := "Otoño Profundo";
         characteristics := "Colores ricos, cálidos y saturados";
         temperature := "calido"; saturation := "alta"; contrast := "alto";
         best_colors := ["#8B4513"; "#A0522D"; "#CD853F"; "#DAA520"; "#B22222"; "#800080"];
         avoid_colors := ["#E0E0E0"; "#F0F8FF"; "#87CEEB"; "#FFB6C1"] |});
    ("invierno_profundo",
      {| name := "Invierno Profundo";
         characteristics := "Colores intensos, fríos y dramáticos";
         temperature := "frio"; saturation := "alta"; contrast := "muy_alto";
         best_colors := ["#000000"; "#FFFFFF"; "#FF0000"; "#0000FF"; "#FF1493"; "#8A2BE2"];
         avoid_colors := ["#F5DEB3"; "#FFDAB9"; "#FFE4B5"; "#F0E68C"] |});
    ("invierno_brillante",
      {| name := "Invierno Brillante";
         characteristics := "Colores vibrantes, fríos y claros";
         temperature := "frio"; saturation := "muy_alta"; contrast := "alto";
         best_colors := ["#FF1493"; "#00BFFF"; "#7FFF00"; "#FF00FF"; "#00FF00"; "#FFFF00"];
         avoid_colors := ["#696969"; "#A9A9A9"; "#D2B48C"; "#DEB887"] |})
  ].

(** *** analyze_undertone *)

Record undertone_analysis : Set := {
  undertone : string;
  score : pynum;
  confidence : pynum
}.

Definition vein_scores : gmap string pynum :=
  list_to_map [("azul", PyInt (-2)); ("azul_verdoso", PyInt (-1));
               ("purpura", PyInt (-1)); ("verde", PyInt 2);
               ("verde_oliva", PyInt 2); ("indefinido", PyInt 0)].

Definition jewelry_scores : gmap string pynum :=
  list_to_map [("plata", PyFlt (-1.5)); ("oro", PyFlt 1.5); ("ambos", PyInt 0)].

Definition sun_scores : gmap string pynum :=
  list_to_map [("se_quema", PyInt (-1)); ("broncea_despacio", PyFlt (-0.5));
               ("broncea_facil", PyInt 1)].

Definition lip_scores : gmap string pynum :=
  list_to_map [("rosado", PyFlt (-0.5)); ("coral", PyInt 0); ("durazno", PyFlt 0.5)].

(** The returned dictionary without its ["analysis"] entry, a display text
    that prints the score with one decimal. *)
Definition analyze_undertone
    (vein_color jewelry_preference sun_reaction natural_lip_color : string)
    : undertone_analysis :=
  let score := PyInt 0 in
  let score := PyNum.add score (PyNum.mul (get_num vein_scores vein_color) (PyInt 2)) in
  let score := PyNum.add score (get_num jewelry_scores jewelry_preference) in
  let score := PyNum.add score (get_num sun_scores sun_reaction) in
  let score := PyNum.add score (get_num lip_scores natural_lip_color) in
  let undertone :=
    if PyNum.leb score (PyInt (-1)) then "frio"
    else if PyNum.leb (PyInt 1) score then "calido"
    else "neutro" in
  {| undertone := undertone;
     score := score;
     confidence := PyNum.min (PyNum.mul (PyNum.abs score) (PyInt 20)) (PyInt 100) |}.

(** *** determine_season *)

Record season_analysis : Set := {
  season : string;
  season_data : season_info;
  season_confidence : Z;
  reasoning : string
}.

Definition season_rows : list (string * string * string * string) := [
    (("clara", "calido", "bajo"), "primavera_clara");
    (("clara", "calido", "medio"), "primavera_calida");
    (("clara", "calido", "alto"), "primavera_calida");
    (("clara", "frio", "bajo"), "verano_suave");
    (("clara", "frio", "medio"), "verano_frio");
    (("clara", "frio", "alto"), "invierno_brillante");
    (("clara", "neutro", "bajo"), "verano_suave");
    (("clara", "neutro", "medio"), "verano_frio");
    (("clara", "neutro", "alto"), "invierno_brillante");

    (("media", "calido", "bajo"), "otono_suave");
    (("media", "calido", "medio"), "primavera_calida");
    (("media", "calido", "alto"), "otono_profundo");
    (("media", "frio", "bajo"), "verano_suave");
    (("media", "frio", "medio"), "verano_frio");
    (("media", "frio", "alto"), "invierno_profundo");
    (("media", "neutro", "bajo"), "otono_suave");
    (("media", "neutro", "medio"), "verano_frio");
    (("media", "neutro", "alto"), "invierno_profundo");

    (("oscura", "calido", "bajo"), "otono_suave");
    (("oscura", "calido", "medio"), "otono_profundo");
    (("oscura", "calido", "alto"), "otono_profundo");
    (("oscura", "frio", "bajo"), "invierno_profundo");
    (("oscura", "frio", "medio"), "invierno_profundo");
    (("oscura", "frio", "alto"), "invierno_profundo");
    (("oscura", "neutro", "bajo"), "invierno_profundo");
    (("oscura", "neutro", "medio"), "invierno_profundo");
    (("oscura", "neutro", "alto"), "invierno_profundo")
  ].

Definition season_matrix : gmap (string * string * string) string :=
  list_to_map season_rows.

(** Keyed by (hair colour, eye colour). *)
Definition contrast_rows : list (string * string * string) := [
    (("negro", "azul"), "alto");
    (("negro", "verde"), "alto");
    (("rubio", "cafe"), "medio");
    (("rubio", "azul"), "bajo");
    (("castano", "verde"), "medio");
    (("pelirrojo", "verde"), "alto")
  ].

Definition contrast_adjustments : gmap (string * string) string :=
  list_to_map contrast_rows.

(** [contrast_adjustments.get((hair_color, eye_color), contrast_level)] *)
Definition adjusted_contrast (hair_color eye_color contrast_level : string) : string :=
  default contrast_level (contrast_adjustments !! (hair_color, eye_color)).

(** [d[k]]: [KeyError] on a missing key. *)
Definition getitem {V} (d : gmap string V) (k : string) : result V :=
  match d !! k with
  | Some v => Ok v
  | None => Raise KeyError
  end.

Definition determine_season
    (skin_tone undertone eye_color hair_color contrast_level : string)
    : result season_analysis :=
  let adjusted := adjusted_contrast hair_color eye_color contrast_level in
  let season_key := (skin_tone, undertone, adjusted) in
  let season := default "verano_suave" (season_matrix !! season_key) in
  info ← getitem SEASONS season;
  info' ← getitem SEASONS season;
  Ok {| season := season;
        season_data := info;
        season_confidence := 85;
        reasoning := "Piel " +:+ skin_tone +:+ " + subtono " +:+ undertone
                     +:+ " + contraste " +:+ adjusted +:+ " = " +:+ name info' |}.

(** *** generate_harmony_palette *)

(** Nested helper [hex_to_hsl]: the three channels are parsed in order and
    scaled, then handed to [colorsys.rgb_to_hls]; the triple is (h, l, s). *)
Definition hex_channel (hex_color : string) (i : nat) : result float :=
  n ← PyStr.int16 (PyStr.slice i (i + 2) hex_color);
  Ok (PyFloat.of_Z n / 255)%float.

Definition hex_to_hsl (hex_color : string) : result (float * float * float) :=
  let hex_color := PyStr.lstrip "#" hex_color in
  r ← hex_channel hex_color 0;
  g ← hex_channel hex_color 2;
  b ← hex_channel hex_color 4;
  colorsys.rgb_to_hls r g b.

(** Nested helper [hsl_to_hex]. *)
Definition hsl_to_hex (h l s : float) : result string :=
  let '(r, g, b) := colorsys.hls_to_rgb h l s in
  ri ← PyFloat.to_int (r * 255)%float;
  gi ← PyFloat.to_int (g * 255)%float;
  bi ← PyFloat.to_int (b * 255)%float;
  Ok ("#" +:+ PyStr.format_02x ri +:+ PyStr.format_02x gi +:+ PyStr.format_02x bi).

(** Lines 264-293: the seed is converted, then the branch of the scheme
    builds [harmonies]; an unlisted scheme leaves it empty. *)
Definition harmony_scheme (base_hex harmony_type : string) : result (list string) :=
  '(h, l, s) ← hex_to_hsl base_hex;
  if String.eqb harmony_type "complementary" then
    let comp_h := PyFloat.mod1 (h + 0.5)%float in
    c1 ← hsl_to_hex comp_h l s;
    Ok [base_hex; c1]
  else if String.eqb harmony_type "analogous" then
    c1 ← hsl_to_hex (PyFloat.mod1 (h + 0.083)%float) l s;
    c2 ← hsl_to_hex (PyFloat.mod1 (h - 0.083)%float) l s;
    Ok [base_hex; c1; c2]
  else if String.eqb harmony_type "triadic" then
    c1 ← hsl_to_hex (PyFloat.mod1 (h + 0.333)%float) l s;
    c2 ← hsl_to_hex (PyFloat.mod1 (h + 0.667)%float) l s;
    Ok [base_hex; c1; c2]
  else if String.eqb harmony_type "split_complementary" then
    let comp_h := PyFloat.mod1 (h + 0.5)%float in
    c1 ← hsl_to_hex (PyFloat.mod1 (comp_h + 0.083)%float) l s;
    c2 ← hsl_to_hex (PyFloat.mod1 (comp_h - 0.083)%float) l s;
    Ok [base_hex; c1; c2]
  else Ok [].

(** Lines 296-303: the loop that extends [variations]. *)
Fixpoint lightness_variations (harmonies : list string) : result (list string) :=
  match harmonies with
  | [] => Ok []
  | color :: rest =>
      '(h, l, s) ← hex_to_hsl color;
      lighter ← hsl_to_hex h (PyFloat.min (l + 0.2)%float 1%float) s;
      darker ← hsl_to_hex h (PyFloat.max (l - 0.2)%float 0%float) s;
      more ← lightness_variations rest;
      Ok (color :: lighter :: darker :: more)
  end.

(** The list [variations] as it stands before the final [set]. *)
Definition harmony_variations (base_colors : list string) (harmony_type : string)
    : result (list string) :=
  match base_colors with
  | [] => Ok []
  | base_hex :: _ =>
      harmonies ← harmony_scheme base_hex harmony_type;
      lightness_variations harmonies
  end.

(** [list(set(variations))] lists a set in an order Python leaves open;
    the palette is modelled as that set. *)
Definition generate_harmony_palette (base_colors : list string) (harmony_type : string)
    : result (gset string) :=
  match base_colors with
  | [] => Ok ∅
  | _ :: _ =>
      variations ← harmony_variations base_colors harmony_type;
      Ok (list_to_set variations)
  end.

(** * Reference definitions, written from the specification *)

Module Spec.

(** Undertone terms.  The identifiers are the source's: azul = blue,
    azul_verdoso = blue-green, purpura = purple, verde = green,
    verde_oliva = olive-green, indefinido = indeterminate; plata = silver,
    oro = gold, ambos = both; se_quema = burns, broncea_despacio = tans
    slowly, broncea_facil = tans easily; rosado = pink, durazno = peach. *)
Definition vein_value (v : string) : Q :=
  if String.eqb v "azul" then -2
  else if String.eqb v "azul_verdoso" then -1
  else if String.eqb v "purpura" then -1
  else if String.eqb v "verde" then 2
  else if String.eqb v "verde_oliva" then 2
  else 0.

Definition vein_term (v : string) : Q := vein_value v * 2.

Definition jewelry_term (j : string) : Q :=
  if String.eqb j "plata" then - (3 # 2)
  else if String.eqb j "oro" then 3 # 2
  else 0.

Definition sun_term (s : string) : Q :=
  if String.eqb s "se_quema" then -1
  else if String.eqb s "broncea_despacio" then - (1 # 2)
  else if String.eqb s "broncea_facil" then 1
  else 0.

Definition lip_term (l : string) : Q :=
  if String.eqb l "rosado" then - (1 # 2)
  else if String.eqb l "durazno" then 1 # 2
  else 0.

Definition undertone_score (v j s l : string) : Q :=
  vein_term v + jewelry_term j + sun_term s + lip_term l.

(** frio = cold, calido = warm, neutro = neutral. *)
Definition category (q : Q) : string :=
  if Qle_bool q (-1) then "frio"
  else if Qle_bool 1 q then "calido"
  else "neutro".

(** Season classifier: the three enumerated dimensions (clara = light,
    media = medium, oscura = dark; bajo = low, medio = medium, alto =
    high), the 27 triples they span, and the eight seasons. *)
Definition skin_tones : list string := ["clara"; "media"; "oscura"].
Definition undertones : list string := ["calido"; "frio"; "neutro"].
Definition contrast_levels : list string := ["bajo"; "medio"; "alto"].

Definition table_keys : list (string * string * string) :=
  s ← skin_tones; u ← undertones; c ← contrast_levels; [(s, u, c)].

Definition season_ids : list string :=
  ["primavera_calida"; "primavera_clara"; "verano_suave"; "verano_frio";
   "otono_suave"; "otono_profundo"; "invierno_profundo"; "invierno_brillante"].

Definition default_season : string := "verano_suave".


(** Colours: six hexadecimal digits, upper or lower case, after an
    optional leading '#'; each pair of digits is a channel in 0..255. *)
Definition is_hex_digit (c : ascii) : bool :=
  let n := N_of_ascii c in
  ((48 <=? n) && (n <=? 57) || (97 <=? n) && (n <=? 102)
   || (65 <=? n) && (n <=? 70))%N.

Definition digit (c : ascii) : Z :=
  let n := Z.of_N (N_of_ascii c) in
  if n <=? 57 then n - 48 else if n <=? 70 then n - 55 else n - 87.

Definition six_digits (s : string) : bool :=
  match s with
  | String c1 (String c2 (String c3 (String c4 (String c5 (String c6 EmptyString))))) =>
      forallb is_hex_digit [c1; c2; c3; c4; c5; c6]
  | _ => false
  end.

Definition body (s : string) : string :=
  match s with
  | String "#" s' => s'
  | _ => s
  end.

Definition well_formed_hex (s : string) : bool := six_digits (body s).

Definition channels (s : string) : option (Z * Z * Z) :=
  match body s with
  | String c1 (String c2 (String c3 (String c4 (String c5 (String c6 EmptyString))))) =>
      Some (16 * digit c1 + digit c2, 16 * digit c3 + digit c4,
            16 * digit c5 + digit c6)
  | _ => None
  end.

(** Two colours agree within one unit on every channel. *)
Definition within_one (p q : Z * Z * Z) : Prop :=
  let '(r, g, b) := p in
  let '(r', g', b') := q in
  Z.abs (r - r') ≤ 1 ∧ Z.abs (g - g') ≤ 1 ∧ Z.abs (b - b') ≤ 1.


(** Harmony schemes.  [hues d ty h] lists the hues derived from the seed
    hue [h], all taken modulo 1.0; [d] is the offset of thirty degrees,
    which the specification writes 0.0833 and the source 0.083. *)
Definition schemes : list string :=
  ["complementary"; "analogous"; "triadic"; "split_complementary"].

Definition wrap (h : float) : float := PyFloat.mod1 h.

Definition hues (d : float) (ty : string) (h : float) : option (list float) :=
  if String.eqb ty "complementary" then Some [wrap (h + 0.5)]
  else if String.eqb ty "analogous" then Some [wrap (h + d); wrap (h - d)]
  else if String.eqb ty "triadic" then Some [wrap (h + 0.333); wrap (h + 0.667)]
  else if String.eqb ty "split_complementary" then
    Some [wrap (wrap (h + 0.5) + d); wrap (wrap (h + 0.5) - d)]
  else None.

(** The scheme step: the seed itself, then one colour per derived hue at
    the seed's lightness and saturation. *)
Definition scheme_colors (d : float) (base ty : string) : result (list string) :=
  '(h, l, s) ← hex_to_hsl base;
  match hues d ty h with
  | Some hs => cs ← mapM (λ hue, hsl_to_hex hue l s) hs; Ok (base :: cs)
  | None => Ok []
  end.

(** Lightness raised by 0.2 and capped at 1.0; lowered by 0.2 and floored
    at 0.0. *)
Definition lighten (l : float) : float :=
  let x := (l + 0.2)%float in if (1 <? x)%float then 1%float else x.
Definition darken (l : float) : float :=
  let x := (l - 0.2)%float in if (x <? 0)%float then 0%float else x.

(** Characters that can occur in a base-16 integer of at most two
    characters: digits, a sign, blanks. *)
Definition int_char (c : ascii) : bool :=
  is_hex_digit c || PyStr.isspace c || Ascii.eqb c "+" || Ascii.eqb c "-".

End Spec.

(** [a] is a finite number whose exact value is [q]. *)
Definition has_value (a : pynum) (q : Q) : Prop :=
  ∃ q', PyNum.to_Q a = Some q' ∧ (q' == q)%Q.

Definition has_valueb (a : pynum) (q : Q) : bool :=
  match PyNum.to_Q a with
  | Some q' => Qeq_bool q' q
  | None => false
  end.

(** * Exhaustive check of the colour cube

    The conversions are run on all 256^3 colours with machine integers;
    [chan_int] takes the decisions of [PyFloat.to_int] on a finite float
    below 2^53 and keeps the channels that come out non-negative. *)

Definition chan_int (x : float) : option int :=
  let a := abs x in
  if (a <? 1)%float then Some 0%uint63
  else if (a <? 0x1p53)%float then
    if (x <? 0)%float then None else Some (PyFloat.trunc_small a)
  else None.

(** The channel read back is the original one or the one just below. *)
Definition near (i : int) (x : float) : bool :=
  match chan_int x with
  | Some n => Uint63.leb n i && Uint63.leb (Uint63.sub i n) 1%uint63
  | None => false
  end.

(** [rgb_to_hls] then [hls_to_rgb] on the channels [r g b], the floats of
    the bytes [i j k], written out so that nothing is computed twice. *)
Definition round_trip_ok (r g b : float) (i j k : int) : bool :=
  let maxc := PyFloat.max (PyFloat.max r g) b in
  let minc := PyFloat.min (PyFloat.min r g) b in
  let sumc := (maxc + minc)%float in
  let rangec := (maxc - minc)%float in
  let l := (sumc / 2)%float in
  if (minc =? maxc)%float then
    let y := (l * 255)%float in near i y && near j y && near k y
  else
    let d := if (l <=? 0.5)%float then sumc else (2 - maxc - minc)%float in
    if (d =? 0)%float then false
    else if (rangec =? 0)%float then false
    else
      let s := (rangec / d)%float in
      let rc := ((maxc - r) / rangec)%float in
      let gc := ((maxc - g) / rangec)%float in
      let bc := ((maxc - b) / rangec)%float in
      let h := if (r =? maxc)%float then (bc - gc)%float
               else if (g =? maxc)%float then (2 + rc - bc)%float
               else (4 + gc - rc)%float in
      let h := PyFloat.mod1 (h / 6)%float in
      if (s =? 0)%float then
        let y := (l * 255)%float in near i y && near j y && near k y
      else
        let m2 := if (l <=? 0.5)%float then (l * (1 + s))%float
                  else (l + s - l * s)%float in
        let m1 := (2 * l - m2)%float in
        near i (colorsys._v m1 m2 (h + colorsys.ONE_THIRD) * 255)%float
        && near j (colorsys._v m1 m2 h * 255)%float
        && near k (colorsys._v m1 m2 (h - colorsys.ONE_THIRD) * 255)%float.

(** The same check through the two conversions as they are defined. *)
Definition round_trip_model (r g b : float) (i j k : int) : bool :=
  match colorsys.rgb_to_hls r g b with
  | Ok (h, l, s) =>
      let '(r', g', b') := colorsys.hls_to_rgb h l s in
      near i (r' * 255)%float && near j (g' * 255)%float && near k (b' * 255)%float
  | Raise _ => false
  end.

Definition byte_float (i : int) : float := (of_uint63 i / 255)%float.

Definition bytes256 : list int :=
  Eval vm_compute in map (λ n, Uint63.of_Z (Z.of_nat n)) (seq 0 256).

(** The two-character formats of 0..255 read back as themselves. *)
Definition format_ok (n : Z) : bool :=
  match PyStr.format_02x n with
  | String c1 (String c2 EmptyString) =>
      Spec.is_hex_digit c1 && Spec.is_hex_digit c2
      && (16 * Spec.digit c1 + Spec.digit c2 =? n)
  | _ => false
  end.

(** Everything the parser needs to know about a hexadecimal digit. *)
Definition hex_digit_check (c : ascii) : bool :=
  negb (Spec.is_hex_digit c)
  || (match PyStr.hex_value c with Some d => d =? Spec.digit c | None => false end
      && negb (PyStr.isspace c)
      && negb (Ascii.eqb c "+") && negb (Ascii.eqb c "-") && negb (Ascii.eqb c "_")
      && negb (Ascii.eqb c "x") && negb (Ascii.eqb c "X") && negb (Ascii.eqb c "#")
      && (0 <=? Spec.digit c) && (Spec.digit c <? 16)).

(** * Palette layer and profile store *)

(** *** lighten_color (lines 714-724) *)

(** [min(255, int(c + (255 - c) * factor))] *)
Definition lighten_channel (c : Z) (factor : float) : result Z :=
  n ← PyFloat.to_int (PyFloat.of_Z c + PyFloat.of_Z (255 - c) * factor)%float;
  Ok (Z.min 255 n).

(** The body of the [try]. *)
Definition lighten_attempt (hex_color : string) (factor : float) : result string :=
  let hex_color := PyStr.lstrip "#" hex_color in
  r ← PyStr.int16 (PyStr.slice 0 2 hex_color);
  g ← PyStr.int16 (PyStr.slice 2 4 hex_color);
  b ← PyStr.int16 (PyStr.slice 4 6 hex_color);
  r ← lighten_channel r factor;
  g ← lighten_channel g factor;
  b ← lighten_channel b factor;
  Ok ("#" +:+ PyStr.format_02x r +:+ PyStr.format_02x g +:+ PyStr.format_02x b).

(** The bare [except] turns every exception into white. *)
Definition lighten_color (hex_color : string) (factor : float) : string :=
  match lighten_attempt hex_color factor with
  | Ok s => s
  | Raise _ => "#FFFFFF"
  end.

(** The default of the parameter [factor]. *)
Definition lighten_factor : float := 0.3%float.

(** Checkers *)
Definition all_ascii : list ascii :=
  Eval vm_compute in map ascii_of_nat (seq 0 256).

(** What a slice of at most two characters leads to: rejected by [int], or
    lightened to a channel that prints as two digits. *)
Definition slice_ok (s : string) : bool :=
  match PyStr.int16 s with
  | Ok c =>
      match lighten_channel c lighten_factor with
      | Ok n => format_ok n
      | Raise _ => false
      end
  | Raise _ => true
  end.

Definition lighten_exact (c : Z) : Z := c + 3 * (255 - c) / 10.

Definition channel_ok (c : Z) : bool :=
  match lighten_channel c lighten_factor with
  | Ok n => n =? lighten_exact c
  | Raise _ => false
  end.

(** ** Exceptions of the palette layer: those of the engine and [IndexError] *)

Inductive exception : Set :=
  | IndexError
  | Engine (e : exn).

Inductive outcome (A : Type) : Type :=
  | Return (a : A)
  | Throw (e : exception).
Arguments Return {A} a.
Arguments Throw {A} e.

#[global] Instance outcome_ret : MRet outcome := λ A a, Return a.
#[global] Instance outcome_bind : MBind outcome := λ A B k m,
  match m with
  | Return a => k a
  | Throw e => Throw e
  end.

Definition returns {A} (m : outcome A) : bool :=
  match m with Return _ => true | Throw _ => false end.

(** ** Text methods, on UTF-8

    The display names of the seasons are UTF-8 text; [split] and [lower]
    are modelled on that encoding.  [lower] covers the characters below
    U+0100 (one byte, or two bytes led by C2 or C3). *)

Module PyText.

Definition byte (c : ascii) : N := N_of_ascii c.

(** One-byte white space: TAB..CR, FS..US and the blank. *)
Definition ws1 (a : ascii) : bool :=
  let n := byte a in
  ((9 <=? n) && (n <=? 13) || (28 <=? n) && (n <=? 32))%N.

(** Two bytes: U+0085 and U+00A0. *)
Definition ws2 (a b : ascii) : bool :=
  ((byte a =? 194) && ((byte b =? 133) || (byte b =? 160)))%N.

(** Three bytes: U+1680, U+2000..U+200A, U+2028, U+2029, U+202F, U+205F
    and U+3000. *)
Definition ws3 (a b c : ascii) : bool :=
  let '(x, y, z) := (byte a, byte b, byte c) in
  ((x =? 225) && (y =? 154) && (z =? 128)
   || (x =? 226) && (y =? 128)
      && ((128 <=? z) && (z <=? 138) || (z =? 168) || (z =? 169) || (z =? 175))
   || (x =? 226) && (y =? 129) && (z =? 159)
   || (x =? 227) && (y =? 128) && (z =? 128))%N.

(** Does a white-space character start here? *)
Definition at_space (cs : list ascii) : bool :=
  match cs with
  | a :: t =>
      ws1 a
      || match t with
         | b :: t' =>
             ws2 a b || match t' with c :: _ => ws3 a b c | [] => false end
         | [] => false
         end
  | [] => false
  end.

Fixpoint lstrip_space (cs : list ascii) : list ascii :=
  match cs with
  | a :: t1 =>
      if ws1 a then lstrip_space t1
      else match t1 with
           | b :: t2 =>
               if ws2 a b then lstrip_space t2
               else match t2 with
                    | c :: t3 => if ws3 a b c then lstrip_space t3 else cs
                    | [] => cs
                    end
           | [] => cs
           end
  | [] => []
  end.

Fixpoint word (cs : list ascii) : list ascii :=
  match cs with
  | a :: t => if at_space cs then [] else a :: word t
  | [] => []
  end.

(** [s.split()[0]]: the first run of characters that are not white space;
    [IndexError] when there is none. *)
Definition first_word (s : string) : outcome string :=
  match word (lstrip_space (list_ascii_of_string s)) with
  | [] => Throw IndexError
  | w => Return (string_of_list_ascii w)
  end.

Definition shift (a : ascii) : ascii := ascii_of_N (byte a + 32).

(** [s.lower()]: A..Z, and U+00C0..U+00DE but the sign U+00D7, move up by
    32; the rest stays. *)
Fixpoint lower_bytes (cs : list ascii) : list ascii :=
  match cs with
  | a :: t =>
      if ((65 <=? byte a) && (byte a <=? 90))%N then shift a :: lower_bytes t
      else if (byte a =? 195)%N then
        match t with
        | b :: t' =>
            a :: (if ((128 <=? byte b) && (byte b <=? 158) && negb (byte b =? 151))%N
                  then shift b else b) :: lower_bytes t'
        | [] => [a]
        end
      else a :: lower_bytes t
  | [] => []
  end.

Definition lower (s : string) : string :=
  string_of_list_ascii (lower_bytes (list_ascii_of_string s)).

End PyText.

(** [l[i]] and [l[-k]] *)
Definition item {A} (l : list A) (i : nat) : outcome A :=
  match l !! i with
  | Some a => Return a
  | None => Throw IndexError
  end.

Definition item_back {A} (l : list A) (k : nat) : outcome A :=
  if (k <=? length l)%nat then item l (length l - k) else Throw IndexError.

Definition engine {A} (m : result A) : outcome A :=
  match m with
  | Ok a => Return a
  | Raise e => Throw (Engine e)
  end.

(** ** Palette builders (lines 628-785)

    A [season_info] dictionary is the record of the engine; colour lists
    are lists of strings. *)

(** [season_info["name"].split()[0].lower()] *)
Definition season_word (info : season_info) : outcome string :=
  w ← PyText.first_word (name info);
  Return (PyText.lower w).

(** *** determine_foundation_shade (lines 703-712) *)

Definition base_mapping : gmap string string :=
  list_to_map [("primavera", "#F5DEB3"); ("verano", "#F0F0F0");
               ("otono", "#DEB887"); ("invierno", "#FFE4E1")].

Definition determine_foundation_shade (info : season_info) : outcome string :=
  season_key ← season_word info;
  Return (default "#F5DEB3" (base_mapping !! season_key)).

(** *** get_neutral_colors (lines 726-735) *)

Definition neutral_mapping : gmap string (list string) :=
  list_to_map [("primavera", ["#F5F5DC"; "#DEB887"; "#D2B48C"]);
               ("verano", ["#F8F8FF"; "#E6E6FA"; "#D3D3D3"]);
               ("otono", ["#F4A460"; "#D2B48C"; "#A0522D"]);
               ("invierno", ["#FFFFFF"; "#000000"; "#808080"])].

Definition get_neutral_colors (info : season_info) : outcome (list string) :=
  season_key ← season_word info;
  Return (default ["#FFFFFF"; "#000000"; "#808080"] (neutral_mapping !! season_key)).

(** *** generate_clothing_combinations (lines 737-754) *)

Record combination : Set := {
  superior : string;
  inferior : string;
  descripcion : string
}.

Definition generate_clothing_combinations (colors : list string) (event_type : string)
    : outcome (list combination) :=
  if (length colors <? 2)%nat then Return []
  else
    c0 ← item colors 0; c1 ← item colors 1;
    let first :=
      {| superior := c0; inferior := c1;
         descripcion := "Combinación armónica principal" |} in
    c1 ← item colors 1; c0 ← item colors 0;
    let second :=
      {| superior := c1; inferior := c0;
         descripcion := "Combinación armónica invertida" |} in
    let combinations := [first; second] in
    if (2 <? length colors)%nat then
      c0 ← item colors 0; c2 ← item colors 2;
      Return (combinations ++ [{| superior := c0; inferior := c2;
                                  descripcion := "Combinación con contraste" |}])
    else Return combinations.

(** *** get_recommended_stones (lines 756-765) *)

Definition stone_mapping : gmap string (list string) :=
  list_to_map [("primavera", ["Topacio"; "Peridoto"; "Aguamarina"]);
               ("verano", ["Perla"; "Amatista"; "Agua marina"]);
               ("otono", ["Ámbar"; "Granate"; "Topacio dorado"]);
               ("invierno", ["Diamante"; "Rubí"; "Zafiro"])].

Definition get_recommended_stones (info : season_info) (colors : list string)
    : outcome (list string) :=
  season_key ← season_word info;
  Return (default ["Cuarzo"; "Perla"] (stone_mapping !! season_key)).

(** *** get_recommended_textures (lines 767-776) *)

Definition texture_mapping : gmap string (list string) :=
  list_to_map [("primavera", ["Algodón ligero"; "Lino"; "Seda"]);
               ("verano", ["Chiffon"; "Organza"; "Algodón suave"]);
               ("otono", ["Tweed"; "Terciopelo"; "Lana"]);
               ("invierno", ["Satén"; "Cuero"; "Cachemira"])].

Definition get_recommended_textures (info : season_info) : outcome (list string) :=
  season_key ← season_word info;
  Return (default ["Algodón"; "Poliéster"] (texture_mapping !! season_key)).

(** *** get_makeup_technique (lines 778-785) *)

Definition get_makeup_technique (info : season_info) (event_type : string) : string :=
  if String.eqb (contrast info) "alto" then
    "Maquillaje con contrastes definidos, colores intensos"
  else if String.eqb (saturation info) "alta" then
    "Colores vibrantes, difuminados suaves"
  else "Maquillaje suave, técnica de difuminado natural".

(** *** generate_makeup_palette (lines 628-663) *)

Module Makeup.

Record event_config : Set := {
  intensity : string;
  colors_count : Z
}.

Definition event_intensities : gmap string event_config :=
  list_to_map [("casual", {| intensity := "suave"; colors_count := 4 |});
               ("trabajo", {| intensity := "profesional"; colors_count := 3 |});
               ("formal", {| intensity := "elegante"; colors_count := 5 |});
               ("fiesta", {| intensity := "vibrante"; colors_count := 6 |});
               ("noche", {| intensity := "dramatica"; colors_count := 6 |});
               ("playa", {| intensity := "natural"; colors_count := 3 |})].

Record ojos_t : Set := {
  sombras_principales : list string;
  sombra_iluminadora : string;
  delineador : string
}.

Record rostro_t : Set := {
  base : string;
  rubor : string;
  iluminador : string
}.

Record labios_t : Set := {
  color_principal : string;
  alternativo : string
}.

Record recomendaciones_t : Set := {
  intensidad : string;
  ocasion : string;
  tecnica : string
}.

Record t : Set := {
  ojos : ojos_t;
  rostro : rostro_t;
  labios : labios_t;
  recomendaciones : recomendaciones_t
}.

End Makeup.

Definition generate_makeup_palette
    (base_colors : list string) (info : season_info) (event_type : string)
    : outcome Makeup.t :=
  casual ← engine (getitem Makeup.event_intensities "casual");
  let event_config := default casual (Makeup.event_intensities !! event_type) in
  sombra_iluminadora ←
    (if (2 <? length base_colors)%nat then item base_colors 2 else Return "#FFFFFF");
  let delineador := if String.eqb (contrast info) "alto" then "#000000" else "#8B4513" in
  base ← determine_foundation_shade info;
  rubor ← (if (1 <? length base_colors)%nat then item base_colors 1 else Return "#FFB6C1");
  iluminador ←
    (if bool_decide (base_colors ≠ [])
     then c ← item base_colors 0; Return (lighten_color c lighten_factor)
     else Return "#F0F8FF");
  color_principal ←
    (if bool_decide (base_colors ≠ []) then item_back base_colors 1 else Return "#FF69B4");
  alternativo ←
    (if (1 <? length base_colors)%nat then item_back base_colors 2 else Return "#FFB6C1");
  Return
    {| Makeup.ojos :=
         {| Makeup.sombras_principales := take 2 base_colors;
            Makeup.sombra_iluminadora := sombra_iluminadora;
            Makeup.delineador := delineador |};
       Makeup.rostro :=
         {| Makeup.base := base; Makeup.rubor := rubor; Makeup.iluminador := iluminador |};
       Makeup.labios :=
         {| Makeup.color_principal := color_principal;
            Makeup.alternativo := alternativo |};
       Makeup.recomendaciones :=
         {| Makeup.intensidad := Makeup.intensity event_config;
            Makeup.ocasion := event_type;
            Makeup.tecnica := get_makeup_technique info event_type |} |}.

(** *** generate_clothing_palette (lines 665-679) *)

Module Clothing.

Record estilos_t : Set := {
  ocasion : string;
  temperatura_color : string;
  saturacion : string
}.

Record t : Set := {
  colores_principales : list string;
  colores_neutros : list string;
  colores_accent : list string;
  combinaciones_recomendadas : list combination;
  texturas_recomendadas : list string;
  estilos : estilos_t
}.

End Clothing.

Definition generate_clothing_palette
    (base_colors : list string) (info : season_info) (event_type : string)
    : outcome Clothing.t :=
  colores_neutros ← get_neutral_colors info;
  let colores_accent := if (3 <? length base_colors)%nat then drop 3 base_colors else [] in
  combinaciones ← generate_clothing_combinations base_colors event_type;
  texturas ← get_recommended_textures info;
  Return
    {| Clothing.colores_principales := take 3 base_colors;
       Clothing.colores_neutros := colores_neutros;
       Clothing.colores_accent := colores_accent;
       Clothing.combinaciones_recomendadas := combinaciones;
       Clothing.texturas_recomendadas := texturas;
       Clothing.estilos :=
         {| Clothing.ocasion := event_type;
            Clothing.temperatura_color := temperature info;
            Clothing.saturacion := saturation info |} |}.

(** *** generate_accessories_palette (lines 681-700)

    The key of the scarves entry is written without its tilde. *)

Module Accessories.

Record joyeria_t : Set := {
  metal_principal : string;
  piedras_recomendadas : list string
}.

Record bolsos_zapatos_t : Set := {
  colores_versatiles : list string;
  colores_statement : list string
}.

Record recomendaciones_t : Set := {
  contraste : string;
  estilo_ocasion : string
}.

Record t : Set := {
  joyeria : joyeria_t;
  bolsos_zapatos : bolsos_zapatos_t;
  panuelos_bufandas : list string;
  recomendaciones : recomendaciones_t
}.

End Accessories.

Definition generate_accessories_palette
    (base_colors : list string) (info : season_info) (event_type : string)
    : outcome Accessories.t :=
  let metal_preference := if String.eqb (temperature info) "calido" then "oro" else "plata" in
  piedras ← get_recommended_stones info base_colors;
  versatiles ← get_neutral_colors info;
  Return
    {| Accessories.joyeria :=
         {| Accessories.metal_principal := metal_preference;
            Accessories.piedras_recomendadas := piedras |};
       Accessories.bolsos_zapatos :=
         {| Accessories.colores_versatiles := versatiles;
            Accessories.colores_statement := take 2 base_colors |};
       Accessories.panuelos_bufandas := base_colors;
       Accessories.recomendaciones :=
         {| Accessories.contraste := contrast info;
            Accessories.estilo_ocasion := event_type |} |}.

(** ** tool_quick_palette (lines 533-587)

    The arguments are a dictionary of strings; the clock reading
    [datetime.now().isoformat()] is the parameter [now]. *)

Inductive palette_colors : Set :=
  | MakeupColors (p : Makeup.t)
  | ClothingColors (p : Clothing.t)
  | AccessoriesColors (p : Accessories.t)
  | GenericColors (primary secondary accent : list string).

Record color_theory : Set := {
  theory_temperature : string;
  theory_saturation : string;
  explanation : string
}.

Record quick_palette : Set := {
  palette_type : string;
  event_type : string;
  estimated_season : string;
  generated_at : string;
  colors : palette_colors;
  theory : color_theory
}.

Definition season_mapping : gmap string string :=
  list_to_map [("clara_frio_medio", "verano_frio");
               ("clara_calido_medio", "primavera_calida");
               ("clara_neutro_medio", "verano_suave");
               ("media_frio_medio", "verano_frio");
               ("media_calido_medio", "otono_suave");
               ("media_neutro_medio", "verano_suave");
               ("oscura_frio_medio", "invierno_profundo");
               ("oscura_calido_medio", "otono_profundo");
               ("oscura_neutro_medio", "invierno_profundo")].

(** Lines 541-556: the season the quick palette settles on. *)
Definition quick_season (skin_tone undertone : string) : string :=
  let season_key := skin_tone +:+ "_" +:+ undertone +:+ "_medio" in
  default "verano_suave" (season_mapping !! season_key).

Definition tool_quick_palette (args : gmap string string) (now : string)
    : outcome quick_palette :=
  let palette_type := default "ropa" (args !! "palette_type") in
  let skin_tone := default "media" (args !! "skin_tone") in
  let undertone := default "neutro" (args !! "undertone") in
  let event_type := default "casual" (args !! "event_type") in
  let season := quick_season skin_tone undertone in
  info ← engine (getitem SEASONS season);
  palette ←
    (if String.eqb palette_type "maquillaje" then
       p ← generate_makeup_palette (best_colors info) info event_type;
       Return (MakeupColors p)
     else if String.eqb palette_type "ropa" then
       p ← generate_clothing_palette (best_colors info) info event_type;
       Return (ClothingColors p)
     else if String.eqb palette_type "accesorios" then
       p ← generate_accessories_palette (best_colors info) info event_type;
       Return (AccessoriesColors p)
     else
       let best := best_colors info in
       Return (GenericColors
                 (take 3 best)
                 (if (3 <? length best)%nat then take 3 (drop 3 best) else [])
                 (if (2 <? length best)%nat then drop (length best - 2) best else [])));
  Return
    {| palette_type := palette_type;
       event_type := event_type;
       estimated_season := name info;
       generated_at := now;
       colors := palette;
       theory :=
         {| theory_temperature := temperature info;
            theory_saturation := saturation info;
            explanation := "Paleta basada en " +:+ name info +:+ ": "
                           +:+ characteristics info |} |}.

(** ** The profile store (lines 15-35)

    [DATA_FILE] holds one JSON document.  Its state is [None] while the
    file does not exist, and otherwise the dictionary that [json.load]
    reads back, which is the one [json.dump] wrote: the document is taken
    to have the shape the tools give it, and reading and writing the file
    are taken to succeed.  The profiles are kept in insertion order, as a
    Python dictionary keeps them. *)

Module Dict.

Fixpoint get {V} (d : list (string * V)) (k : string) : option V :=
  match d with
  | [] => None
  | (k', v) :: d' => if String.eqb k' k then Some v else get d' k
  end.

(** [d[k] = v]: an existing key keeps its place, a new one goes last. *)
Fixpoint set {V} (d : list (string * V)) (k : string) (v : V) : list (string * V) :=
  match d with
  | [] => [(k, v)]
  | (k', v') :: d' =>
      if String.eqb k' k then (k, v) :: d' else (k', v') :: set d' k v
  end.

(** [del d[k]] for a key that is present. *)
Fixpoint del {V} (d : list (string * V)) (k : string) : list (string * V) :=
  match d with
  | [] => []
  | (k', v) :: d' => if String.eqb k' k then d' else (k', v) :: del d' k
  end.

End Dict.

Module Profile.

Record basic_info_t : Set := {
  user_id : string;
  name : string;
  created_at : string
}.

Record physical_characteristics_t : Set := {
  skin_tone : string;
  vein_color : string;
  eye_color : string;
  hair_color : string;
  natural_lip_color : string;
  contrast_level : string
}.

Record preferences_t : Set := {
  jewelry_preference : string;
  sun_reaction : string;
  style_preference : string
}.

Record color_analysis_t : Set := {
  undertone_analysis : undertone_analysis;
  season_analysis : season_analysis;
  recommended_colors : list string;
  colors_to_avoid : list string
}.

Record t : Set := {
  basic_info : basic_info_t;
  physical_characteristics : physical_characteristics_t;
  preferences : preferences_t;
  color_analysis : color_analysis_t
}.

End Profile.

Record palette_theory : Set := {
  palette_temperature : string;
  palette_saturation : string;
  palette_contrast : string;
  palette_explanation : string
}.

(** An entry of [data["palettes"][user_id]]. *)
Record palette_result : Set := {
  result_user_id : string;
  result_palette_type : string;
  result_event_type : string;
  result_generated_at : string;
  base_season : string;
  main_palette : palette_colors;
  harmony_colors : list string;
  result_theory : palette_theory
}.

(** The document: [profiles] is always there, [palettes] may be missing. *)
Record store : Type := {
  profiles : list (string * Profile.t);
  palettes : option (gmap string (list palette_result))
}.

Definition empty_store : store := {| profiles := []; palettes := Some ∅ |}.

Definition file : Type := option store.

(** [load_data]: a missing file is created by [init_data_storage] with the
    empty document, which is also what is returned. *)
Definition load_data (f : file) : file * store :=
  match f with
  | Some data => (f, data)
  | None => (Some empty_store, empty_store)
  end.

Definition save_data (data : store) : file := Some data.

(** ** The tools on the store (lines 311-531 and 589-622)

    A tool takes its arguments, a dictionary of strings, and the state of
    the file, and gives the new state and its answer.  [Error msg] is the
    answer [{"error": msg}]; [Caught context e] is the answer of an
    [except Exception] clause, [{"error": f"{context}: {str(e)}"}].  The
    clock reading [datetime.now().isoformat()] is the parameter [now]. *)

Inductive response (A : Type) : Type :=
  | Success (a : A)
  | Error (msg : string)
  | Caught (context : string) (e : exception).
Arguments Success {A} a.
Arguments Error {A} msg.
Arguments Caught {A} context e.

(** The loop over [required_fields]: the first field that [args] lacks. *)
Fixpoint first_missing (fields : list string) (args : gmap string string) : option string :=
  match fields with
  | [] => None
  | field :: rest =>
      match args !! field with
      | None => Some field
      | Some _ => first_missing rest args
      end
  end.

(** [args[k]] *)
Definition arg (args : gmap string string) (k : string) : outcome string :=
  engine (getitem args k).

(** The end of a [try] block: an exception leaves the file as it was after
    [load_data], since only the last statement before [return] writes. *)
Definition try_tool {A} (loaded : file) (context : string)
    (body : outcome (file * response A)) : file * response A :=
  match body with
  | Return r => r
  | Throw e => (loaded, Caught context e)
  end.

(** *** tool_create_profile (lines 311-392)

    The answer is given without its ["color_analysis_summary"], display
    texts taken from the profile. *)

Definition create_required_fields : list string :=
  ["user_id"; "name"; "skin_tone"; "vein_color"; "jewelry_preference";
   "sun_reaction"; "eye_color"; "hair_color"; "natural_lip_color"; "contrast_level"].

Record created : Set := {
  created_message : string;
  created_profile : Profile.t
}.

Definition tool_create_profile (args : gmap string string) (now : string) (f : file)
    : file * response created :=
  match first_missing create_required_fields args with
  | Some field => (f, Error ("Campo requerido faltante: " +:+ field))
  | None =>
      let '(loaded, data) := load_data f in
      try_tool loaded "Error creando perfil" (
        user_id ← arg args "user_id";
        if bool_decide (is_Some (Dict.get (profiles data) user_id)) then
          user_id ← arg args "user_id";
          Return (loaded, Error ("El perfil " +:+ user_id +:+ " ya existe"))
        else
          vein_color ← arg args "vein_color";
          jewelry_preference ← arg args "jewelry_preference";
          sun_reaction ← arg args "sun_reaction";
          natural_lip_color ← arg args "natural_lip_color";
          let undertone_analysis :=
            analyze_undertone vein_color jewelry_preference sun_reaction natural_lip_color in
          skin_tone ← arg args "skin_tone";
          eye_color ← arg args "eye_color";
          hair_color ← arg args "hair_color";
          contrast_level ← arg args "contrast_level";
          season_analysis ← engine (determine_season skin_tone (undertone undertone_analysis)
                                      eye_color hair_color contrast_level);
          user_id ← arg args "user_id";
          name ← arg args "name";
          skin_tone ← arg args "skin_tone";
          vein_color ← arg args "vein_color";
          eye_color ← arg args "eye_color";
          hair_color ← arg args "hair_color";
          natural_lip_color ← arg args "natural_lip_color";
          contrast_level ← arg args "contrast_level";
          jewelry_preference ← arg args "jewelry_preference";
          sun_reaction ← arg args "sun_reaction";
          let profile :=
            {| Profile.basic_info :=
                 {| Profile.user_id := user_id; Profile.name := name;
                    Profile.created_at := now |};
               Profile.physical_characteristics :=
                 {| Profile.skin_tone := skin_tone; Profile.vein_color := vein_color;
                    Profile.eye_color := eye_color; Profile.hair_color := hair_color;
                    Profile.natural_lip_color := natural_lip_color;
                    Profile.contrast_level := contrast_level |};
               Profile.preferences :=
                 {| Profile.jewelry_preference := jewelry_preference;
                    Profile.sun_reaction := sun_reaction;
                    Profile.style_preference :=
                      default "moderno" (args !! "style_preference") |};
               Profile.color_analysis :=
                 {| Profile.undertone_analysis := undertone_analysis;
                    Profile.season_analysis := season_analysis;
                    Profile.recommended_colors :=
                      best_colors (season_data season_analysis);
                    Profile.colors_to_avoid :=
                      avoid_colors (season_data season_analysis) |} |} in
          user_id ← arg args "user_id";
          let data :=
            {| profiles := Dict.set (profiles data) user_id profile;
               palettes := palettes data |} in
          let saved := save_data data in
          name ← arg args "name";
          Return (saved,
                  Success {| created_message := "Perfil creado exitosamente para " +:+ name;
                             created_profile := profile |}))
  end.

(** *** tool_show_profile (lines 394-412) *)

Definition tool_show_profile (args : gmap string string) (f : file)
    : file * response Profile.t :=
  match args !! "user_id" with
  | None => (f, Error "Se requiere user_id")
  | Some _ =>
      let '(loaded, data) := load_data f in
      try_tool loaded "Error mostrando perfil" (
        user_id ← arg args "user_id";
        match Dict.get (profiles data) user_id with
        | None =>
            user_id ← arg args "user_id";
            Return (loaded, Error ("Perfil " +:+ user_id +:+ " no encontrado"))
        | Some profile => Return (loaded, Success profile)
        end)
  end.

(** *** tool_list_profiles (lines 414-442) *)





(** *** tool_delete_profile (lines 444-464) *)

Definition tool_delete_profile (args : gmap string string) (f : file)
    : file * response string :=
  match args !! "user_id" with
  | None => (f, Error "Se requiere user_id")
  | Some _ =>
      let '(loaded, data) := load_data f in
      try_tool loaded "Error eliminando perfil" (
        user_id ← arg args "user_id";
        if bool_decide (is_Some (Dict.get (profiles data) user_id)) then
          user_id ← arg args "user_id";
          let data :=
            {| profiles := Dict.del (profiles data) user_id;
               palettes := palettes data |} in
          let saved := save_data data in
          user_id ← arg args "user_id";
          Return (saved, Success ("Perfil " +:+ user_id +:+ " eliminado exitosamente"))
        else
          user_id ← arg args "user_id";
          Return (loaded, Error ("Perfil " +:+ user_id +:+ " no encontrado")))
  end.

(** *** tool_generate_palette (lines 466-531)

    [list(set(variations))] lists the harmony set in an order Python
    leaves open; [order] is the listing it yields. *)

Definition generate_required_fields : list string := ["user_id"; "palette_type"].

Definition tool_generate_palette
    (order : gset string → list string)
    (args : gmap string string) (now : string) (f : file)
    : file * response palette_result :=
  match first_missing generate_required_fields args with
  | Some field => (f, Error ("Campo requerido: " +:+ field))
  | None =>
      let '(loaded, data) := load_data f in
      try_tool loaded "Error generando paleta" (
        user_id ← arg args "user_id";
        match Dict.get (profiles data) user_id with
        | None =>
            user_id ← arg args "user_id";
            Return (loaded, Error ("Perfil " +:+ user_id +:+ " no encontrado"))
        | Some profile =>
            let info := season_data (Profile.season_analysis (Profile.color_analysis profile)) in
            let base_colors := best_colors info in
            palette_type ← arg args "palette_type";
            let event_type := default "casual" (args !! "event_type") in
            palette ←
              (if String.eqb palette_type "maquillaje" then
                 p ← generate_makeup_palette base_colors info event_type;
                 Return (Some (MakeupColors p))
               else if String.eqb palette_type "ropa" then
                 p ← generate_clothing_palette base_colors info event_type;
                 Return (Some (ClothingColors p))
               else if String.eqb palette_type "accesorios" then
                 p ← generate_accessories_palette base_colors info event_type;
                 Return (Some (AccessoriesColors p))
               else Return None);
            match palette with
            | None =>
                Return (loaded, Error ("Tipo de paleta no válido: " +:+ palette_type))
            | Some palette =>
                harmony_palette ← engine (generate_harmony_palette base_colors "complementary");
                user_id ← arg args "user_id";
                let palette_result :=
                  {| result_user_id := user_id;
                     result_palette_type := palette_type;
                     result_event_type := event_type;
                     result_generated_at := now;
                     base_season := name info;
                     main_palette := palette;
                     harmony_colors := take 8 (order harmony_palette);
                     result_theory :=
                       {| palette_temperature := temperature info;
                          palette_saturation := saturation info;
                          palette_contrast := contrast info;
                          palette_explanation := characteristics info |} |} in
                let all := default ∅ (palettes data) in
                user_id ← arg args "user_id";
                let all :=
                  match all !! user_id with
                  | None => <[user_id := []]> all
                  | Some _ => all
                  end in
                user_id ← arg args "user_id";
                mine ← engine (getitem all user_id);
                let all := <[user_id := mine ++ [palette_result]]> all in
                let data := {| profiles := profiles data; palettes := Some all |} in
                Return (save_data data, Success palette_result)
            end
        end)
  end.

(** *** tool_export_data (lines 589-622) *)

Record export_info : Set := {
  export_user_id : string;
  exported_at : string;
  version : string
}.

Record export_summary : Set := {
  profile_created : string;
  total_palettes : nat;
  color_season : string
}.

Record exported : Set := {
  info_of_export : export_info;
  exported_profile : Profile.t;
  exported_palettes : list palette_result;
  summary : export_summary
}.

Definition tool_export_data (args : gmap string string) (now : string) (f : file)
    : file * response exported :=
  match args !! "user_id" with
  | None => (f, Error "Se requiere user_id")
  | Some _ =>
      let '(loaded, data) := load_data f in
      try_tool loaded "Error exportando datos" (
        user_id ← arg args "user_id";
        match Dict.get (profiles data) user_id with
        | None => Return (loaded, Error ("Perfil " +:+ user_id +:+ " no encontrado"))
        | Some profile =>
            let export_palettes := default [] (default ∅ (palettes data) !! user_id) in
            Return (loaded,
                    Success
                      {| info_of_export :=
                           {| export_user_id := user_id; exported_at := now;
                              version := "2.0" |};
                         exported_profile := profile;
                         exported_palettes := export_palettes;
                         summary :=
                           {| profile_created :=
                                Profile.created_at (Profile.basic_info profile);
                              total_palettes := length export_palettes;
                              color_season :=
                                name (season_data (Profile.season_analysis
                                                     (Profile.color_analysis profile))) |} |})
        end)
  end.

(** ** Reference definitions for the palette layer and the confidence *)

Module PaletteSpec.

(** A text made of white-space characters only. *)
Inductive blank : list ascii → Prop :=
  | blank_nil : blank []
  | blank_1 a t : PyText.ws1 a = true → blank t → blank (a :: t)
  | blank_2 a b t : PyText.ws2 a b = true → blank t → blank (a :: b :: t)
  | blank_3 a b c t : PyText.ws3 a b c = true → blank t → blank (a :: b :: c :: t).

(** The seasons whose identifier is spelled [otono] and whose display name
    is spelled with a tilde. *)
Definition autumn_ids : list string := ["otono_suave"; "otono_profundo"].

(** The seasons the quick palette can settle on. *)
Definition quick_ids : list string :=
  ["verano_frio"; "primavera_calida"; "verano_suave"; "otono_suave";
   "invierno_profundo"; "otono_profundo"].

(** Where the quick mapping departs from the decision table at medium
    contrast: (skin tone, undertone). *)
Definition quick_departures : list (string * string) :=
  [("clara", "neutro"); ("media", "calido"); ("media", "neutro")].

(** Twenty points for each unit of the score, whatever its sign, and at
    most a hundred. *)
Definition confidence_of_score (q : Q) : Q :=
  let x := ((if Qle_bool 0 q then q else - q) * 20)%Q in
  if Qle_bool 100 x then 100%Q else x.

End PaletteSpec.

(** Checker for the confidence of an undertone analysis whose score is [q]. *)
Definition confidence_ok (a : undertone_analysis) (q : Q) : bool :=
  match PyNum.to_Q (confidence a) with
  | Some c =>
      Qeq_bool c (PaletteSpec.confidence_of_score q)
      && Qle_bool 0 c && Qle_bool c 100
      && (if String.eqb (undertone a) "neutro" then Qle_bool c 10 else Qle_bool 20 c)
  | None => false
  end.

(** Checker for a harmony palette: every colour is well formed. *)
Definition palette_ok (base_colors : list string) (harmony_type : string) : bool :=
  match harmony_variations base_colors harmony_type with
  | Ok vs => forallb Spec.well_formed_hex vs && (0 <? length vs)%nat
  | Raise _ => false
  end.

(** * Undertone classifier *)

Section Undertone.

Lemma has_valueb_sound a q : has_valueb a q = true → has_value a q.
  Proof.
    unfold has_valueb, has_value. destruct (PyNum.to_Q a) as [q'|]; [|done].
    intros H. exists q'. split; [done|]. by apply Qeq_bool_iff.
  Qed.

Ltac table_cases :=
    unfold get_num; cbn [list_to_map foldr fst snd];
    rewrite ?lookup_insert, ?lookup_empty;
    repeat case_decide; subst; cbn [default];
    repeat match goal with
           | H : ?k ≠ ?v |- context [String.eqb ?v ?k] =>
               rewrite (proj2 (String.eqb_neq v k)) by congruence
           end;
    rewrite ?elem_of_cons; cbn; auto 10.

Lemma vein_lookup v :
    (get_num vein_scores v, Spec.vein_value v)
      ∈ [(PyInt (-2), -2); (PyInt (-1), -1); (PyInt 2, 2); (PyInt 0, 0)]%Q.
  Proof. unfold vein_scores, Spec.vein_value. table_cases. Qed.

Lemma jewelry_lookup j :
    (get_num jewelry_scores j, Spec.jewelry_term j)
      ∈ [(PyFlt (-1.5), - (3 # 2)); (PyFlt 1.5, 3 # 2); (PyInt 0, 0)]%Q.
  Proof. unfold jewelry_scores, Spec.jewelry_term. table_cases. Qed.

Lemma sun_lookup s :
    (get_num sun_scores s, Spec.sun_term s)
      ∈ [(PyInt (-1), -1); (PyFlt (-0.5), - (1 # 2)); (PyInt 1, 1); (PyInt 0, 0)]%Q.
  Proof. unfold sun_scores, Spec.sun_term. table_cases. Qed.

Lemma lip_lookup l :
    (get_num lip_scores l, Spec.lip_term l)
      ∈ [(PyFlt (-0.5), - (1 # 2)); (PyFlt 0.5, 1 # 2); (PyInt 0, 0)]%Q.
  Proof. unfold lip_scores, Spec.lip_term. table_cases. Qed.

End Undertone.

(** C1. For every four strings, [analyze_undertone] returns (it has no
    failing path: the tables are read with a default) a score whose exact
    value is the sum of the four terms of the specification -- vein value
    times two, jewelry, sun reaction, lip colour, an unlisted value counting
    for zero -- and the category is cold (frio) when that sum is at most -1,
    warm (calido) when it is at least +1, neutral (neutro) otherwise; so -1
    is cold, +1 is warm and 0 is neutral. *)
Theorem analyze_undertone_score_category (v j s l : string) :
  has_value (score (analyze_undertone v j s l)) (Spec.undertone_score v j s l)
  ∧ undertone (analyze_undertone v j s l)
    = Spec.category (Spec.undertone_score v j s l)
  ∧ Spec.category (-1) = "frio"
  ∧ Spec.category 1 = "calido"
  ∧ Spec.category 0 = "neutro".
Proof.
  split_and!; [| |done..];
    unfold analyze_undertone, Spec.undertone_score, Spec.vein_term;
    cbn [score undertone];
    pose proof (vein_lookup v) as Hv; pose proof (jewelry_lookup j) as Hj;
    pose proof (sun_lookup s) as Hs; pose proof (lip_lookup l) as Hl;
    set (a := get_num vein_scores v) in *; set (qa := Spec.vein_value v) in *;
    set (b := get_num jewelry_scores j) in *; set (qb := Spec.jewelry_term j) in *;
    set (c := get_num sun_scores s) in *; set (qc := Spec.sun_term s) in *;
    set (d := get_num lip_scores l) in *; set (qd := Spec.lip_term l) in *;
    clearbody a qa b qb c qc d qd;
    apply list_elem_of_In in Hv, Hj, Hs, Hl; cbn [In] in Hv, Hj, Hs, Hl;
    destruct_or!; try done; simplify_eq;
    first [ apply has_valueb_sound; vm_compute; reflexivity
          | vm_compute; reflexivity ].
Qed.

(** The two thresholds and the midpoint are reached by actual profiles. *)
Example undertone_boundaries :
  analyze_undertone "indefinido" "ambos" "se_quema" "coral"
    = {| undertone := "frio"; score := PyInt (-1); confidence := PyInt 20 |}
  ∧ analyze_undertone "indefinido" "ambos" "broncea_facil" "coral"
    = {| undertone := "calido"; score := PyInt 1; confidence := PyInt 20 |}
  ∧ analyze_undertone "indefinido" "ambos" "tatuaje" "coral"
    = {| undertone := "neutro"; score := PyInt 0; confidence := PyInt 0 |}
  ∧ analyze_undertone "azul_verdoso" "oro" "broncea_despacio" "cafe_rosado"
    = {| undertone := "frio"; score := PyFlt (-1); confidence := PyFlt 20 |}.
Proof. by vm_compute. Qed.

(** * Season classifier *)

Section Season.

Lemma season_rows_keys : season_rows.*1 = Spec.table_keys.
  Proof. reflexivity. Qed.

Lemma season_rows_NoDup : NoDup (season_rows.*1).
  Proof. apply (bool_decide_unpack _). vm_compute. exact I. Qed.

Lemma season_rows_values :
    Forall (λ kv, kv.2 ∈ Spec.season_ids) season_rows.
  Proof. apply (bool_decide_unpack _). vm_compute. exact I. Qed.

Lemma season_ids_known :
    Forall (λ v, is_Some (SEASONS !! v)) Spec.season_ids.
  Proof.
    repeat (constructor; [eexists; vm_compute; reflexivity|]). constructor.
  Qed.

Lemma season_matrix_Some key v :
    season_matrix !! key = Some v ↔ (key, v) ∈ season_rows.
  Proof.
    unfold season_matrix. symmetry.
    apply elem_of_list_to_map, season_rows_NoDup.
  Qed.

Lemma season_matrix_None key :
    season_matrix !! key = None ↔ key ∉ Spec.table_keys.
  Proof.
    unfold season_matrix. rewrite <- season_rows_keys. symmetry.
    apply not_elem_of_list_to_map.
  Qed.

  (** The season chosen for a key is one of the eight, whatever the key. *)
Lemma chosen_season_known key :
    default Spec.default_season (season_matrix !! key) ∈ Spec.season_ids.
  Proof.
    destruct (season_matrix !! key) as [v|] eqn:E; cbn.
    - apply season_matrix_Some in E.
      by apply (proj1 (Forall_forall _ _) season_rows_values (key, v)).
    - unfold Spec.default_season, Spec.season_ids. set_solver.
  Qed.

Lemma getitem_known v :
    v ∈ Spec.season_ids → ∃ info, getitem SEASONS v = Ok info ∧ SEASONS !! v = Some info.
  Proof.
    intros Hv. destruct (proj1 (Forall_forall _ _) season_ids_known v Hv) as [info E].
    exists info. unfold getitem. by rewrite E.
  Qed.

Lemma adjusted_contrast_hit hair eye level v :
    ((hair, eye), v) ∈ contrast_rows → adjusted_contrast hair eye level = v.
  Proof.
    intros Hin. unfold adjusted_contrast, contrast_adjustments.
    assert (NoDup (contrast_rows.*1)) as Hnd
      by (apply (bool_decide_unpack _); vm_compute; exact I).
    by rewrite (proj1 (elem_of_list_to_map _ _ _ Hnd) Hin).
  Qed.

Lemma adjusted_contrast_miss hair eye level :
    (hair, eye) ∉ contrast_rows.*1 → adjusted_contrast hair eye level = level.
  Proof.
    intros Hout. unfold adjusted_contrast, contrast_adjustments.
    by rewrite (proj1 (not_elem_of_list_to_map _ _) Hout).
  Qed.

End Season.

(** What a run of [determine_season] returns, for any five arguments. *)
Lemma determine_season_run skin und eye hair level :
  let adjusted := adjusted_contrast hair eye level in
  let chosen := default Spec.default_season (season_matrix !! (skin, und, adjusted)) in
  ∃ info,
    SEASONS !! chosen = Some info
    ∧ chosen ∈ Spec.season_ids
    ∧ determine_season skin und eye hair level
      = Ok {| season := chosen;
              season_data := info;
              season_confidence := 85;
              reasoning := "Piel " +:+ skin +:+ " + subtono " +:+ und
                           +:+ " + contraste " +:+ adjusted +:+ " = " +:+ name info |}.
Proof.
  intros adjusted chosen.
  pose proof (chosen_season_known (skin, und, adjusted)) as Hknown. fold chosen in Hknown.
  destruct (getitem_known _ Hknown) as (info & Hget & Hlook).
  exists info. split_and!; [done|done|].
  unfold determine_season. fold adjusted. change "verano_suave" with Spec.default_season.
  fold chosen. by rewrite Hget.
Qed.

Lemma season_of_run skin und eye hair level :
  season <$> determine_season skin und eye hair level
  = Ok (default Spec.default_season
          (season_matrix !! (skin, und, adjusted_contrast hair eye level))).
Proof.
  destruct (determine_season_run skin und eye hair level) as (info & _ & _ & ->).
  reflexivity.
Qed.

(** C2 (as amended).  For all five arguments [determine_season] returns,
    and its season is one of the eight keys of [SEASONS].  The decision
    table is read at (skin tone, undertone, contrast after the hair and eye
    override): the season is the entry of the table there whenever it has
    one, which is the case exactly on the 27 triples spanned by the three
    skin tones, undertones and contrast levels, and verano_suave on every
    other triple.  The contrast read is the one supplied exactly when (hair,
    eyes) is not a key of the override table, and the override value
    otherwise.  With hair and eyes that do not override, (clara, calido,
    bajo) gives primavera_clara and (oscura, frio, alto) gives
    invierno_profundo. *)
Theorem determine_season_decision_table (skin und eye hair level : string) :
  let adjusted := adjusted_contrast hair eye level in
  ∃ r, determine_season skin und eye hair level = Ok r
    ∧ season r ∈ Spec.season_ids
    ∧ SEASONS !! season r = Some (season_data r)
    ∧ (∀ v, season_matrix !! (skin, und, adjusted) = Some v → season r = v)
    ∧ ((skin, und, adjusted) ∈ Spec.table_keys
       ↔ is_Some (season_matrix !! (skin, und, adjusted)))
    ∧ ((skin, und, adjusted) ∉ Spec.table_keys → season r = Spec.default_season)
    ∧ ((hair, eye) ∉ contrast_rows.*1 →
       adjusted = level
       ∧ (∀ v, season_matrix !! (skin, und, level) = Some v → season r = v)
       ∧ ((skin, und, level) ∉ Spec.table_keys → season r = Spec.default_season))
    ∧ (∀ c, ((hair, eye), c) ∈ contrast_rows →
       adjusted = c
       ∧ season r = default Spec.default_season (season_matrix !! (skin, und, c)))
    ∧ length Spec.table_keys = 27%nat
    ∧ NoDup Spec.table_keys
    ∧ length Spec.season_ids = 8%nat
    ∧ NoDup Spec.season_ids
    ∧ (∀ hair0 eye0, (hair0, eye0) ∉ contrast_rows.*1 →
       season <$> determine_season "clara" "calido" eye0 hair0 "bajo"
       = Ok "primavera_clara"
       ∧ season <$> determine_season "oscura" "frio" eye0 hair0 "alto"
         = Ok "invierno_profundo")
    ∧ season <$> determine_season "clara" "calido" "cafe" "castano" "bajo"
      = Ok "primavera_clara"
    ∧ season <$> determine_season "oscura" "frio" "cafe" "castano" "alto"
      = Ok "invierno_profundo".
Proof.
  intros adjusted.
  destruct (determine_season_run skin und eye hair level) as (info & Hlook & Hknown & Hrun).
  fold adjusted in Hlook, Hknown, Hrun.
  eexists. split; [exact Hrun|]. cbn [season season_data].
  assert (∀ key, key ∉ Spec.table_keys →
            default Spec.default_season (season_matrix !! key) = Spec.default_season) as Hdef.
  { intros key Hout. apply season_matrix_None in Hout. by rewrite Hout. }
  split_and!.
  - exact Hknown.
  - exact Hlook.
  - intros v Hv. by rewrite Hv.
  - rewrite <- not_eq_None_Some, season_matrix_None.
    split; [tauto|]. intros Hn.
    by destruct (decide ((skin, und, adjusted) ∈ Spec.table_keys)).
  - apply Hdef.
  - intros Hout. pose proof (adjusted_contrast_miss hair eye level Hout) as Hadj.
    fold adjusted in Hadj. rewrite Hadj. split_and!; [done| |apply Hdef].
    intros v Hv. by rewrite Hv.
  - intros c Hc. pose proof (adjusted_contrast_hit hair eye level c Hc) as Hadj.
    fold adjusted in Hadj. by rewrite Hadj.
  - reflexivity.
  - rewrite <- season_rows_keys. apply season_rows_NoDup.
  - reflexivity.
  - apply (bool_decide_unpack _). vm_compute. exact I.
  - intros hair0 eye0 Hout.
    rewrite !season_of_run, !(adjusted_contrast_miss hair0 eye0 _ Hout).
    split; vm_compute; reflexivity.
  - vm_compute. reflexivity.
  - vm_compute. reflexivity.
Qed.

(** C2, counterexample: with black hair and blue eyes the supplied triple
    (clara, calido, bajo), an entry of the table, does not give its entry
    primavera_clara: the contrast is overridden to alto and the season is
    primavera_calida. *)
Lemma override_departs_from_table_entry :
  ("clara", "calido", "bajo") ∈ Spec.table_keys
  ∧ season_matrix !! ("clara", "calido", "bajo") = Some "primavera_clara"
  ∧ season <$> determine_season "clara" "calido" "azul" "negro" "bajo"
    = Ok "primavera_calida"
  ∧ adjusted_contrast "negro" "azul" "bajo" = "alto"
  ∧ season_matrix !! ("clara", "calido", "alto") = Some "primavera_calida".
Proof.
  split_and!; [|vm_compute; reflexivity..].
  apply list_elem_of_In. vm_compute. auto 30.
Qed.

(** C7. The caller's contrast level is replaced by the override-table value
    exactly when (hair colour, eye colour) is one of the table's keys --
    negro + azul gives alto, rubio + azul gives bajo -- and is passed
    through unchanged for every other pair.  Every run of
    [determine_season] reads the decision table at that adjusted contrast
    and names it in its reasoning text: with negro + azul the season is the
    one at alto and with rubio + azul the one at bajo, whatever level is
    supplied, and with any other pair it is the one at the supplied level;
    so (clara, calido, bajo) gives primavera_calida with negro + azul and
    primavera_clara without an override.  For the profile clara, verde,
    oro, broncea_facil, durazno, azul, rubio, bajo the score is 7, the
    undertone calido and the season primavera_clara, also when alto is
    supplied instead of bajo. *)
Theorem contrast_override_and_profile :
  (∀ hair eye level v,
      ((hair, eye), v) ∈ contrast_rows → adjusted_contrast hair eye level = v)
  ∧ (∀ hair eye level,
      (hair, eye) ∉ contrast_rows.*1 → adjusted_contrast hair eye level = level)
  ∧ (∀ level, adjusted_contrast "negro" "azul" level = "alto")
  ∧ (∀ level, adjusted_contrast "rubio" "azul" level = "bajo")
  ∧ (∀ skin und eye hair level hair0 eye0,
      (hair0, eye0) ∉ contrast_rows.*1 →
      determine_season skin und eye hair level
      = determine_season skin und eye0 hair0 (adjusted_contrast hair eye level))
  ∧ (∀ skin und eye hair level,
      ∃ r, determine_season skin und eye hair level = Ok r
        ∧ season r
          = default Spec.default_season
              (season_matrix !! (skin, und, adjusted_contrast hair eye level))
        ∧ SEASONS !! season r = Some (season_data r)
        ∧ reasoning r
          = "Piel " +:+ skin +:+ " + subtono " +:+ und +:+ " + contraste "
            +:+ adjusted_contrast hair eye level +:+ " = " +:+ name (season_data r))
  ∧ (∀ skin und level,
      season <$> determine_season skin und "azul" "negro" level
      = Ok (default Spec.default_season (season_matrix !! (skin, und, "alto")))
      ∧ season <$> determine_season skin und "azul" "rubio" level
        = Ok (default Spec.default_season (season_matrix !! (skin, und, "bajo"))))
  ∧ (∀ skin und hair eye level, (hair, eye) ∉ contrast_rows.*1 →
      season <$> determine_season skin und eye hair level
      = Ok (default Spec.default_season (season_matrix !! (skin, und, level))))
  ∧ season <$> determine_season "clara" "calido" "azul" "negro" "bajo"
    = Ok "primavera_calida"
  ∧ season <$> determine_season "clara" "calido" "cafe" "castano" "bajo"
    = Ok "primavera_clara"
  ∧ season <$> determine_season "clara" "frio" "azul" "rubio" "alto"
    = Ok "verano_suave"
  ∧ season <$> determine_season "clara" "frio" "cafe" "castano" "alto"
    = Ok "invierno_brillante"
  ∧ (let u := analyze_undertone "verde" "oro" "broncea_facil" "durazno" in
     has_value (score u) 7
     ∧ undertone u = "calido"
     ∧ season <$> determine_season "clara" (undertone u) "azul" "rubio" "bajo"
       = Ok "primavera_clara"
     ∧ season <$> determine_season "clara" (undertone u) "azul" "rubio" "alto"
       = Ok "primavera_clara"
     ∧ season <$> determine_season "clara" (undertone u) "cafe" "castano" "alto"
       = Ok "primavera_calida").
Proof.
  split_and!.
  - apply adjusted_contrast_hit.
  - apply adjusted_contrast_miss.
  - intros level. apply adjusted_contrast_hit. apply list_elem_of_In. cbn. auto.
  - intros level. apply adjusted_contrast_hit. apply list_elem_of_In. cbn. auto 10.
  - intros skin und eye hair level hair0 eye0 Hout. unfold determine_season.
    by rewrite (adjusted_contrast_miss hair0 eye0 _ Hout).
  - intros skin und eye hair level.
    destruct (determine_season_run skin und eye hair level) as (info & Hlook & _ & Hrun).
    eexists. split; [exact Hrun|]. cbn [season season_data reasoning].
    split_and!; [reflexivity|exact Hlook|reflexivity].
  - intros skin und level. rewrite !season_of_run.
    rewrite (adjusted_contrast_hit "negro" "azul" level "alto")
      by (apply list_elem_of_In; cbn; auto).
    rewrite (adjusted_contrast_hit "rubio" "azul" level "bajo")
      by (apply list_elem_of_In; cbn; auto 10).
    done.
  - intros skin und hair eye level Hout.
    by rewrite season_of_run, (adjusted_contrast_miss hair eye level Hout).
  - vm_compute. reflexivity.
  - vm_compute. reflexivity.
  - vm_compute. reflexivity.
  - vm_compute. reflexivity.
  - cbn zeta. split_and!.
    + apply has_valueb_sound. vm_compute. reflexivity.
    + vm_compute. reflexivity.
    + vm_compute. reflexivity.
    + vm_compute. reflexivity.
    + vm_compute. reflexivity.
Qed.

(** * Colour strings and the conversions *)

Section Hex.

Lemma hex_digit_check_all c : hex_digit_check c = true.
Proof. destruct c as [[] [] [] [] [] [] [] []]; vm_compute; reflexivity. Qed.

Lemma hex_digit_props c :
  Spec.is_hex_digit c = true →
  PyStr.hex_value c = Some (Spec.digit c)
  ∧ PyStr.isspace c = false
  ∧ Ascii.eqb c "+" = false ∧ Ascii.eqb c "-" = false ∧ Ascii.eqb c "_" = false
  ∧ Ascii.eqb c "x" = false ∧ Ascii.eqb c "X" = false ∧ Ascii.eqb c "#" = false
  ∧ 0 ≤ Spec.digit c < 16.
Proof.
  intros Hc. pose proof (hex_digit_check_all c) as H.
  unfold hex_digit_check in H. rewrite Hc in H. cbn [negb orb] in H.
  repeat (apply andb_prop in H; destruct H as [H ?]).
  destruct (PyStr.hex_value c) as [d|]; [|done].
  apply Z.eqb_eq in H. subst d.
  repeat match goal with
         | H : negb _ = true |- _ => apply negb_true_iff in H
         end.
  split_and!; try done; lia.
Qed.

Lemma int16_two_digits c1 c2 :
  Spec.is_hex_digit c1 = true → Spec.is_hex_digit c2 = true →
  PyStr.int16 (String c1 (String c2 EmptyString))
  = Ok (16 * Spec.digit c1 + Spec.digit c2).
Proof.
  intros H1 H2.
  destruct (hex_digit_props c1 H1) as (Hv1 & Hs1 & Hp1 & Hm1 & Hu1 & _ & _ & _ & _).
  destruct (hex_digit_props c2 H2) as (Hv2 & Hs2 & _ & _ & Hu2 & Hx2 & HX2 & _ & _).
  unfold PyStr.int16, PyStr.chars. cbn [list_ascii_of_string PyStr.skip_space].
  rewrite Hs1, Hp1, Hm1, Hx2, HX2. cbn [orb]. rewrite andb_false_r.
  cbn [PyStr.digits16]. rewrite Hu1, Hv1, Hu2, Hv2. cbn.
  f_equal.
Qed.


Lemma body_cases s :
  (∃ s', s = String "#" s' ∧ Spec.body s = s')
  ∨ (Spec.body s = s ∧ ∀ s', s ≠ String "#" s').
Proof.
  destruct s as [|a s']; [right; split; [reflexivity|congruence]|].
  destruct a as [[] [] [] [] [] [] [] []];
    first [ left; eexists; split; reflexivity
          | right; split; [reflexivity|congruence] ].
Qed.

Lemma well_formed_inv s :
  Spec.well_formed_hex s = true →
  ∃ c1 c2 c3 c4 c5 c6,
    Spec.body s = String c1 (String c2 (String c3 (String c4 (String c5 (String c6 EmptyString)))))
    ∧ PyStr.lstrip "#" s = Spec.body s
    ∧ Forall (λ c, Spec.is_hex_digit c = true) [c1; c2; c3; c4; c5; c6].
Proof.
  unfold Spec.well_formed_hex, Spec.six_digits. intros H.
  destruct (Spec.body s) as [|c1 [|c2 [|c3 [|c4 [|c5 [|c6 [|]]]]]]] eqn:Hb; try done.
  assert (Forall (λ c, Spec.is_hex_digit c = true) [c1; c2; c3; c4; c5; c6]) as HF.
  { apply Forall_forall. intros c Hc. apply list_elem_of_In in Hc.
    by apply (proj1 (forallb_forall _ _) H). }
  exists c1, c2, c3, c4, c5, c6. split_and!; [done| |done].
  assert (Ascii.eqb c1 "#" = false) as Hc1.
  { inversion HF as [|? ? Hd _]. by destruct (hex_digit_props c1 Hd) as (_&_&_&_&_&_&_&?&_). }
  destruct (body_cases s) as [(s' & -> & Hs')|[Hs' _]].
  - rewrite Hb in Hs'. subst s'. cbn. by rewrite Hc1.
  - rewrite Hb in Hs'. subst s. cbn. by rewrite Hc1.
Qed.

Lemma hex_to_hsl_well_formed s r g b :
  Spec.well_formed_hex s = true →
  Spec.channels s = Some (r, g, b) →
  hex_to_hsl s
  = colorsys.rgb_to_hls (PyFloat.of_Z r / 255)%float (PyFloat.of_Z g / 255)%float
                        (PyFloat.of_Z b / 255)%float
  ∧ 0 ≤ r < 256 ∧ 0 ≤ g < 256 ∧ 0 ≤ b < 256.
Proof.
  intros Hwf Hch.
  destruct (well_formed_inv s Hwf) as (c1 & c2 & c3 & c4 & c5 & c6 & Hb & Hstrip & HF).
  unfold Spec.channels in Hch. rewrite Hb in Hch. injection Hch as <- <- <-.
  repeat match goal with
         | H : Forall _ (_ :: _) |- _ => apply Forall_cons in H; destruct H as [? H]
         end.
  split.
  - unfold hex_to_hsl, hex_channel. rewrite Hstrip, Hb.
    cbn [PyStr.slice Nat.add Nat.sub String.substring].
    rewrite !int16_two_digits by done. reflexivity.
  - repeat match goal with
           | H : Spec.is_hex_digit _ = true |- _ =>
               apply hex_digit_props in H; destruct H as (_&_&_&_&_&_&_&_&?)
           end.
    lia.
Qed.

Lemma chan_int_to_int x n :
  chan_int x = Some n → PyFloat.to_int x = Ok (Uint63.to_Z n).
Proof.
  unfold chan_int, PyFloat.to_int. cbv zeta.
  destruct (abs x <? 1)%float.
  { intros [= <-]. reflexivity. }
  destruct (abs x <? 0x1p53)%float; [|done].
  destruct (x <? 0)%float; [done|].
  by intros [= <-].
Qed.

Lemma near_spec i x :
  near i x = true →
  ∃ n, PyFloat.to_int x = Ok n ∧ 0 ≤ n ∧ Uint63.to_Z i - 1 ≤ n ≤ Uint63.to_Z i.
Proof.
  unfold near. destruct (chan_int x) as [n|] eqn:E; [|done].
  intros H. apply andb_prop in H as [H1 H2].
  apply Uint63.leb_spec in H1, H2.
  rewrite Uint63.sub_spec in H2.
  pose proof (Uint63.to_Z_bounded n). pose proof (Uint63.to_Z_bounded i).
  rewrite Z.mod_small in H2 by lia.
  exists (Uint63.to_Z n). split; [by apply chan_int_to_int|].
  change (Uint63.to_Z 1) with 1 in H2. lia.
Qed.

Lemma bytes256_complete z : 0 ≤ z < 256 → In (Uint63.of_Z z) bytes256.
Proof.
  intros Hz.
  assert (bytes256 = map (λ n, Uint63.of_Z (Z.of_nat n)) (seq 0 256)) as ->
    by (vm_compute; reflexivity).
  rewrite <- (Z2Nat.id z) by lia.
  apply (in_map (λ n, Uint63.of_Z (Z.of_nat n))), in_seq. lia.
Qed.

Lemma forallb_cube {A B} (c : A → B) (f : B → B → B → A → A → A → bool) (l : list A) :
  forallb (λ i, let x := c i in
     forallb (λ j, let y := c j in
        forallb (λ k, f x y (c k) i j k) l) l) l = true →
  ∀ i j k, In i l → In j l → In k l → f (c i) (c j) (c k) i j k = true.
Proof.
  intros H i j k Hi Hj Hk.
  apply (proj1 (forallb_forall _ _)) with (x := i) in H; [|done].
  apply (proj1 (forallb_forall _ _)) with (x := j) in H; [|done].
  by apply (proj1 (forallb_forall _ _)) with (x := k) in H.
Qed.

Lemma round_trip_ok_sound r g b i j k :
  round_trip_ok r g b i j k = true → round_trip_model r g b i j k = true.
Proof.
  unfold round_trip_ok, round_trip_model, colorsys.rgb_to_hls, colorsys.hls_to_rgb,
    PyFloat.div.
  set (maxc := PyFloat.max (PyFloat.max r g) b).
  set (minc := PyFloat.min (PyFloat.min r g) b).
  cbv zeta.
  destruct (minc =? maxc)%float.
  { change (0 =? 0)%float with true. cbv iota. intros H; exact H. }
  destruct ((maxc + minc) / 2 <=? 0.5)%float eqn:El.
  - destruct (maxc + minc =? 0)%float; [done|].
    destruct (maxc - minc =? 0)%float; [done|].
    cbn [mbind result_bind]. rewrite ?El.
    destruct ((maxc - minc) / (maxc + minc) =? 0)%float; intros H; exact H.
  - destruct (2 - maxc - minc =? 0)%float; [done|].
    destruct (maxc - minc =? 0)%float; [done|].
    cbn [mbind result_bind]. rewrite ?El.
    destruct ((maxc - minc) / (2 - maxc - minc) =? 0)%float; intros H; exact H.
Qed.

(** All 256^3 colours pass the check. *)
Lemma cube_checked :
  forallb (λ i, let x := byte_float i in
     forallb (λ j, let y := byte_float j in
        forallb (λ k, round_trip_ok x y (byte_float k) i j k)
                bytes256) bytes256) bytes256 = true.
Proof. vm_cast_no_check (eq_refl true). Qed.

Lemma round_trip_checked r g b :
  0 ≤ r < 256 → 0 ≤ g < 256 → 0 ≤ b < 256 →
  round_trip_model (byte_float (Uint63.of_Z r)) (byte_float (Uint63.of_Z g))
                   (byte_float (Uint63.of_Z b))
                   (Uint63.of_Z r) (Uint63.of_Z g) (Uint63.of_Z b) = true.
Proof.
  intros Hr Hg Hb. apply round_trip_ok_sound.
  apply (forallb_cube byte_float round_trip_ok bytes256 cube_checked);
    by apply bytes256_complete.
Qed.

End Hex.

Section Formatting.

Lemma format_two_digits n :
  0 ≤ n < 256 →
  ∃ c1 c2, PyStr.format_02x n = String c1 (String c2 EmptyString)
    ∧ Spec.is_hex_digit c1 = true ∧ Spec.is_hex_digit c2 = true
    ∧ 16 * Spec.digit c1 + Spec.digit c2 = n.
Proof.
  intros Hn.
  assert (forallb format_ok (map Z.of_nat (seq 0 256)) = true) as Hall
    by (vm_compute; reflexivity).
  assert (format_ok n = true) as H.
  { apply (proj1 (forallb_forall _ _) Hall). rewrite <- (Z2Nat.id n) by lia.
    apply in_map, in_seq. lia. }
  unfold format_ok in H.
  destruct (PyStr.format_02x n) as [|c1 [|c2 [|]]]; try done.
  apply andb_prop in H as [H H3]. apply andb_prop in H as [H1 H2].
  exists c1, c2. split_and!; try done. by apply Z.eqb_eq.
Qed.

Lemma of_Z_byte z : 0 ≤ z < 256 → PyFloat.of_Z z = of_uint63 (Uint63.of_Z z).
Proof.
  intros Hz. unfold PyFloat.of_Z. by rewrite (proj2 (Z.ltb_ge z 0)) by lia.
Qed.

Lemma to_Z_byte z : 0 ≤ z < 256 → Uint63.to_Z (Uint63.of_Z z) = z.
Proof.
  intros Hz. rewrite Uint63.of_Z_spec. apply Z.mod_small.
  change wB with 9223372036854775808. lia.
Qed.

(** A colour built from three channels in 0..255 is well formed and
    decodes to those channels. *)
Lemma hsl_to_hex_channels h l s r g b ri gi bi :
  colorsys.hls_to_rgb h l s = (r, g, b) →
  PyFloat.to_int (r * 255)%float = Ok ri →
  PyFloat.to_int (g * 255)%float = Ok gi →
  PyFloat.to_int (b * 255)%float = Ok bi →
  0 ≤ ri < 256 → 0 ≤ gi < 256 → 0 ≤ bi < 256 →
  ∃ y, hsl_to_hex h l s = Ok y
    ∧ Spec.well_formed_hex y = true
    ∧ Spec.channels y = Some (ri, gi, bi).
Proof.
  intros Hrgb Hr Hg Hb Br Bg Bb.
  destruct (format_two_digits ri Br) as (a1 & a2 & Ea & Ha1 & Ha2 & Va).
  destruct (format_two_digits gi Bg) as (b1 & b2 & Eb & Hb1 & Hb2 & Vb).
  destruct (format_two_digits bi Bb) as (d1 & d2 & Ed & Hd1 & Hd2 & Vd).
  unfold hsl_to_hex. rewrite Hrgb, Hr, Hg, Hb. cbn [mbind result_bind].
  rewrite Ea, Eb, Ed. lazy beta iota delta [String.append].
  eexists. split; [reflexivity|].
  unfold Spec.well_formed_hex, Spec.channels. cbn [Spec.body Spec.six_digits forallb].
  rewrite Ha1, Ha2, Hb1, Hb2, Hd1, Hd2, Va, Vb, Vd. done.
Qed.

Lemma channels_well_formed x :
  Spec.well_formed_hex x = true → ∃ r g b, Spec.channels x = Some (r, g, b).
Proof.
  intros Hwf.
  destruct (well_formed_inv x Hwf) as (c1 & c2 & c3 & c4 & c5 & c6 & Hb & _).
  unfold Spec.channels. rewrite Hb. eauto.
Qed.

End Formatting.

(** C6. For every well-formed colour x (six hexadecimal digits after an
    optional '#'), [hex_to_hsl x] returns, [hsl_to_hex] of the result returns
    a well-formed colour, and each of its channels is within one unit of the
    channel of x.  The proof runs the two conversions on all 256^3 colours.
    The instance at "#336699" is [hex_round_trip_336699]. *)
Theorem hex_round_trip (x : string) :
  Spec.well_formed_hex x = true →
  ∃ h l s y p q,
    hex_to_hsl x = Ok (h, l, s)
    ∧ hsl_to_hex h l s = Ok y
    ∧ Spec.well_formed_hex y = true
    ∧ Spec.channels x = Some p
    ∧ Spec.channels y = Some q
    ∧ Spec.within_one p q.
Proof.
  intros Hwf.
  destruct (channels_well_formed x Hwf) as (r & g & b & Hch).
  destruct (hex_to_hsl_well_formed x r g b Hwf Hch) as (Hx & Br & Bg & Bb).
  pose proof (round_trip_checked r g b Br Bg Bb) as Hok.
  unfold round_trip_model, byte_float in Hok.
  rewrite <- !of_Z_byte in Hok by done. rewrite <- Hx in Hok.
  destruct (hex_to_hsl x) as [[[h l] s]|]; [|done].
  destruct (colorsys.hls_to_rgb h l s) as [[r' g'] b'] eqn:Hrgb.
  apply andb_prop in Hok as [Hok Hb']. apply andb_prop in Hok as [Hr' Hg'].
  apply near_spec in Hr' as (ri & Hri & ? & ?).
  apply near_spec in Hg' as (gi & Hgi & ? & ?).
  apply near_spec in Hb' as (bi & Hbi & ? & ?).
  rewrite to_Z_byte in * by done.
  destruct (hsl_to_hex_channels h l s r' g' b' ri gi bi) as (y & Hy & Hwy & Hcy);
    try done; try lia.
  exists h, l, s, y, (r, g, b), (ri, gi, bi).
  split_and!; try done. unfold Spec.within_one. lia.
Qed.

Lemma hex_round_trip_336699 :
  ∃ h l s y p q,
    hex_to_hsl "#336699" = Ok (h, l, s)
    ∧ hsl_to_hex h l s = Ok y
    ∧ Spec.well_formed_hex y = true
    ∧ Spec.channels "#336699" = Some p
    ∧ Spec.channels y = Some q
    ∧ Spec.within_one p q.
Proof. apply (hex_round_trip "#336699"). reflexivity. Defined.

(** The colour read back from "#336699" is one unit lower on red and green. *)
Example round_trip_336699_value :
  ('(h, l, s) ← hex_to_hsl "#336699"; hsl_to_hex h l s) = Ok "#326599"
  ∧ Spec.channels "#336699" = Some (51, 102, 153)
  ∧ Spec.channels "#326599" = Some (50, 101, 153).
Proof. by vm_compute. Qed.

(** * Parsing of colour strings *)

Section Parsing.

Lemma int16_error s e : PyStr.int16 s = Raise e → e = ValueError.
Proof.
  unfold PyStr.int16.
  repeat case_match; intros [=]; done.
Qed.

Lemma hex_channel_error s i e : hex_channel s i = Raise e → e = ValueError.
Proof.
  unfold hex_channel. destruct (PyStr.int16 _) eqn:E; [done|].
  intros [= <-]. by apply int16_error in E.
Qed.

(** A slice that [int] rejects makes the whole conversion a [ValueError]. *)
Lemma hex_to_hsl_slice_error x i :
  i ∈ [0; 2; 4]%nat →
  is_ok (PyStr.int16 (PyStr.slice i (i + 2) (PyStr.lstrip "#" x))) = false →
  hex_to_hsl x = Raise ValueError.
Proof.
  intros Hi Hbad. unfold hex_to_hsl.
  assert (∀ k, is_ok (hex_channel (PyStr.lstrip "#" x) k) = true
               ∨ hex_channel (PyStr.lstrip "#" x) k = Raise ValueError) as Hk.
  { intros k. destruct (hex_channel _ k) as [|e] eqn:E; [by left|right].
    by rewrite (hex_channel_error _ _ _ E). }
  assert (hex_channel (PyStr.lstrip "#" x) i = Raise ValueError) as Hi'.
  { unfold hex_channel. destruct (PyStr.int16 _) as [|e] eqn:E; [done|].
    by rewrite (int16_error _ _ E). }
  apply list_elem_of_In in Hi. cbn [In] in Hi.
  destruct (Hk 0%nat) as [H0|H0], (Hk 2%nat) as [H2|H2];
    destruct_or!; subst; try done;
    repeat match goal with
           | H : is_ok ?m = true |- _ => destruct m eqn:?; [clear H|done]
           end;
    rewrite ?Hi', ?H0, ?H2; try done; congruence.
Qed.

Lemma int16_empty : PyStr.int16 "" = Raise ValueError.
Proof. reflexivity. Qed.

Lemma hex_to_hsl_short x :
  (String.length (PyStr.lstrip "#" x) < 5)%nat → hex_to_hsl x = Raise ValueError.
Proof.
  intros Hlen. apply (hex_to_hsl_slice_error x 4); [set_solver|].
  destruct (PyStr.lstrip "#" x) as [|c1 [|c2 [|c3 [|c4 [|c5 ?]]]]]; cbn in *; try done; lia.
Qed.

Lemma hex_to_hsl_strip x : hex_to_hsl (String "#" x) = hex_to_hsl x.
Proof. reflexivity. Qed.

Lemma lstrip_idem x : PyStr.lstrip "#" (PyStr.lstrip "#" x) = PyStr.lstrip "#" x.
Proof.
  induction x as [|a x IH]; [done|]. cbn [PyStr.lstrip].
  destruct (Ascii.eqb a "#") eqn:E; [exact IH|]. cbn [PyStr.lstrip]. by rewrite E.
Qed.

Lemma lstrip_app x t :
  PyStr.lstrip "#" x ≠ "" → PyStr.lstrip "#" (x +:+ t) = PyStr.lstrip "#" x +:+ t.
Proof.
  induction x as [|a x IH]; [done|]. intros Hne.
  change (String a x +:+ t) with (String a (x +:+ t)). cbn [PyStr.lstrip] in *.
  destruct (Ascii.eqb a "#") eqn:E; [by apply IH|done].
Qed.

Lemma hex_to_hsl_prefix x t :
  (6 ≤ String.length (PyStr.lstrip "#" x))%nat → hex_to_hsl (x +:+ t) = hex_to_hsl x.
Proof.
  intros Hlen. unfold hex_to_hsl, hex_channel.
  rewrite lstrip_app by (intros E; rewrite E in Hlen; cbn in Hlen; lia).
  destruct (PyStr.lstrip "#" x) as [|c1 [|c2 [|c3 [|c4 [|c5 [|c6 y]]]]]];
    cbn in Hlen; try lia.
  assert (∀ a u v, String a u +:+ v = String a (u +:+ v)) as Happ by done.
  assert (∀ u, String.substring 0 0 u = "") as Hnil by (by intros []).
  rewrite !Happ. unfold PyStr.slice. cbn [String.substring Nat.add Nat.sub].
  by rewrite !Hnil.
Qed.


Lemma hex_value_digit c : Spec.is_hex_digit c = false → PyStr.hex_value c = None.
Proof. destruct c as [[] [] [] [] [] [] [] []]; vm_compute; congruence. Qed.

Lemma skip_space_head c cs : PyStr.isspace c = false → PyStr.skip_space (c :: cs) = c :: cs.
Proof. intros H. cbn. by rewrite H. Qed.

(** A character that is no digit, sign or blank spoils any slice of at
    most two characters. *)
Lemma int16_bad_char s c :
  (String.length s ≤ 2)%nat → c ∈ PyStr.chars s → Spec.int_char c = false →
  is_ok (PyStr.int16 s) = false.
Proof.
  intros Hlen Hin Hbad.
  unfold Spec.int_char in Hbad.
  apply orb_false_elim in Hbad as [Hbad Hm]. apply orb_false_elim in Hbad as [Hbad Hp].
  apply orb_false_elim in Hbad as [Hbad Hs].
  pose proof (hex_value_digit c Hbad) as Hv.
  destruct s as [|a [|b [|]]]; cbn in Hlen; try lia; unfold PyStr.chars in Hin;
    cbn [list_ascii_of_string] in Hin.
  - reflexivity.
  - apply list_elem_of_singleton in Hin as <-.
    unfold PyStr.int16, PyStr.chars. cbn [list_ascii_of_string].
    rewrite skip_space_head by done.
    rewrite Hp, Hm.
    cbn [PyStr.digits16]. rewrite Hv. by destruct (Ascii.eqb c "_").
  - unfold PyStr.int16, PyStr.chars. cbn [list_ascii_of_string].
    apply elem_of_cons in Hin as [<-|Hin].
    + rewrite skip_space_head by done.
      rewrite Hp, Hm.
      assert (Ascii.eqb c "0" = false) as ->.
      { destruct (Ascii.eqb_spec c "0") as [->|]; [done|done]. }
      cbn [andb PyStr.digits16]. rewrite Hv. by destruct (Ascii.eqb c "_").
    + apply list_elem_of_singleton in Hin as <-.
      cbn [PyStr.skip_space]. rewrite Hs.
      destruct (PyStr.isspace a).
      { rewrite Hp, Hm.
        cbn [PyStr.digits16]. rewrite Hv. by destruct (Ascii.eqb c "_"). }
      destruct (Ascii.eqb a "+").
      { cbn [PyStr.digits16]. rewrite Hv. by destruct (Ascii.eqb c "_"). }
      destruct (Ascii.eqb a "-").
      { cbn [PyStr.digits16]. rewrite Hv. by destruct (Ascii.eqb c "_"). }
      destruct (Ascii.eqb a "0" && (Ascii.eqb c "x" || Ascii.eqb c "X")); [done|].
      cbn [PyStr.digits16].
      destruct (Ascii.eqb a "_"); [done|]. cbn [orb negb].
      destruct (PyStr.hex_value a); [|done].
      destruct (Ascii.eqb c "_") eqn:Eu; [done|]. rewrite Hv. cbn [orb negb].
      cbn [PyStr.skip_space]. by rewrite Hs.
Qed.


Lemma hex_to_hsl_bad_char x i c :
  (i < 6)%nat → String.get i (PyStr.lstrip "#" x) = Some c →
  Spec.int_char c = false → hex_to_hsl x = Raise ValueError.
Proof.
  intros Hi Hget Hbad.
  assert (∀ u, String.substring 0 0 u = "") as Hnil by (by intros []).
  assert (i = 0 ∨ i = 1 ∨ i = 2 ∨ i = 3 ∨ i = 4 ∨ i = 5)%nat as Hcases by lia.
  apply (hex_to_hsl_slice_error x (2 * (i / 2))%nat);
    [destruct_or! Hcases; subst i; set_solver|].
  apply (int16_bad_char _ c); [| |done];
    destruct_or! Hcases; subst i;
    destruct (PyStr.lstrip "#" x) as [|c1 [|c2 [|c3 [|c4 [|c5 [|c6 y]]]]]];
    cbn in Hget; try done; simplify_eq;
    unfold PyStr.slice, PyStr.chars;
    cbn [Nat.mul Nat.div Nat.divmod fst Nat.add Nat.sub String.substring];
    rewrite ?Hnil; cbn; try lia; set_solver.
Qed.

End Parsing.

(** * Harmony generator *)

Section Harmony.

Lemma scheme_cases ty :
  ty ∈ Spec.schemes →
  ty = "complementary" ∨ ty = "analogous" ∨ ty = "triadic" ∨ ty = "split_complementary".
Proof.
  intros H. apply list_elem_of_In in H. cbn [In Spec.schemes] in H.
  destruct_or!; auto; done.
Qed.

Lemma scheme_unknown ty :
  ty ∉ Spec.schemes →
  String.eqb ty "complementary" = false ∧ String.eqb ty "analogous" = false
  ∧ String.eqb ty "triadic" = false ∧ String.eqb ty "split_complementary" = false.
Proof.
  intros H. split_and!; apply String.eqb_neq; intros ->; apply H;
    apply list_elem_of_In; cbn; auto.
Qed.

Lemma harmony_scheme_refines base ty :
  ty ∈ Spec.schemes → harmony_scheme base ty = Spec.scheme_colors 0.083 base ty.
Proof.
  intros Hty. unfold harmony_scheme, Spec.scheme_colors.
  destruct (hex_to_hsl base) as [[[h l] s]|]; [|done]. cbn [mbind result_bind].
  destruct (scheme_cases ty Hty) as [-> | [-> | [-> | ->]]];
    cbn [String.eqb Ascii.eqb Bool.eqb Spec.hues mapM]; unfold Spec.wrap;
    repeat match goal with
           | |- context [hsl_to_hex ?a ?b ?c] => destruct (hsl_to_hex a b c)
           end; reflexivity.
Qed.

Lemma harmony_scheme_head base ty cs :
  ty ∈ Spec.schemes → harmony_scheme base ty = Ok cs → ∃ cs', cs = base :: cs'.
Proof.
  intros Hty. unfold harmony_scheme.
  destruct (hex_to_hsl base) as [[[h l] s]|]; [|done]. cbn [mbind result_bind].
  destruct (scheme_cases ty Hty) as [-> | [-> | [-> | ->]]];
    cbn [String.eqb Ascii.eqb Bool.eqb];
    repeat match goal with
           | |- context [hsl_to_hex ?a ?b ?c] => destruct (hsl_to_hex a b c)
           end; cbn; intros [= <-]; eauto.
Qed.

Lemma harmony_scheme_unknown base ty :
  ty ∉ Spec.schemes → harmony_scheme base ty = (hex_to_hsl base ≫= λ _, Ok []).
Proof.
  intros Hty. destruct (scheme_unknown ty Hty) as (E1 & E2 & E3 & E4).
  unfold harmony_scheme. destruct (hex_to_hsl base) as [[[h l] s]|]; [|done].
  cbn [mbind result_bind]. by rewrite E1, E2, E3, E4.
Qed.

Lemma lightness_variations_spec cs vs :
  lightness_variations cs = Ok vs →
  length vs = (3 * length cs)%nat
  ∧ ∀ i c, cs !! i = Some c →
      ∃ h l s lighter darker,
        hex_to_hsl c = Ok (h, l, s)
        ∧ hsl_to_hex h (Spec.lighten l) s = Ok lighter
        ∧ hsl_to_hex h (Spec.darken l) s = Ok darker
        ∧ vs !! (3 * i)%nat = Some c
        ∧ vs !! (3 * i + 1)%nat = Some lighter
        ∧ vs !! (3 * i + 2)%nat = Some darker.
Proof.
  revert vs. induction cs as [|c0 cs IH]; intros vs.
  - intros [= <-]. split; [done|]. intros i c. by rewrite lookup_nil.
  - cbn [lightness_variations].
    destruct (hex_to_hsl c0) as [[[h l] s]|] eqn:E0; [|done]. cbn [mbind result_bind].
    change (PyFloat.min (l + 0.2) 1)%float with (Spec.lighten l).
    change (PyFloat.max (l - 0.2) 0)%float with (Spec.darken l).
    destruct (hsl_to_hex h (Spec.lighten l) s) as [a|] eqn:Ea; [|done].
    destruct (hsl_to_hex h (Spec.darken l) s) as [b|] eqn:Eb; [|done].
    cbn [mbind result_bind].
    destruct (lightness_variations cs) as [more|] eqn:Em; [|done].
    cbn [mbind result_bind]. intros [= <-].
    destruct (IH more eq_refl) as [Hlen Hall].
    split; [cbn [length]; lia|].
    intros [|i] c Hc.
    + cbn in Hc. injection Hc as <-. exists h, l, s, a, b. by split_and!.
    + cbn [lookup list_lookup] in Hc. destruct (Hall i c Hc) as (h' & l' & s' & a' & b' & ?&?&?&?&?&?).
      exists h', l', s', a', b'. split_and!; try done.
      * by replace (3 * S i)%nat with (S (S (S (3 * i)))) by lia.
      * by replace (3 * S i + 1)%nat with (S (S (S (3 * i + 1)))) by lia.
      * by replace (3 * S i + 2)%nat with (S (S (S (3 * i + 2)))) by lia.
Qed.

Lemma generate_inv base rest ty out :
  generate_harmony_palette (base :: rest) ty = Ok out →
  ∃ cs vs, harmony_scheme base ty = Ok cs
    ∧ lightness_variations cs = Ok vs
    ∧ harmony_variations (base :: rest) ty = Ok vs
    ∧ out = list_to_set vs.
Proof.
  unfold generate_harmony_palette, harmony_variations.
  destruct (harmony_scheme base ty) as [cs|]; [|done]. cbn [mbind result_bind].
  destruct (lightness_variations cs) as [vs|] eqn:E; [|done]. cbn [mbind result_bind].
  intros [= <-]. by exists cs, vs.
Qed.

End Harmony.

Lemma hex_to_hsl_total x :
  Spec.well_formed_hex x = true → ∃ h l s, hex_to_hsl x = Ok (h, l, s).
Proof.
  intros Hwf.
  destruct (channels_well_formed x Hwf) as (r & g & b & Hch).
  destruct (hex_to_hsl_well_formed x r g b Hwf Hch) as (Hx & Br & Bg & Bb).
  pose proof (round_trip_checked r g b Br Bg Bb) as Hok.
  unfold round_trip_model, byte_float in Hok.
  rewrite <- !of_Z_byte in Hok by done. rewrite <- Hx in Hok.
  destruct (hex_to_hsl x) as [[[h l] s]|]; [eauto|done].
Qed.

(** C8 (as amended).  On strings of characters below U+0100, which are the
    strings of this model: [hex_to_hsl] strips every leading '#', reads the
    first six characters left as three base-16 integers of two characters
    and ignores what follows.  It returns on every well-formed colour (six
    hexadecimal digits after an optional '#'), with any further '#' in front
    and with anything appended after six stripped characters; it raises
    [ValueError] when fewer than five characters are left after stripping,
    and when one of the first six is neither a hexadecimal digit, a sign nor
    a blank.  It is a function of its argument alone.  (Beyond U+0100
    Python's [int] also reads the decimal digits of other scripts; such
    text is not covered.) *)
Theorem hex_to_hsl_domain :
  (∀ x, Spec.well_formed_hex x = true → ∃ h l s, hex_to_hsl x = Ok (h, l, s))
  ∧ (∀ x, hex_to_hsl (String "#" x) = hex_to_hsl x)
  ∧ (∀ x t, (6 ≤ String.length (PyStr.lstrip "#" x))%nat →
            hex_to_hsl (x +:+ t) = hex_to_hsl x)
  ∧ (∀ x, (String.length (PyStr.lstrip "#" x) < 5)%nat →
          hex_to_hsl x = Raise ValueError)
  ∧ (∀ x i c, (i < 6)%nat → String.get i (PyStr.lstrip "#" x) = Some c →
              Spec.int_char c = false → hex_to_hsl x = Raise ValueError).
Proof.
  split_and!.
  - apply hex_to_hsl_total.
  - apply hex_to_hsl_strip.
  - apply hex_to_hsl_prefix.
  - apply hex_to_hsl_short.
  - apply hex_to_hsl_bad_char.
Qed.

(** C8, counterexample: seven digits, five digits and a doubled '#' are not
    well formed, and are converted all the same. *)
Lemma hex_to_hsl_accepts_malformed :
  Spec.well_formed_hex "3366990" = false ∧ is_ok (hex_to_hsl "3366990") = true
  ∧ Spec.well_formed_hex "33669" = false ∧ is_ok (hex_to_hsl "33669") = true
  ∧ Spec.well_formed_hex "##336699" = false ∧ is_ok (hex_to_hsl "##336699") = true.
Proof. by vm_compute. Qed.

(** C5 (as amended).  With no base colour the generator returns the empty
    palette, for every scheme; it does not fail. *)
Theorem empty_input_gives_empty_palette (ty : string) :
  generate_harmony_palette [] ty = Ok ∅
  ∧ harmony_variations [] ty = Ok [].
Proof. done. Qed.

(** C5, counterexample: the call on the empty list is a normal return. *)
Lemma empty_input_does_not_fail :
  is_ok (generate_harmony_palette [] "complementary") = true
  ∧ generate_harmony_palette [] "complementary" = Ok ∅.
Proof. done. Qed.

(** C9 (as amended).  With a scheme outside the four listed ones and a
    non-empty list, the generator converts the first colour and then
    returns the empty palette: the result is the empty palette whenever that
    colour is well formed, and otherwise whatever [hex_to_hsl] raised. *)
Theorem unknown_scheme_gives_empty_palette (base : string) (rest : list string) (ty : string) :
  ty ∉ Spec.schemes →
  generate_harmony_palette (base :: rest) ty = (hex_to_hsl base ≫= λ _, Ok ∅)
  ∧ (Spec.well_formed_hex base = true →
     generate_harmony_palette (base :: rest) ty = Ok ∅).
Proof.
  intros Hty.
  assert (generate_harmony_palette (base :: rest) ty = hex_to_hsl base ≫= λ _, Ok ∅) as E.
  { unfold generate_harmony_palette, harmony_variations.
    rewrite (harmony_scheme_unknown base ty Hty).
    by destruct (hex_to_hsl base). }
  split; [done|]. intros Hwf. rewrite E.
  by destruct (hex_to_hsl_total base Hwf) as (h & l & s & ->).
Qed.

Lemma unknown_scheme_witness :
  generate_harmony_palette ["#FF0000"] "tetradic" = (hex_to_hsl "#FF0000" ≫= λ _, Ok ∅)
  ∧ (Spec.well_formed_hex "#FF0000" = true →
     generate_harmony_palette ["#FF0000"] "tetradic" = Ok ∅).
Proof.
  apply (unknown_scheme_gives_empty_palette "#FF0000" [] "tetradic").
  unfold Spec.schemes. intros H. apply list_elem_of_In in H. cbn in H.
  destruct_or!; done.
Defined.

(** C9, counterexample: an unlisted scheme on a good colour returns. *)
Lemma unknown_scheme_does_not_fail :
  ("tetradic" ∉ Spec.schemes)
  ∧ is_ok (generate_harmony_palette ["#FF0000"] "tetradic") = true
  ∧ harmony_variations ["#FF0000"] "tetradic" = Ok [].
Proof.
  split_and!; [|by vm_compute..].
  unfold Spec.schemes. intros H. apply list_elem_of_In in H. cbn in H.
  destruct_or!; done.
Qed.

(** C3 (as amended).  For a non-empty list whose first colour is well
    formed and a listed scheme, the seed converts to some (h, l, s); the
    scheme step yields the seed followed by one colour per derived hue, each
    built at the seed's l and s: hue + 0.5 for complementary (two colours);
    hue + 0.083 and hue - 0.083 for analogous; hue + 0.333 and hue + 0.667
    for triadic; complement + 0.083 and complement - 0.083 for
    split_complementary (three colours each), every hue reduced modulo 1.0.
    The colours after the first play no part.  The step fails only if
    [hsl_to_hex] does. *)
Theorem harmony_scheme_hues (base : string) (rest : list string) (ty : string) :
  Spec.well_formed_hex base = true → ty ∈ Spec.schemes →
  ∃ h l s hs,
    hex_to_hsl base = Ok (h, l, s)
    ∧ Spec.hues 0.083 ty h = Some hs
    ∧ length hs = (if String.eqb ty "complementary" then 1 else 2)%nat
    ∧ harmony_scheme base ty
      = (cs ← mapM (λ hue, hsl_to_hex hue l s) hs; Ok (base :: cs))
    ∧ harmony_variations (base :: rest) ty
      = (harmony_scheme base ty ≫= lightness_variations)
    ∧ generate_harmony_palette (base :: rest) ty
      = generate_harmony_palette [base] ty.
Proof.
  intros Hwf Hty.
  destruct (hex_to_hsl_total base Hwf) as (h & l & s & Hx).
  pose proof (harmony_scheme_refines base ty Hty) as Href.
  unfold Spec.scheme_colors in Href. rewrite Hx in Href. cbn [mbind result_bind] in Href.
  destruct (scheme_cases ty Hty) as [-> | [-> | [-> | ->]]];
    (eexists h, l, s, _; split_and!; [exact Hx|reflexivity|reflexivity|exact Href|reflexivity|reflexivity]).
Qed.

Lemma harmony_scheme_hues_witness :
  ∃ h l s hs,
    hex_to_hsl "#FF0000" = Ok (h, l, s)
    ∧ Spec.hues 0.083 "analogous" h = Some hs
    ∧ length hs = (if String.eqb "analogous" "complementary" then 1 else 2)%nat
    ∧ harmony_scheme "#FF0000" "analogous"
      = (cs ← mapM (λ hue, hsl_to_hex hue l s) hs; Ok ("#FF0000" :: cs))
    ∧ harmony_variations ["#FF0000"; "#00FF00"] "analogous"
      = (harmony_scheme "#FF0000" "analogous" ≫= lightness_variations)
    ∧ generate_harmony_palette ["#FF0000"; "#00FF00"] "analogous"
      = generate_harmony_palette ["#FF0000"] "analogous".
Proof.
  apply (harmony_scheme_hues "#FF0000" ["#00FF00"] "analogous").
  - reflexivity.
  - unfold Spec.schemes. apply list_elem_of_In. cbn. auto.
Defined.

(** C3, counterexample: on pure red the analogous colours of the source
    differ from those at an offset of 0.0833. *)
Lemma analogous_offset_is_not_0833 :
  harmony_scheme "#FF0000" "analogous" = Ok ["#FF0000"; "#ff7e00"; "#ff007e"]
  ∧ Spec.scheme_colors 0.0833 "#FF0000" "analogous" = Ok ["#FF0000"; "#ff7f00"; "#ff007f"]
  ∧ harmony_scheme "#FF0000" "analogous" ≠ Spec.scheme_colors 0.0833 "#FF0000" "analogous".
Proof. split_and!; [by vm_compute..|]. vm_compute. discriminate. Qed.

Lemma red_complementary_variations :
  harmony_variations ["#FF0000"] "complementary"
  = Ok ["#FF0000"; "#ff6565"; "#990000"; "#00feff"; "#65feff"; "#009899"].
Proof. vm_compute. reflexivity. Qed.

Lemma red_complementary_palette :
  generate_harmony_palette ["#FF0000"] "complementary"
  = Ok (list_to_set ["#FF0000"; "#ff6565"; "#990000"; "#00feff"; "#65feff"; "#009899"]).
Proof.
  unfold generate_harmony_palette. by rewrite red_complementary_variations.
Qed.

Section Runs.

(** The variations computed for the first recommended colour of every
    season, under every scheme. *)
Lemma season_palettes_checked :
  forallb (λ id, match SEASONS !! id with
                 | Some info => forallb (palette_ok (best_colors info)) Spec.schemes
                 | None => false
                 end) Spec.season_ids = true.
Proof. vm_compute. reflexivity. Qed.

Lemma red_palettes_checked : forallb (palette_ok ["#FF0000"]) Spec.schemes = true.
Proof. vm_compute. reflexivity. Qed.

Lemma palette_ok_run base rest ty :
  palette_ok (base :: rest) ty = true →
  ∃ vs, harmony_variations (base :: rest) ty = Ok vs
    ∧ generate_harmony_palette (base :: rest) ty = Ok (list_to_set vs)
    ∧ Forall (λ c, Spec.well_formed_hex c = true) vs.
Proof.
  unfold palette_ok, generate_harmony_palette.
  destruct (harmony_variations (base :: rest) ty) as [vs|]; [|done].
  intros H. apply andb_prop in H as [H _]. exists vs. split_and!; [done|done|].
  apply Forall_forall. intros c Hc. apply list_elem_of_In in Hc.
  by apply (proj1 (forallb_forall _ _) H).
Qed.

Lemma red_run ty :
  ty ∈ Spec.schemes →
  ∃ vs, harmony_variations ["#FF0000"] ty = Ok vs
    ∧ generate_harmony_palette ["#FF0000"] ty = Ok (list_to_set vs)
    ∧ Forall (λ c, Spec.well_formed_hex c = true) vs.
Proof.
  intros Hty. apply palette_ok_run.
  apply (proj1 (forallb_forall _ _) red_palettes_checked). by apply list_elem_of_In.
Qed.

Lemma season_run id ty :
  id ∈ Spec.season_ids → ty ∈ Spec.schemes →
  ∃ info base rest vs,
    SEASONS !! id = Some info
    ∧ best_colors info = base :: rest
    ∧ Spec.well_formed_hex base = true
    ∧ harmony_variations (best_colors info) ty = Ok vs
    ∧ generate_harmony_palette (best_colors info) ty = Ok (list_to_set vs).
Proof.
  intros Hid Hty. apply list_elem_of_In in Hid, Hty.
  pose proof (proj1 (forallb_forall _ _) season_palettes_checked id Hid) as H.
  cbv beta in H. revert H. destruct (SEASONS !! id) as [info|] eqn:E; intros H; [|done].
  pose proof (proj1 (forallb_forall _ _) H ty Hty) as Hok.
  revert Hok. destruct (best_colors info) as [|base rest] eqn:Hbest; intros Hok;
    [by cbv in Hok|].
  destruct (palette_ok_run base rest ty Hok) as (vs & Hvs & Hgen & Hwf).
  exists info, base, rest, vs. rewrite Hbest. split_and!; [done|done| |done|done].
  unfold harmony_variations in Hvs.
  destruct (harmony_scheme base ty) as [cs|] eqn:Hcs; [|done].
  apply list_elem_of_In in Hty.
  destruct (harmony_scheme_head base ty cs Hty Hcs) as [cs' ->].
  cbn [mbind result_bind] in Hvs.
  destruct (lightness_variations_spec _ vs Hvs) as [_ Hall].
  destruct (Hall 0%nat base eq_refl) as (h & l & s & a & b & _ & _ & _ & H0 & _).
  apply (proj1 (Forall_forall _ _) Hwf). apply list_elem_of_lookup. by exists 0%nat.
Qed.

End Runs.



(** C10.  For a listed scheme, every palette the generator returns for a
    non-empty list contains the first colour of the list, as the very string
    that was passed.  Palettes are returned, and contain their first colour:
    on "#FF0000" under each of the four schemes, and on the recommended
    colours of each of the eight seasons, whose first colour is well formed,
    under each scheme. *)
Theorem base_color_in_palette :
  (∀ base rest ty out,
     ty ∈ Spec.schemes →
     generate_harmony_palette (base :: rest) ty = Ok out →
     base ∈ out)
  ∧ (∀ ty, ty ∈ Spec.schemes →
       ∃ out, generate_harmony_palette ["#FF0000"] ty = Ok out ∧ "#FF0000" ∈ out)
  ∧ (∀ id ty, id ∈ Spec.season_ids → ty ∈ Spec.schemes →
       ∃ info base rest out,
         SEASONS !! id = Some info
         ∧ best_colors info = base :: rest
         ∧ Spec.well_formed_hex base = true
         ∧ generate_harmony_palette (best_colors info) ty = Ok out
         ∧ base ∈ out).
Proof.
  assert (∀ base rest ty out,
            ty ∈ Spec.schemes →
            generate_harmony_palette (base :: rest) ty = Ok out → base ∈ out) as Hin.
  { intros base rest ty out Hty Hgen.
    destruct (generate_inv base rest ty out Hgen) as (cs & vs & Hcs & Hvs & _ & ->).
    destruct (harmony_scheme_head base ty cs Hty Hcs) as [cs' ->].
    destruct (lightness_variations_spec _ vs Hvs) as [_ Hall].
    destruct (Hall 0%nat base eq_refl) as (h & l & s & a & b & _ & _ & _ & H0 & _).
    apply elem_of_list_to_set, list_elem_of_lookup. by exists 0%nat. }
  split_and!.
  - exact Hin.
  - intros ty Hty. destruct (red_run ty Hty) as (vs & _ & Hgen & _).
    exists (list_to_set vs). split; [done|]. by apply (Hin "#FF0000" [] ty).
  - intros id ty Hid Hty.
    destruct (season_run id ty Hid Hty) as (info & base & rest & vs & H1 & H2 & H3 & _ & H5).
    exists info, base, rest, (list_to_set vs). split_and!; try done.
    apply (Hin base rest ty); [done|]. by rewrite <- H2.
Qed.

Lemma base_color_in_palette_witness :
  ∃ out, generate_harmony_palette ["#FF0000"] "triadic" = Ok out ∧ "#FF0000" ∈ out.
Proof.
  apply (proj1 (proj2 base_color_in_palette) "triadic").
  apply list_elem_of_In. cbn. auto.
Defined.

(** * Lightening a colour *)

Section Lighten.

Lemma all_ascii_complete c : In c all_ascii.
Proof.
  assert (all_ascii = map ascii_of_nat (seq 0 256)) as -> by (vm_compute; reflexivity).
  rewrite <- (ascii_nat_embedding c). apply in_map, in_seq.
  pose proof (nat_ascii_bounded c). lia.
Qed.

Lemma short_slices_checked :
  slice_ok "" = true
  ∧ forallb (λ a, slice_ok (String a "")) all_ascii = true
  ∧ forallb (λ a, forallb (λ b, slice_ok (String a (String b ""))) all_ascii) all_ascii = true.
Proof. split_and!; vm_compute; reflexivity. Qed.

Lemma slice_ok_short s : (String.length s ≤ 2)%nat → slice_ok s = true.
Proof.
  destruct short_slices_checked as (H0 & H1 & H2).
  destruct s as [|a [|b [|]]]; cbn [String.length]; intros Hlen; try lia.
  - exact H0.
  - exact (proj1 (forallb_forall _ _) H1 a (all_ascii_complete a)).
  - pose proof (proj1 (forallb_forall _ _) H2 a (all_ascii_complete a)) as Ha.
    exact (proj1 (forallb_forall _ _) Ha b (all_ascii_complete b)).
Qed.

Lemma substring_length n m s : (String.length (String.substring n m s) ≤ m)%nat.
Proof.
  revert n m. induction s as [|c s IH]; intros [|n] [|m]; cbn; try lia.
  - specialize (IH 0%nat m). lia.
  - apply (IH n 0%nat).
  - apply (IH n (S m)).
Qed.

Lemma slice_length i s : (String.length (PyStr.slice i (i + 2) s) ≤ 2)%nat.
Proof.
  unfold PyStr.slice. replace (i + 2 - i)%nat with 2%nat by lia.
  apply substring_length.
Qed.

Lemma format_ok_inv n :
  format_ok n = true →
  ∃ c1 c2, PyStr.format_02x n = String c1 (String c2 EmptyString)
    ∧ Spec.is_hex_digit c1 = true ∧ Spec.is_hex_digit c2 = true
    ∧ 16 * Spec.digit c1 + Spec.digit c2 = n.
Proof.
  unfold format_ok. intros H.
  destruct (PyStr.format_02x n) as [|c1 [|c2 [|]]]; try done.
  apply andb_prop in H as [H H3]. apply andb_prop in H as [H1 H2].
  exists c1, c2. split_and!; try done. by apply Z.eqb_eq.
Qed.

(** Three channels that print as two digits make a well-formed colour. *)
Lemma formatted_colour r g b :
  format_ok r = true → format_ok g = true → format_ok b = true →
  Spec.well_formed_hex
    ("#" +:+ PyStr.format_02x r +:+ PyStr.format_02x g +:+ PyStr.format_02x b) = true
  ∧ Spec.channels
      ("#" +:+ PyStr.format_02x r +:+ PyStr.format_02x g +:+ PyStr.format_02x b)
    = Some (r, g, b).
Proof.
  intros Hr Hg Hb.
  destruct (format_ok_inv r Hr) as (a1 & a2 & -> & Ha1 & Ha2 & Va).
  destruct (format_ok_inv g Hg) as (b1 & b2 & -> & Hb1 & Hb2 & Vb).
  destruct (format_ok_inv b Hb) as (d1 & d2 & -> & Hd1 & Hd2 & Vd).
  lazy beta iota delta [String.append].
  unfold Spec.well_formed_hex, Spec.channels. cbn [Spec.body Spec.six_digits forallb].
  rewrite Ha1, Ha2, Hb1, Hb2, Hd1, Hd2, Va, Vb, Vd. done.
Qed.

Lemma format_ok_byte n : 0 ≤ n < 256 → format_ok n = true.
Proof.
  intros Hn.
  assert (forallb format_ok (map Z.of_nat (seq 0 256)) = true) as Hall
    by (vm_compute; reflexivity).
  apply (proj1 (forallb_forall _ _) Hall). rewrite <- (Z2Nat.id n) by lia.
  apply in_map, in_seq. lia.
Qed.

Lemma lighten_slice s :
  (String.length s ≤ 2)%nat →
  is_ok (PyStr.int16 s) = false
  ∨ ∃ c n, PyStr.int16 s = Ok c ∧ lighten_channel c lighten_factor = Ok n
           ∧ format_ok n = true.
Proof.
  intros Hlen. pose proof (slice_ok_short s Hlen) as H. unfold slice_ok in H.
  destruct (PyStr.int16 s) as [c|e]; [right|by left].
  destruct (lighten_channel c lighten_factor) as [n|] eqn:E; [|done]. by exists c, n.
Qed.

Lemma channels_checked :
  forallb channel_ok (map Z.of_nat (seq 0 256)) = true.
Proof. vm_compute. reflexivity. Qed.

Lemma lighten_channel_exact c :
  0 ≤ c < 256 → lighten_channel c lighten_factor = Ok (lighten_exact c).
Proof.
  intros Hc.
  assert (channel_ok c = true) as H.
  { apply (proj1 (forallb_forall _ _) channels_checked).
    rewrite <- (Z2Nat.id c) by lia. apply in_map, in_seq. lia. }
  unfold channel_ok in H.
  destruct (lighten_channel c lighten_factor) as [n|]; [|done].
  by apply Z.eqb_eq in H as ->.
Qed.

Lemma lighten_exact_bounds c :
  0 ≤ c < 256 → c ≤ lighten_exact c ≤ 255 ∧ (lighten_exact c = c ↔ 252 ≤ c).
Proof.
  intros Hc. unfold lighten_exact. Z.div_mod_to_equations. lia.
Qed.

Lemma rgb_to_hls_error r g b e :
  colorsys.rgb_to_hls r g b = Raise e → e = ZeroDivisionError.
Proof.
  unfold colorsys.rgb_to_hls, PyFloat.div.
  repeat case_match; cbn; try done; by intros [= <-].
Qed.

Lemma lighten_attempt_rejected x factor :
  hex_to_hsl x = Raise ValueError → is_ok (lighten_attempt x factor) = false.
Proof.
  unfold hex_to_hsl, hex_channel, lighten_attempt. cbn [Nat.add].
  destruct (PyStr.int16 (PyStr.slice 0 2 _)); [|done].
  destruct (PyStr.int16 (PyStr.slice 2 4 _)); [|done].
  destruct (PyStr.int16 (PyStr.slice 4 6 _)); [|done].
  cbn [mbind result_bind]. intros H. by apply rgb_to_hls_error in H.
Qed.

Lemma lighten_default_well_formed hex_color :
  Spec.well_formed_hex (lighten_color hex_color lighten_factor) = true.
Proof.
  unfold lighten_color, lighten_attempt.
  set (y := PyStr.lstrip "#" hex_color).
  destruct (lighten_slice (PyStr.slice 0 2 y) (slice_length 0 y))
    as [E0|(r & r' & -> & Hr & Fr)]; [by destruct (PyStr.int16 _)|].
  destruct (lighten_slice (PyStr.slice 2 4 y) (slice_length 2 y))
    as [E2|(g & g' & -> & Hg & Fg)]; [by destruct (PyStr.int16 _)|].
  destruct (lighten_slice (PyStr.slice 4 6 y) (slice_length 4 y))
    as [E4|(b & b' & -> & Hb & Fb)]; [by destruct (PyStr.int16 _)|].
  cbn [mbind result_bind]. rewrite Hr, Hg, Hb. cbn [mbind result_bind].
  by apply formatted_colour.
Qed.

End Lighten.

(** X1.  Whatever string it is given, [lighten_color] with its default
    factor 0.3 returns a well-formed colour: a '#' and six hexadecimal
    digits, with every channel in 0..255.  This covers the malformed
    inputs that [int] still accepts, signs and blanks included. *)
Theorem lighten_color_well_formed (hex_color : string) :
  Spec.well_formed_hex (lighten_color hex_color lighten_factor) = true
  ∧ ∃ r g b, Spec.channels (lighten_color hex_color lighten_factor) = Some (r, g, b)
             ∧ 0 ≤ r < 256 ∧ 0 ≤ g < 256 ∧ 0 ≤ b < 256.
Proof.
  pose proof (lighten_default_well_formed hex_color) as Hwf. split; [done|].
  destruct (channels_well_formed _ Hwf) as (r & g & b & Hch).
  destruct (hex_to_hsl_well_formed _ r g b Hwf Hch) as (_ & Br & Bg & Bb).
  by exists r, g, b.
Qed.

(** X2.  On a well-formed colour with channels (r, g, b), the result for
    the default factor has the channels c + floor(3 * (255 - c) / 10): the
    float computation of the source agrees with exact arithmetic on all 256
    channel values.  No channel gets darker or leaves 0..255, and a channel
    keeps its value exactly from 252 upwards. *)
Theorem lighten_color_channels (hex_color : string) (r g b : Z) :
  Spec.well_formed_hex hex_color = true →
  Spec.channels hex_color = Some (r, g, b) →
  Spec.channels (lighten_color hex_color lighten_factor)
  = Some (lighten_exact r, lighten_exact g, lighten_exact b)
  ∧ (r ≤ lighten_exact r ≤ 255 ∧ g ≤ lighten_exact g ≤ 255 ∧ b ≤ lighten_exact b ≤ 255)
  ∧ (lighten_exact r = r ↔ 252 ≤ r).
Proof.
  intros Hwf Hch.
  destruct (well_formed_inv hex_color Hwf) as (c1 & c2 & c3 & c4 & c5 & c6 & Hb & Hstrip & HF).
  unfold Spec.channels in Hch. rewrite Hb in Hch. injection Hch as <- <- <-.
  repeat match goal with
         | H : Forall _ (_ :: _) |- _ => apply Forall_cons in H; destruct H as [? H]
         end.
  assert (∀ a b, Spec.is_hex_digit a = true → Spec.is_hex_digit b = true →
                 0 ≤ 16 * Spec.digit a + Spec.digit b < 256) as Hrange.
  { intros a b' Ha Hb'. apply hex_digit_props in Ha as (_&_&_&_&_&_&_&_&?).
    apply hex_digit_props in Hb' as (_&_&_&_&_&_&_&_&?). lia. }
  pose proof (Hrange c1 c2 ltac:(done) ltac:(done)) as R1.
  pose proof (Hrange c3 c4 ltac:(done) ltac:(done)) as R2.
  pose proof (Hrange c5 c6 ltac:(done) ltac:(done)) as R3.
  split_and!; try (by apply lighten_exact_bounds).
  unfold lighten_color, lighten_attempt. rewrite Hstrip, Hb.
  cbn [PyStr.slice Nat.add Nat.sub String.substring].
  rewrite !int16_two_digits by done. cbn [mbind result_bind].
  rewrite !lighten_channel_exact by done. cbn [mbind result_bind].
  pose proof (lighten_exact_bounds _ R1). pose proof (lighten_exact_bounds _ R2).
  pose proof (lighten_exact_bounds _ R3).
  apply formatted_colour; apply format_ok_byte; lia.
Qed.

Lemma lighten_color_channels_witness :
  Spec.channels (lighten_color "#336699" lighten_factor) = Some (112, 147, 183)
  ∧ (51 ≤ 112 ≤ 255 ∧ 102 ≤ 147 ≤ 255 ∧ 153 ≤ 183 ≤ 255)
  ∧ (112 = 51 ↔ 252 ≤ 51).
Proof. exact (lighten_color_channels "#336699" 51 102 153 eq_refl eq_refl). Defined.

(** X3.  On strings of characters below U+0100, which are the strings of
    this model, and for every factor: a string that [hex_to_hsl] rejects
    with [ValueError] is answered by white, "#FFFFFF", since the bare
    [except] hides the error.  This is the case when fewer than five
    characters are left after the leading '#', and when one of the first
    six of them is neither a hexadecimal digit nor a sign nor a blank.
    (Beyond U+0100 Python's [int] also reads the decimal digits of other
    scripts; such text is not covered.) *)
Theorem lighten_color_fallback :
  (∀ x factor, hex_to_hsl x = Raise ValueError → lighten_color x factor = "#FFFFFF")
  ∧ (∀ x factor, (String.length (PyStr.lstrip "#" x) < 5)%nat →
       lighten_color x factor = "#FFFFFF")
  ∧ (∀ x factor i c, (i < 6)%nat → String.get i (PyStr.lstrip "#" x) = Some c →
       Spec.int_char c = false → lighten_color x factor = "#FFFFFF").
Proof.
  assert (∀ x factor, hex_to_hsl x = Raise ValueError →
                      lighten_color x factor = "#FFFFFF") as H.
  { intros x factor Hx. apply (lighten_attempt_rejected x factor) in Hx.
    unfold lighten_color. by destruct (lighten_attempt x factor). }
  split_and!; [done| |].
  - intros x factor Hlen. by apply H, hex_to_hsl_short.
  - intros x factor i c Hi Hget Hbad. by apply H, (hex_to_hsl_bad_char x i c).
Qed.

(** * Palette builders *)

Section Text.

Lemma ws2_not_ws1 a b : PyText.ws2 a b = true → PyText.ws1 a = false.
Proof.
  unfold PyText.ws2, PyText.ws1. intros H.
  apply andb_prop in H as [H _]. apply N.eqb_eq in H. rewrite H. reflexivity.
Qed.

Lemma ws3_lead a b c :
  PyText.ws3 a b c = true →
  (PyText.byte a = 225 ∨ PyText.byte a = 226 ∨ PyText.byte a = 227)%N.
Proof.
  unfold PyText.ws3. intros H.
  repeat match type of H with
         | (_ || _)%bool = true => apply orb_prop in H as [H|H]
         | (_ && _)%bool = true => apply andb_prop in H as [H _]
         end; apply N.eqb_eq in H; auto.
Qed.

Lemma ws3_not_ws1 a b c : PyText.ws3 a b c = true → PyText.ws1 a = false.
Proof.
  intros H. apply ws3_lead in H. unfold PyText.ws1.
  destruct H as [-> | [-> | ->]]; reflexivity.
Qed.

Lemma ws3_not_ws2 a b c : PyText.ws3 a b c = true → PyText.ws2 a b = false.
Proof.
  intros H. apply ws3_lead in H. unfold PyText.ws2.
  destruct H as [-> | [-> | ->]]; reflexivity.
Qed.

Lemma word_nil cs : PyText.word cs = [] → cs = [] ∨ PyText.at_space cs = true.
Proof.
  destruct cs as [|a t]; [by left|]. cbn [PyText.word].
  destruct (PyText.at_space (a :: t)); [by right|done].
Qed.

Lemma blank_of_first_word n cs :
  (length cs ≤ n)%nat → PyText.word (PyText.lstrip_space cs) = [] → PaletteSpec.blank cs.
Proof.
  revert cs. induction n as [|n IH]; intros cs Hn.
  { destruct cs; [constructor|cbn in Hn; lia]. }
  destruct cs as [|a [|b [|c t]]]; cbn [PyText.lstrip_space].
  - constructor.
  - destruct (PyText.ws1 a) eqn:E1.
    + intros _. by repeat constructor.
    + intros H. apply word_nil in H as [H|H]; [done|].
      unfold PyText.at_space in H. by rewrite E1 in H.
  - destruct (PyText.ws1 a) eqn:E1.
    + intros H. apply PaletteSpec.blank_1; [done|]. apply IH; [cbn in *; lia|done].
    + destruct (PyText.ws2 a b) eqn:E2.
      * intros _. apply PaletteSpec.blank_2; [done|constructor].
      * intros H. apply word_nil in H as [H|H]; [done|].
        unfold PyText.at_space in H. by rewrite E1, E2 in H.
  - destruct (PyText.ws1 a) eqn:E1.
    + intros H. apply PaletteSpec.blank_1; [done|]. apply IH; [cbn in *; lia|done].
    + destruct (PyText.ws2 a b) eqn:E2.
      * intros H. apply PaletteSpec.blank_2; [done|]. apply IH; [cbn in *; lia|done].
      * destruct (PyText.ws3 a b c) eqn:E3.
        -- intros H. apply PaletteSpec.blank_3; [done|]. apply IH; [cbn in *; lia|done].
        -- intros H. apply word_nil in H as [H|H]; [done|].
           unfold PyText.at_space in H. by rewrite E1, E2, E3 in H.
Qed.

Lemma first_word_of_blank cs :
  PaletteSpec.blank cs → PyText.word (PyText.lstrip_space cs) = [].
Proof.
  induction 1 as [|a t Ha _ IH|a b t Hab _ IH|a b c t Habc _ IH].
  - reflexivity.
  - cbn [PyText.lstrip_space]. by rewrite Ha.
  - cbn [PyText.lstrip_space]. by rewrite (ws2_not_ws1 a b Hab), Hab.
  - cbn [PyText.lstrip_space].
    by rewrite (ws3_not_ws1 a b c Habc), (ws3_not_ws2 a b c Habc), Habc.
Qed.

Lemma first_word_blank s :
  PyText.first_word s = Throw IndexError ↔ PaletteSpec.blank (list_ascii_of_string s).
Proof.
  unfold PyText.first_word. split.
  - intros H. apply (blank_of_first_word _ _ (le_n _)).
    by destruct (PyText.word _).
  - intros H. by rewrite (first_word_of_blank _ H).
Qed.

Lemma first_word_cases s :
  PyText.first_word s = Throw IndexError ∨ ∃ w, PyText.first_word s = Return w.
Proof. unfold PyText.first_word. destruct (PyText.word _); eauto. Qed.

Lemma season_word_cases info :
  (PaletteSpec.blank (list_ascii_of_string (name info))
   ∧ season_word info = Throw IndexError)
  ∨ (¬ PaletteSpec.blank (list_ascii_of_string (name info))
     ∧ ∃ w, season_word info = Return w).
Proof.
  unfold season_word.
  destruct (first_word_cases (name info)) as [H|[w H]].
  - left. split; [by apply first_word_blank|]. by rewrite H.
  - right. split.
    + intros Hb. apply first_word_blank in Hb. congruence.
    + rewrite H. cbn. eauto.
Qed.

End Text.

Section Seasons.

(** Case analysis on an entry of [SEASONS]. *)
Lemma SEASONS_inv id info :
  SEASONS !! id = Some info →
  id ∈ Spec.season_ids ∧ getitem SEASONS id = Ok info.
Proof.
  intros H. split; [|unfold getitem; by rewrite H].
  unfold SEASONS in H. apply elem_of_list_to_map_2 in H.
  apply list_elem_of_In in H. cbn [In] in H.
  apply list_elem_of_In. cbn [In Spec.season_ids].
  destruct_or!; try done; injection H as <- _; auto 10.
Qed.

Lemma season_ids_cases id :
  id ∈ Spec.season_ids →
  id = "primavera_calida" ∨ id = "primavera_clara" ∨ id = "verano_suave"
  ∨ id = "verano_frio" ∨ id = "otono_suave" ∨ id = "otono_profundo"
  ∨ id = "invierno_profundo" ∨ id = "invierno_brillante".
Proof.
  intros H. apply list_elem_of_In in H. cbn [In Spec.season_ids] in H.
  destruct_or!; auto 10; done.
Qed.

Lemma autumn_cases id : id ∈ PaletteSpec.autumn_ids → id = "otono_suave" ∨ id = "otono_profundo".
Proof.
  intros H. apply list_elem_of_In in H. cbn [In PaletteSpec.autumn_ids] in H.
  destruct_or!; auto; done.
Qed.

End Seasons.

Ltac season_cases H :=
  let Hid := fresh "Hid" in
  pose proof (proj1 (SEASONS_inv _ _ H)) as Hid;
  apply season_ids_cases in Hid;
  destruct Hid as [-> | [-> | [-> | [-> | [-> | [-> | [-> | ->]]]]]]];
  vm_compute in H; injection H as <-.

(** X4.  The two autumn seasons never reach the rows written for them.
    Their display names begin with "Otoño", so the key computed by
    [split()[0].lower()] is "otoño", while the four tables are keyed by
    "otono": the foundation shade, the neutral colours, the stones and the
    textures of otono_suave and otono_profundo are the defaults of the
    [get] calls, although each table has an "otono" row. *)
Theorem autumn_rows_never_reached (id : string) (info : season_info) (colors : list string) :
  id ∈ PaletteSpec.autumn_ids →
  SEASONS !! id = Some info →
  season_word info = Return "otoño"
  ∧ determine_foundation_shade info = Return "#F5DEB3"
  ∧ get_neutral_colors info = Return ["#FFFFFF"; "#000000"; "#808080"]
  ∧ get_recommended_stones info colors = Return ["Cuarzo"; "Perla"]
  ∧ get_recommended_textures info = Return ["Algodón"; "Poliéster"]
  ∧ base_mapping !! "otono" = Some "#DEB887"
  ∧ neutral_mapping !! "otono" = Some ["#F4A460"; "#D2B48C"; "#A0522D"]
  ∧ stone_mapping !! "otono" = Some ["Ámbar"; "Granate"; "Topacio dorado"]
  ∧ texture_mapping !! "otono" = Some ["Tweed"; "Terciopelo"; "Lana"].
Proof.
  intros Hid H. apply autumn_cases in Hid as [-> | ->];
    vm_compute in H; injection H as <-; split_and!; vm_compute; reflexivity.
Qed.

Lemma autumn_rows_never_reached_witness :
  ∃ info,
    SEASONS !! "otono_suave" = Some info
    ∧ season_word info = Return "otoño"
    ∧ determine_foundation_shade info = Return "#F5DEB3"
    ∧ get_neutral_colors info = Return ["#FFFFFF"; "#000000"; "#808080"].
Proof.
  eexists. split; [vm_compute; reflexivity|].
  pose proof (autumn_rows_never_reached "otono_suave" _ []
                ltac:(apply list_elem_of_In; cbn; auto) eq_refl) as H.
  split_and!; apply H.
Defined.

(** X5.  For the other six seasons the key is the family word of the
    identifier (primavera, verano or invierno), every table has a row for
    it, and the four helpers return that row. *)
Theorem family_rows_reached (id k : string) (info : season_info) (colors : list string) :
  k ∈ ["primavera"; "verano"; "invierno"] →
  String.prefix k id = true →
  SEASONS !! id = Some info →
  season_word info = Return k
  ∧ (∃ shade, base_mapping !! k = Some shade
       ∧ determine_foundation_shade info = Return shade)
  ∧ (∃ neutrals, neutral_mapping !! k = Some neutrals
       ∧ get_neutral_colors info = Return neutrals)
  ∧ (∃ stones, stone_mapping !! k = Some stones
       ∧ get_recommended_stones info colors = Return stones)
  ∧ (∃ textures, texture_mapping !! k = Some textures
       ∧ get_recommended_textures info = Return textures).
Proof.
  intros Hk Hpre H.
  apply list_elem_of_In in Hk. cbn [In] in Hk.
  season_cases H; destruct_or!; try done; subst k; try discriminate Hpre;
    (split_and!; [vm_compute; reflexivity|eexists; split; vm_compute; reflexivity..]).
Qed.

Lemma family_rows_reached_witness :
  ∃ info,
    SEASONS !! "invierno_brillante" = Some info
    ∧ season_word info = Return "invierno"
    ∧ determine_foundation_shade info = Return "#FFE4E1".
Proof.
  eexists. split; [vm_compute; reflexivity|].
  pose proof (family_rows_reached "invierno_brillante" "invierno" _ []
                ltac:(apply list_elem_of_In; cbn; auto) eq_refl eq_refl) as H.
  split; [apply H|].
  destruct H as (_ & (shade & Hrow & Hshade) & _).
  vm_compute in Hrow. injection Hrow as <-. exact Hshade.
Defined.

Section Indexing.

Context {A : Type}.
Implicit Types l : list A.

Lemma item_lookup l i : item l i = from_option Return (Throw IndexError) (l !! i).
Proof. unfold item. by destruct (l !! i). Qed.

Lemma guarded_item l i d :
  (if (i <? length l)%nat then item l i else Return d) = Return (default d (l !! i)).
Proof.
  rewrite item_lookup. destruct (Nat.ltb_spec i (length l)) as [H|H].
  - destruct (lookup_lt_is_Some_2 l i H) as [x ->]. reflexivity.
  - by rewrite (lookup_ge_None_2 l i H).
Qed.

Lemma item_back_reverse l k :
  (0 < k)%nat →
  item_back l k = from_option Return (Throw IndexError) (reverse l !! (k - 1)%nat).
Proof.
  intros Hk. unfold item_back. rewrite item_lookup.
  destruct (Nat.leb_spec k (length l)) as [H|H].
  - rewrite reverse_lookup by lia. do 2 f_equal. lia.
  - rewrite (lookup_ge_None_2 (reverse l)); [done|]. rewrite length_reverse. lia.
Qed.

Lemma guarded_item_back l k d :
  (0 < k)%nat →
  (if (k - 1 <? length l)%nat then item_back l k else Return d)
  = Return (default d (reverse l !! (k - 1)%nat)).
Proof.
  intros Hk. rewrite item_back_reverse by done.
  destruct (Nat.ltb_spec (k - 1) (length l)) as [H|H].
  - destruct (lookup_lt_is_Some_2 (reverse l) (k - 1)) as [x ->]; [|done].
    rewrite length_reverse. lia.
  - rewrite (lookup_ge_None_2 (reverse l)); [done|]. rewrite length_reverse. lia.
Qed.

Lemma nonempty_length l : bool_decide (l ≠ []) = (0 <? length l)%nat.
Proof. by destruct l. Qed.

Lemma reverse_lookup_0 l : reverse l !! 0%nat = last l.
Proof. by rewrite <- head_lookup, head_reverse. Qed.

End Indexing.

Section Builders.

Lemma combinations_eq colors ev :
  generate_clothing_combinations colors ev
  = Return
      match colors with
      | c0 :: c1 :: rest =>
          [ {| superior := c0; inferior := c1;
               descripcion := "Combinación armónica principal" |};
            {| superior := c1; inferior := c0;
               descripcion := "Combinación armónica invertida" |} ]
          ++ match rest with
             | c2 :: _ => [ {| superior := c0; inferior := c2;
                               descripcion := "Combinación con contraste" |} ]
             | [] => []
             end
      | _ => []
      end.
Proof. by destruct colors as [|c0 [|c1 [|c2 rest]]]. Qed.

Lemma casual_config :
  getitem Makeup.event_intensities "casual"
  = Ok {| Makeup.intensity := "suave"; Makeup.colors_count := 4 |}.
Proof. vm_compute. reflexivity. Qed.

Lemma season_word_first info w :
  PyText.first_word (name info) = Return w → season_word info = Return (PyText.lower w).
Proof. unfold season_word. by intros ->. Qed.

Lemma makeup_palette_eq base info ev w :
  PyText.first_word (name info) = Return w →
  generate_makeup_palette base info ev
  = Return
      {| Makeup.ojos :=
           {| Makeup.sombras_principales := take 2 base;
              Makeup.sombra_iluminadora := default "#FFFFFF" (base !! 2%nat);
              Makeup.delineador :=
                if String.eqb (contrast info) "alto" then "#000000" else "#8B4513" |};
         Makeup.rostro :=
           {| Makeup.base := default "#F5DEB3" (base_mapping !! PyText.lower w);
              Makeup.rubor := default "#FFB6C1" (base !! 1%nat);
              Makeup.iluminador :=
                from_option (λ c, lighten_color c lighten_factor) "#F0F8FF" (head base) |};
         Makeup.labios :=
           {| Makeup.color_principal := default "#FF69B4" (last base);
              Makeup.alternativo := default "#FFB6C1" (reverse base !! 1%nat) |};
         Makeup.recomendaciones :=
           {| Makeup.intensidad :=
                Makeup.intensity
                  (default {| Makeup.intensity := "suave"; Makeup.colors_count := 4 |}
                           (Makeup.event_intensities !! ev));
              Makeup.ocasion := ev;
              Makeup.tecnica := get_makeup_technique info ev |} |}.
Proof.
  intros Hw. unfold generate_makeup_palette, determine_foundation_shade.
  rewrite casual_config, (season_word_first info w Hw).
  rewrite !guarded_item, !nonempty_length.
  pose proof (guarded_item_back base 1 "#FF69B4" ltac:(lia)) as H1.
  pose proof (guarded_item_back base 2 "#FFB6C1" ltac:(lia)) as H2.
  cbn [Nat.sub] in H1, H2. rewrite H1, H2.
  cbn [engine mbind outcome_bind mret outcome_ret].
  rewrite reverse_lookup_0.
  by destruct base.
Qed.

Lemma clothing_palette_eq base info ev w :
  PyText.first_word (name info) = Return w →
  generate_clothing_palette base info ev
  = Return
      {| Clothing.colores_principales := take 3 base;
         Clothing.colores_neutros :=
           default ["#FFFFFF"; "#000000"; "#808080"] (neutral_mapping !! PyText.lower w);
         Clothing.colores_accent := drop 3 base;
         Clothing.combinaciones_recomendadas :=
           match base with
           | c0 :: c1 :: rest =>
               [ {| superior := c0; inferior := c1;
                    descripcion := "Combinación armónica principal" |};
                 {| superior := c1; inferior := c0;
                    descripcion := "Combinación armónica invertida" |} ]
               ++ match rest with
                  | c2 :: _ => [ {| superior := c0; inferior := c2;
                                    descripcion := "Combinación con contraste" |} ]
                  | [] => []
                  end
           | _ => []
           end;
         Clothing.texturas_recomendadas :=
           default ["Algodón"; "Poliéster"] (texture_mapping !! PyText.lower w);
         Clothing.estilos :=
           {| Clothing.ocasion := ev;
              Clothing.temperatura_color := temperature info;
              Clothing.saturacion := saturation info |} |}.
Proof.
  intros Hw. unfold generate_clothing_palette, get_neutral_colors, get_recommended_textures.
  rewrite combinations_eq, (season_word_first info w Hw).
  cbn [mbind outcome_bind mret outcome_ret].
  do 2 f_equal. destruct (Nat.ltb_spec 3 (length base)) as [H|H]; [done|].
  symmetry. apply drop_ge. lia.
Qed.

Lemma accessories_palette_eq base info ev w :
  PyText.first_word (name info) = Return w →
  generate_accessories_palette base info ev
  = Return
      {| Accessories.joyeria :=
           {| Accessories.metal_principal :=
                if String.eqb (temperature info) "calido" then "oro" else "plata";
              Accessories.piedras_recomendadas :=
                default ["Cuarzo"; "Perla"] (stone_mapping !! PyText.lower w) |};
         Accessories.bolsos_zapatos :=
           {| Accessories.colores_versatiles :=
                default ["#FFFFFF"; "#000000"; "#808080"]
                        (neutral_mapping !! PyText.lower w);
              Accessories.colores_statement := take 2 base |};
         Accessories.panuelos_bufandas := base;
         Accessories.recomendaciones :=
           {| Accessories.contraste := contrast info;
              Accessories.estilo_ocasion := ev |} |}.
Proof.
  intros Hw. unfold generate_accessories_palette, get_recommended_stones, get_neutral_colors.
  by rewrite (season_word_first info w Hw).
Qed.

Lemma builders_blank base info ev :
  season_word info = Throw IndexError →
  generate_makeup_palette base info ev = Throw IndexError
  ∧ generate_clothing_palette base info ev = Throw IndexError
  ∧ generate_accessories_palette base info ev = Throw IndexError.
Proof.
  intros Hw. split_and!.
  - unfold generate_makeup_palette, determine_foundation_shade.
    rewrite casual_config, Hw, (guarded_item base 2). reflexivity.
  - unfold generate_clothing_palette, get_neutral_colors. by rewrite Hw.
  - unfold generate_accessories_palette, get_recommended_stones. by rewrite Hw.
Qed.

End Builders.

Section Rows.

Lemma neutral_rows k v :
  neutral_mapping !! k = Some v →
  length v = 3%nat ∧ Forall (λ c, Spec.well_formed_hex c = true) v.
Proof.
  intros H. unfold neutral_mapping in H. apply elem_of_list_to_map_2 in H.
  apply list_elem_of_In in H. cbn [In] in H.
  destruct_or!; try done; injection H as _ <-;
    (split; [reflexivity|repeat constructor]).
Qed.

Lemma neutral_default k :
  let v := default ["#FFFFFF"; "#000000"; "#808080"] (neutral_mapping !! k) in
  length v = 3%nat ∧ Forall (λ c, Spec.well_formed_hex c = true) v.
Proof.
  destruct (neutral_mapping !! k) as [v|] eqn:E; cbn.
  - by apply (neutral_rows k).
  - split; [reflexivity|repeat constructor].
Qed.

Lemma base_default k :
  Spec.well_formed_hex (default "#F5DEB3" (base_mapping !! k)) = true.
Proof.
  destruct (base_mapping !! k) as [v|] eqn:E; cbn; [|reflexivity].
  unfold base_mapping in E. apply elem_of_list_to_map_2 in E.
  apply list_elem_of_In in E. cbn [In] in E.
  destruct_or!; try done; injection E as _ <-; reflexivity.
Qed.

Lemma intensity_rows ev c :
  Makeup.event_intensities !! ev = Some c →
  Makeup.intensity c
  ∈ ["suave"; "profesional"; "elegante"; "vibrante"; "dramatica"; "natural"].
Proof.
  intros H. unfold Makeup.event_intensities in H. apply elem_of_list_to_map_2 in H.
  apply list_elem_of_In in H. cbn [In] in H. apply list_elem_of_In.
  destruct_or!; try done; injection H as _ <-; cbn; auto 10.
Qed.

End Rows.

(** X6.  [generate_clothing_combinations] never indexes out of range: it
    returns for every list, with no combination for fewer than two colours,
    two for exactly two and three otherwise.  Each top colour is one of the
    first two colours and each bottom colour one of the first three, and
    the result depends on the first three colours only. *)
Theorem clothing_combinations_shape (colors : list string) (ev : string) :
  ∃ cs,
    generate_clothing_combinations colors ev = Return cs
    ∧ length cs = (if (length colors <? 2)%nat then 0
                   else if (length colors =? 2)%nat then 2 else 3)%nat
    ∧ (∀ c, c ∈ cs → superior c ∈ take 2 colors ∧ inferior c ∈ take 3 colors)
    ∧ generate_clothing_combinations (take 3 colors) ev = Return cs.
Proof.
  rewrite !combinations_eq. eexists. split; [reflexivity|].
  destruct colors as [|c0 [|c1 [|c2 rest]]]; cbn [length take app Nat.ltb Nat.leb Nat.eqb];
    (split_and!; [reflexivity| |reflexivity]);
    intros c Hc; apply list_elem_of_In in Hc; cbn [In] in Hc;
    destruct_or!; try done; subst c; cbn [superior inferior];
    split; apply list_elem_of_In; cbn; auto.
Qed.

(** X7.  When the display name of the season has a first word, the
    clothing palette is returned, its main colours followed by its accent
    colours are exactly the base colours, there are at most three main
    colours, the accents are empty exactly when there are at most three
    base colours, and the neutrals are three well-formed colours. *)
Theorem clothing_palette_partition
    (base_colors : list string) (info : season_info) (ev w : string) :
  PyText.first_word (name info) = Return w →
  ∃ p,
    generate_clothing_palette base_colors info ev = Return p
    ∧ Clothing.colores_principales p ++ Clothing.colores_accent p = base_colors
    ∧ (length (Clothing.colores_principales p) ≤ 3)%nat
    ∧ (Clothing.colores_accent p = [] ↔ (length base_colors ≤ 3)%nat)
    ∧ length (Clothing.colores_neutros p) = 3%nat
    ∧ Forall (λ c, Spec.well_formed_hex c = true) (Clothing.colores_neutros p).
Proof.
  intros Hw. rewrite (clothing_palette_eq _ _ _ w Hw). eexists. split; [reflexivity|].
  cbn [Clothing.colores_principales Clothing.colores_accent Clothing.colores_neutros].
  split_and!.
  - apply take_drop.
  - rewrite length_take. lia.
  - split.
    + intros H. apply (f_equal length) in H. rewrite length_drop in H. cbn in H. lia.
    + intros H. apply drop_ge. lia.
  - apply neutral_default.
  - apply neutral_default.
Qed.

Lemma clothing_palette_partition_witness :
  ∃ p,
    generate_clothing_palette ["#111111"; "#222222"; "#333333"; "#444444"]
      {| name := "Verano Suave"; characteristics := ""; temperature := "frio";
         saturation := "baja"; contrast := "bajo"; best_colors := [];
         avoid_colors := [] |} "casual" = Return p
    ∧ Clothing.colores_principales p ++ Clothing.colores_accent p
      = ["#111111"; "#222222"; "#333333"; "#444444"]
    ∧ (length (Clothing.colores_principales p) ≤ 3)%nat
    ∧ (Clothing.colores_accent p = [] ↔ (4 ≤ 3)%nat)
    ∧ length (Clothing.colores_neutros p) = 3%nat
    ∧ Forall (λ c, Spec.well_formed_hex c = true) (Clothing.colores_neutros p).
Proof.
  exact (clothing_palette_partition
           ["#111111"; "#222222"; "#333333"; "#444444"]
           {| name := "Verano Suave"; characteristics := ""; temperature := "frio";
              saturation := "baja"; contrast := "bajo"; best_colors := [];
              avoid_colors := [] |} "casual" "Verano" eq_refl).
Defined.

(** X8.  When the display name of the season has a first word, the
    make-up palette is returned for every list of base colours, the empty
    one included: each slot is the colour at its position or its fallback
    (third colour or "#FFFFFF", second or "#FFB6C1", last or "#FF69B4",
    last but one or "#FFB6C1").  The foundation and the highlighter are
    well-formed colours, and the intensity is one of the six listed, that
    of "casual" for an event that is not listed. *)
Theorem makeup_palette_slots
    (base_colors : list string) (info : season_info) (ev w : string) :
  PyText.first_word (name info) = Return w →
  ∃ p,
    generate_makeup_palette base_colors info ev = Return p
    ∧ Makeup.sombras_principales (Makeup.ojos p) = take 2 base_colors
    ∧ Makeup.sombra_iluminadora (Makeup.ojos p) = default "#FFFFFF" (base_colors !! 2%nat)
    ∧ Makeup.rubor (Makeup.rostro p) = default "#FFB6C1" (base_colors !! 1%nat)
    ∧ Makeup.color_principal (Makeup.labios p) = default "#FF69B4" (last base_colors)
    ∧ Makeup.alternativo (Makeup.labios p)
      = default "#FFB6C1" (reverse base_colors !! 1%nat)
    ∧ Spec.well_formed_hex (Makeup.base (Makeup.rostro p)) = true
    ∧ Spec.well_formed_hex (Makeup.iluminador (Makeup.rostro p)) = true
    ∧ Makeup.intensidad (Makeup.recomendaciones p)
      ∈ ["suave"; "profesional"; "elegante"; "vibrante"; "dramatica"; "natural"]
    ∧ (Makeup.event_intensities !! ev = None →
       Makeup.intensidad (Makeup.recomendaciones p) = "suave").
Proof.
  intros Hw. rewrite (makeup_palette_eq _ _ _ w Hw). eexists. split; [reflexivity|].
  cbn [Makeup.ojos Makeup.rostro Makeup.labios Makeup.recomendaciones
       Makeup.sombras_principales Makeup.sombra_iluminadora Makeup.rubor
       Makeup.color_principal Makeup.alternativo Makeup.base Makeup.iluminador
       Makeup.intensidad].
  split_and!; try reflexivity.
  - apply base_default.
  - destruct (head base_colors) as [c|]; cbn; [|reflexivity].
    apply lighten_default_well_formed.
  - destruct (Makeup.event_intensities !! ev) as [c|] eqn:E; cbn.
    + by apply (intensity_rows ev).
    + apply list_elem_of_In. cbn. auto.
  - by intros ->.
Qed.

Lemma makeup_palette_slots_witness :
  ∃ p,
    generate_makeup_palette ["#FF0000"]
      {| name := "Invierno Profundo"; characteristics := ""; temperature := "frio";
         saturation := "alta"; contrast := "muy_alto"; best_colors := [];
         avoid_colors := [] |} "boda" = Return p
    ∧ Makeup.sombras_principales (Makeup.ojos p) = ["#FF0000"]
    ∧ Makeup.sombra_iluminadora (Makeup.ojos p) = "#FFFFFF"
    ∧ Makeup.rubor (Makeup.rostro p) = "#FFB6C1"
    ∧ Makeup.color_principal (Makeup.labios p) = "#FF0000"
    ∧ Makeup.alternativo (Makeup.labios p) = "#FFB6C1"
    ∧ Spec.well_formed_hex (Makeup.base (Makeup.rostro p)) = true
    ∧ Spec.well_formed_hex (Makeup.iluminador (Makeup.rostro p)) = true
    ∧ Makeup.intensidad (Makeup.recomendaciones p)
      ∈ ["suave"; "profesional"; "elegante"; "vibrante"; "dramatica"; "natural"]
    ∧ (Makeup.event_intensities !! "boda" = None →
       Makeup.intensidad (Makeup.recomendaciones p) = "suave").
Proof.
  exact (makeup_palette_slots ["#FF0000"]
           {| name := "Invierno Profundo"; characteristics := ""; temperature := "frio";
              saturation := "alta"; contrast := "muy_alto"; best_colors := [];
              avoid_colors := [] |} "boda" "Invierno" eq_refl).
Defined.

(** X9.  The three palette builders raise [IndexError] exactly when the
    display name of the season consists of white space only (the empty name
    included), and return otherwise, whatever the base colours and the
    event. *)
Theorem blank_name_raises_index_error
    (base_colors : list string) (info : season_info) (ev : string) :
  let blank := PaletteSpec.blank (list_ascii_of_string (name info)) in
  (blank ↔ generate_makeup_palette base_colors info ev = Throw IndexError)
  ∧ (blank ↔ generate_clothing_palette base_colors info ev = Throw IndexError)
  ∧ (blank ↔ generate_accessories_palette base_colors info ev = Throw IndexError)
  ∧ (¬ blank ↔
     returns (generate_makeup_palette base_colors info ev) = true
     ∧ returns (generate_clothing_palette base_colors info ev) = true
     ∧ returns (generate_accessories_palette base_colors info ev) = true).
Proof.
  intros blank. subst blank.
  destruct (first_word_cases (name info)) as [H|[w H]].
  - assert (season_word info = Throw IndexError) as Hs
      by (unfold season_word; by rewrite H).
    destruct (builders_blank base_colors info ev Hs) as (-> & -> & ->).
    apply first_word_blank in H. cbn [returns]. split_and!; try done.
    split; [done|]. by intros (? & _).
  - rewrite (makeup_palette_eq _ _ _ w H), (clothing_palette_eq _ _ _ w H),
      (accessories_palette_eq _ _ _ w H).
    assert (¬ PaletteSpec.blank (list_ascii_of_string (name info))) as Hnb.
    { intros Hb. apply first_word_blank in Hb. congruence. }
    cbn [returns]. split_and!; try done.
Qed.

Section Quick.

Lemma bind_return {A B} (a : A) (k : A → outcome B) : (Return a ≫= k) = k a.
Proof. reflexivity. Qed.

Lemma quick_season_known skin und : quick_season skin und ∈ PaletteSpec.quick_ids.
Proof.
  unfold quick_season.
  destruct (season_mapping !! _) as [v|] eqn:E; cbn [default].
  - unfold season_mapping in E. apply elem_of_list_to_map_2 in E.
    apply list_elem_of_In in E. cbn [In] in E. apply list_elem_of_In.
    destruct_or!; try done; injection E as _ <-; cbn; auto 10.
  - apply list_elem_of_In. cbn. auto 10.
Qed.

Lemma quick_ids_info id :
  id ∈ PaletteSpec.quick_ids →
  ∃ info w, getitem SEASONS id = Ok info ∧ SEASONS !! id = Some info
            ∧ PyText.first_word (name info) = Return w.
Proof.
  intros H. apply list_elem_of_In in H. cbn [In PaletteSpec.quick_ids] in H.
  destruct_or!; try done; subst id;
    (eexists _, _; split_and!; [vm_compute; reflexivity..]).
Qed.

Lemma quick_colors info w ptype ev :
  PyText.first_word (name info) = Return w →
  ∃ palette,
    (if String.eqb ptype "maquillaje" then
       p ← generate_makeup_palette (best_colors info) info ev;
       Return (MakeupColors p)
     else if String.eqb ptype "ropa" then
       p ← generate_clothing_palette (best_colors info) info ev;
       Return (ClothingColors p)
     else if String.eqb ptype "accesorios" then
       p ← generate_accessories_palette (best_colors info) info ev;
       Return (AccessoriesColors p)
     else
       Return (GenericColors
                 (take 3 (best_colors info))
                 (if (3 <? length (best_colors info))%nat
                  then take 3 (drop 3 (best_colors info)) else [])
                 (if (2 <? length (best_colors info))%nat
                  then drop (length (best_colors info) - 2) (best_colors info) else [])))
    = Return palette
    ∧ match palette with
      | MakeupColors _ => ptype = "maquillaje"
      | ClothingColors _ => ptype = "ropa"
      | AccessoriesColors _ => ptype = "accesorios"
      | GenericColors _ _ _ => ptype ∉ ["maquillaje"; "ropa"; "accesorios"]
      end.
Proof.
  intros Hw.
  rewrite (makeup_palette_eq _ _ _ w Hw), (clothing_palette_eq _ _ _ w Hw),
    (accessories_palette_eq _ _ _ w Hw).
  destruct (String.eqb_spec ptype "maquillaje") as [E1|E1]; [eexists; split; [reflexivity|done]|].
  destruct (String.eqb_spec ptype "ropa") as [E2|E2]; [eexists; split; [reflexivity|done]|].
  destruct (String.eqb_spec ptype "accesorios") as [E3|E3]; [eexists; split; [reflexivity|done]|].
  eexists; split; [reflexivity|].
  intros H. apply list_elem_of_In in H. cbn [In] in H. destruct_or!; done.
Qed.

End Quick.

(** X10.  [tool_quick_palette] returns for every dictionary of arguments:
    no key is required and no value is rejected.  The season it settles on
    is one of six entries of [SEASONS] (primavera_clara and
    invierno_brillante are never chosen), the palette type and the event
    default to "ropa" and "casual", and a palette type other than the three
    known ones gets the generic palette instead of an error. *)
Theorem tool_quick_palette_total (args : gmap string string) (now : string) :
  ∃ r id info,
    tool_quick_palette args now = Return r
    ∧ id ∈ PaletteSpec.quick_ids
    ∧ SEASONS !! id = Some info
    ∧ estimated_season r = name info
    ∧ theory_temperature (theory r) = temperature info
    ∧ theory_saturation (theory r) = saturation info
    ∧ palette_type r = default "ropa" (args !! "palette_type")
    ∧ event_type r = default "casual" (args !! "event_type")
    ∧ generated_at r = now
    ∧ match colors r with
      | MakeupColors _ => palette_type r = "maquillaje"
      | ClothingColors _ => palette_type r = "ropa"
      | AccessoriesColors _ => palette_type r = "accesorios"
      | GenericColors _ _ _ => palette_type r ∉ ["maquillaje"; "ropa"; "accesorios"]
      end.
Proof.
  unfold tool_quick_palette. cbv zeta.
  set (id := quick_season _ _).
  pose proof (quick_season_known (default "media" (args !! "skin_tone"))
                                 (default "neutro" (args !! "undertone"))) as Hid.
  fold id in Hid.
  destruct (quick_ids_info id Hid) as (info & w & Hget & Hlook & Hw).
  rewrite Hget. lazy beta iota delta [engine]. rewrite bind_return. cbv beta.
  destruct (quick_colors info w (default "ropa" (args !! "palette_type"))
              (default "casual" (args !! "event_type")) Hw) as (palette & -> & Hkind).
  cbn [mbind outcome_bind mret outcome_ret].
  eexists _, id, info. split; [reflexivity|].
  cbn [estimated_season theory theory_temperature theory_saturation palette_type
       event_type generated_at colors].
  split_and!; done.
Qed.

(** X11.  The quick palette and the full analysis disagree.  For a listed
    skin tone and undertone, with medium contrast and a hair and eye colour
    that leave the contrast alone, [determine_season] gives the season of
    the quick mapping except on three pairs: (clara, neutro),
    (media, calido) and (media, neutro). *)
Theorem quick_season_departs_from_table (skin und eye hair : string) :
  skin ∈ Spec.skin_tones →
  und ∈ Spec.undertones →
  (hair, eye) ∉ contrast_rows.*1 →
  ∃ a,
    determine_season skin und eye hair "medio" = Ok a
    ∧ (season a = quick_season skin und ↔ (skin, und) ∉ PaletteSpec.quick_departures).
Proof.
  intros Hs Hu Hc.
  pose proof (adjusted_contrast_miss hair eye "medio" Hc) as Hadj.
  unfold determine_season. rewrite Hadj.
  apply list_elem_of_In in Hs, Hu. cbn [In Spec.skin_tones Spec.undertones] in Hs, Hu.
  destruct_or!; try done; subst skin und;
    (eexists; split; [vm_compute; reflexivity|]); cbn [season];
    (split;
     [ intros Heq; vm_compute in Heq; try discriminate Heq;
       intros Hin; apply list_elem_of_In in Hin; cbn [In PaletteSpec.quick_departures] in Hin;
       destruct_or!; done
     | intros Hout; vm_compute; try reflexivity;
       exfalso; apply Hout; apply list_elem_of_In; cbn; auto ]).
Qed.

Lemma quick_season_departs_from_table_witness :
  ∃ a,
    determine_season "media" "calido" "cafe" "castano" "medio" = Ok a
    ∧ (season a = quick_season "media" "calido"
       ↔ ("media", "calido") ∉ PaletteSpec.quick_departures).
Proof.
  apply (quick_season_departs_from_table "media" "calido" "cafe" "castano").
  - apply list_elem_of_In. cbn. auto.
  - apply list_elem_of_In. cbn. auto.
  - intros H. apply list_elem_of_In in H. cbn in H. destruct_or!; done.
Defined.

Section Size.

Lemma size_list_to_set_le (l : list string) :
  (size (list_to_set l : gset string) ≤ length l)%nat.
Proof.
  induction l as [|x l IH]; cbn [list_to_set length].
  - by rewrite size_empty.
  - rewrite size_union_alt, size_singleton.
    assert ((list_to_set l : gset string) ∖ {[x]} ⊆ list_to_set l) as Hsub
      by (intros y Hy; by apply elem_of_difference in Hy as [? _]).
    apply subseteq_size in Hsub. lia.
Qed.

Lemma harmony_scheme_length base ty cs :
  harmony_scheme base ty = Ok cs →
  (length cs ≤ 3)%nat ∧ (ty = "complementary" → length cs = 2%nat).
Proof.
  unfold harmony_scheme.
  destruct (hex_to_hsl base) as [[[h l] s]|]; [|done]. cbn [mbind result_bind].
  destruct (String.eqb_spec ty "complementary") as [->|E1].
  { destruct (hsl_to_hex _ _ _); [|done]. cbn. intros [= <-]. cbn. split; [lia|done]. }
  repeat (case_match; cbn [mbind result_bind]);
    repeat match goal with
           | |- context [hsl_to_hex ?a ?b ?c] => destruct (hsl_to_hex a b c)
           end; cbn; try done; intros [= <-]; cbn; (split; [lia|done]).
Qed.

End Size.

Lemma harmony_size_bound base_colors ty out :
  generate_harmony_palette base_colors ty = Ok out →
  (size out ≤ 9)%nat ∧ (ty = "complementary" → (size out ≤ 6)%nat).
Proof.
  destruct base_colors as [|base rest].
  { cbn. intros [= <-]. rewrite size_empty. split; [lia|]. intros _. lia. }
  intros H. destruct (generate_inv base rest ty out H) as (cs & vs & Hcs & Hvs & _ & ->).
  destruct (harmony_scheme_length base ty cs Hcs) as (Hle & Hcomp).
  destruct (lightness_variations_spec cs vs Hvs) as (Hlen & _).
  pose proof (size_list_to_set_le vs) as Hsz.
  split; [lia|]. intros Hty. specialize (Hcomp Hty). lia.
Qed.

(** X12.  A palette returned by [generate_harmony_palette] has at most
    nine colours, and at most six for the complementary scheme.  So the
    slice [harmony_palette[:8]] of [tool_generate_palette], which asks for
    the complementary scheme, never drops a colour, in whatever order the
    set is listed. *)
Theorem harmony_palette_size (base_colors : list string) (ty : string) (out : gset string) :
  generate_harmony_palette base_colors ty = Ok out →
  (size out ≤ 9)%nat
  ∧ (ty = "complementary" →
     (size out ≤ 6)%nat
     ∧ ∀ listed, NoDup listed → list_to_set listed = out → take 8 listed = listed).
Proof.
  intros H. destruct (harmony_size_bound _ _ _ H) as (H9 & H6).
  split; [done|]. intros Hty. specialize (H6 Hty). split; [done|].
  intros listed Hnd Hset. apply take_ge.
  rewrite <- (size_list_to_set (C:=gset string) listed Hnd), Hset. lia.
Qed.

Lemma harmony_palette_size_witness :
  (size (list_to_set ["#FF0000"; "#ff6565"; "#990000"; "#00feff"; "#65feff"; "#009899"]
         : gset string) ≤ 9)%nat.
Proof.
  apply (harmony_palette_size ["#FF0000"] "complementary").
  exact red_complementary_palette.
Defined.

(** * Profile store *)

Section Dictionary.

Context {V : Type}.
Implicit Types d : list (string * V).

Lemma get_None d k : Dict.get d k = None ↔ k ∉ d.*1.
Proof.
  induction d as [|[k' v] d IH]; cbn [Dict.get fmap list_fmap fst].
  - split; [intros _ H; by apply elem_of_nil in H|done].
  - destruct (String.eqb_spec k' k) as [->|Hne].
    + split; [done|]. intros H. exfalso. apply H. by left.
    + rewrite IH, not_elem_of_cons. split; [intros H; split; [congruence|done]|by intros [_ H]].
Qed.

Lemma get_app_absent d k v : Dict.get d k = None → Dict.get (d ++ [(k, v)]) k = Some v.
Proof.
  induction d as [|[k' v'] d IH]; cbn [Dict.get app].
  - by rewrite String.eqb_refl.
  - by destruct (String.eqb k' k).
Qed.


Lemma set_absent d k v : Dict.get d k = None → Dict.set d k v = d ++ [(k, v)].
Proof.
  induction d as [|[k' v'] d IH]; cbn [Dict.get Dict.set app]; [done|].
  destruct (String.eqb k' k); [done|]. intros H. by rewrite IH.
Qed.

Lemma del_keys d k : (Dict.del d k).*1 ⊆ d.*1.
Proof.
  induction d as [|[k' v] d IH]; cbn [Dict.del fmap list_fmap fst]; [done|].
  destruct (String.eqb k' k).
  - intros x Hx. by right.
  - cbn [fmap list_fmap fst]. intros x Hx. apply elem_of_cons in Hx as [->|Hx].
    + by left.
    + right. by apply IH.
Qed.

Lemma get_del_same d k : NoDup d.*1 → Dict.get (Dict.del d k) k = None.
Proof.
  induction d as [|[k' v] d IH]; cbn [Dict.del Dict.get fmap list_fmap fst]; [done|].
  intros Hnd. apply NoDup_cons in Hnd as [Hk' Hnd].
  destruct (String.eqb_spec k' k) as [->|Hne].
  - by apply get_None.
  - cbn [Dict.get]. destruct (String.eqb_spec k' k); [done|]. by apply IH.
Qed.

Lemma get_del_other d k k' : k' ≠ k → Dict.get (Dict.del d k) k' = Dict.get d k'.
Proof.
  intros Hne. induction d as [|[k0 v] d IH]; cbn [Dict.del Dict.get]; [done|].
  destruct (String.eqb_spec k0 k) as [->|H0].
  - destruct (String.eqb_spec k k'); [congruence|done].
  - cbn [Dict.get]. by destruct (String.eqb k0 k').
Qed.

Lemma del_NoDup d k : NoDup d.*1 → NoDup (Dict.del d k).*1.
Proof.
  induction d as [|[k' v] d IH]; cbn [Dict.del fmap list_fmap fst]; [done|].
  intros Hnd. apply NoDup_cons in Hnd as [Hk' Hnd].
  destruct (String.eqb k' k); [done|]. cbn [fmap list_fmap fst].
  apply NoDup_cons. split; [|by apply IH].
  intros H. apply Hk'. by apply (del_keys d k).
Qed.

Lemma del_length d k v : Dict.get d k = Some v → length d = S (length (Dict.del d k)).
Proof.
  induction d as [|[k' v'] d IH]; cbn [Dict.get Dict.del length]; [done|].
  destruct (String.eqb k' k); [done|]. intros H. cbn [length]. by rewrite (IH H).
Qed.

End Dictionary.

Section Arguments.

Lemma arg_present args k v : args !! k = Some v → arg args k = Return v.
Proof. unfold arg, getitem. by intros ->. Qed.

Lemma first_missing_None fields args :
  first_missing fields args = None ↔ Forall (λ k, is_Some (args !! k)) fields.
Proof.
  induction fields as [|k fields IH]; cbn [first_missing].
  - split; [constructor|done].
  - destruct (args !! k) as [v|] eqn:E.
    + rewrite IH. split; [intros H; constructor; [by rewrite E|done]|].
      intros H. by apply Forall_cons in H as [_ H].
    + split; [done|]. intros H. apply Forall_cons in H as [[v H] _]. congruence.
Qed.

Lemma first_missing_Some fields args k :
  first_missing fields args = Some k ↔
  ∃ before after, fields = before ++ k :: after
    ∧ args !! k = None ∧ Forall (λ k', is_Some (args !! k')) before.
Proof.
  induction fields as [|k0 fields IH]; cbn [first_missing].
  - split; [done|]. intros (before & after & H & _). by destruct before.
  - destruct (args !! k0) as [v|] eqn:E.
    + rewrite IH. split.
      * intros (before & after & -> & Hk & Hb). exists (k0 :: before), after.
        split_and!; [done|done|]. constructor; [by rewrite E|done].
      * intros (before & after & Heq & Hk & Hb). destruct before as [|b before].
        -- cbn in Heq. injection Heq as -> _. congruence.
        -- cbn in Heq. injection Heq as -> ->. apply Forall_cons in Hb as [_ Hb].
           by exists before, after.
    + split.
      * intros [= <-]. by exists [], fields.
      * intros (before & after & Heq & Hk & Hb). destruct before as [|b before].
        -- cbn in Heq. by injection Heq as ->.
        -- cbn in Heq. injection Heq as -> _. apply Forall_cons in Hb as [[v Hb] _].
           congruence.
Qed.

End Arguments.

Section Tools.

Lemma determine_season_ok skin und eye hair level :
  ∃ r, determine_season skin und eye hair level = Ok r
    ∧ season r ∈ Spec.season_ids
    ∧ SEASONS !! season r = Some (season_data r).
Proof.
  set (key := (skin, und, adjusted_contrast hair eye level)).
  pose proof (chosen_season_known key) as Hknown.
  destruct (getitem_known _ Hknown) as (info & Hget & Hlook).
  eexists. split; [|split].
  - unfold determine_season. fold key. change "verano_suave" with Spec.default_season.
    rewrite Hget. reflexivity.
  - exact Hknown.
  - exact Hlook.
Qed.

Lemma create_fields args :
  first_missing create_required_fields args = None →
  ∃ user_id name skin_tone vein_color jewelry_preference sun_reaction eye_color
    hair_color natural_lip_color contrast_level,
    args !! "user_id" = Some user_id ∧ args !! "name" = Some name
    ∧ args !! "skin_tone" = Some skin_tone ∧ args !! "vein_color" = Some vein_color
    ∧ args !! "jewelry_preference" = Some jewelry_preference
    ∧ args !! "sun_reaction" = Some sun_reaction
    ∧ args !! "eye_color" = Some eye_color ∧ args !! "hair_color" = Some hair_color
    ∧ args !! "natural_lip_color" = Some natural_lip_color
    ∧ args !! "contrast_level" = Some contrast_level.
Proof.
  intros H. apply first_missing_None in H. unfold create_required_fields in H.
  repeat match type of H with
         | Forall _ (_ :: _) =>
             let H' := fresh in
             destruct (Forall_cons_1 _ _ _ H) as [[? ?] H']; clear H; rename H' into H
         end.
  eexists _, _, _, _, _, _, _, _, _, _. split_and!; eassumption.
Qed.

(** The profile that [tool_create_profile] builds from complete arguments. *)
Lemma create_loaded args now f :
  first_missing create_required_fields args = None →
  ∃ user_id name profile,
    args !! "user_id" = Some user_id ∧ args !! "name" = Some name
    ∧ Profile.user_id (Profile.basic_info profile) = user_id
    ∧ Profile.name (Profile.basic_info profile) = name
    ∧ Profile.created_at (Profile.basic_info profile) = now
    ∧ season (Profile.season_analysis (Profile.color_analysis profile)) ∈ Spec.season_ids
    ∧ SEASONS !! season (Profile.season_analysis (Profile.color_analysis profile))
      = Some (season_data (Profile.season_analysis (Profile.color_analysis profile)))
    ∧ Profile.recommended_colors (Profile.color_analysis profile)
      = best_colors (season_data (Profile.season_analysis (Profile.color_analysis profile)))
    ∧ tool_create_profile args now f
      = if bool_decide (is_Some (Dict.get (profiles (load_data f).2) user_id))
        then ((load_data f).1, Error ("El perfil " +:+ user_id +:+ " ya existe"))
        else (Some {| profiles := Dict.set (profiles (load_data f).2) user_id profile;
                      palettes := palettes (load_data f).2 |},
              Success {| created_message := "Perfil creado exitosamente para " +:+ name;
                         created_profile := profile |}).
Proof.
  intros Hreq.
  destruct (create_fields args Hreq)
    as (user_id & name & skin & vein & jewelry & sun & eye & hair & lip & level
        & E1 & E2 & E3 & E4 & E5 & E6 & E7 & E8 & E9 & E10).
  destruct (determine_season_ok skin
              (undertone (analyze_undertone vein jewelry sun lip)) eye hair level)
    as (sa & Hsa & Hin & Hlook).
  exists user_id, name. eexists. split_and!; [done|done|..]; last first.
  - unfold tool_create_profile. rewrite Hreq.
    destruct (load_data f) as [loaded data]. cbn [fst snd].
    rewrite !(arg_present _ _ _ E1), !(arg_present _ _ _ E2), !(arg_present _ _ _ E3),
      !(arg_present _ _ _ E4), !(arg_present _ _ _ E5), !(arg_present _ _ _ E6),
      !(arg_present _ _ _ E7), !(arg_present _ _ _ E8), !(arg_present _ _ _ E9),
      !(arg_present _ _ _ E10).
    cbn [mbind outcome_bind]. rewrite Hsa.
    destruct (bool_decide _); cbn [engine mbind outcome_bind try_tool save_data]; reflexivity.
  - reflexivity.
  - exact Hlook.
  - exact Hin.
  - reflexivity.
  - reflexivity.
  - reflexivity.
Qed.

Lemma create_fresh args now f uid :
  first_missing create_required_fields args = None →
  args !! "user_id" = Some uid →
  Dict.get (profiles (load_data f).2) uid = None →
  ∃ name profile,
    tool_create_profile args now f
    = (Some {| profiles := profiles (load_data f).2 ++ [(uid, profile)];
               palettes := palettes (load_data f).2 |},
       Success {| created_message := "Perfil creado exitosamente para " +:+ name;
                  created_profile := profile |})
    ∧ Profile.user_id (Profile.basic_info profile) = uid
    ∧ Profile.created_at (Profile.basic_info profile) = now
    ∧ SEASONS !! season (Profile.season_analysis (Profile.color_analysis profile))
      = Some (season_data (Profile.season_analysis (Profile.color_analysis profile))).
Proof.
  intros Hreq Huid Hnew.
  destruct (create_loaded args now f Hreq)
    as (uid' & name & profile & E1 & E2 & P1 & P2 & P3 & P4 & P5 & P6 & Heq).
  assert (uid' = uid) as -> by congruence.
  rewrite Hnew in Heq. rewrite (set_absent _ _ _ Hnew) in Heq.
  rewrite bool_decide_eq_false_2 in Heq by (by intros [? ?]).
  exists name, profile. split_and!; assumption.
Qed.

Lemma show_loaded args f user_id :
  args !! "user_id" = Some user_id →
  tool_show_profile args f
  = ((load_data f).1,
     match Dict.get (profiles (load_data f).2) user_id with
     | None => Error ("Perfil " +:+ user_id +:+ " no encontrado")
     | Some profile => Success profile
     end).
Proof.
  intros E. unfold tool_show_profile. rewrite E.
  destruct (load_data f) as [loaded data]. cbn [fst snd].
  rewrite !(arg_present _ _ _ E). cbn [mbind outcome_bind].
  by destruct (Dict.get _ _).
Qed.

Lemma delete_loaded args f user_id :
  args !! "user_id" = Some user_id →
  tool_delete_profile args f
  = match Dict.get (profiles (load_data f).2) user_id with
    | None => ((load_data f).1, Error ("Perfil " +:+ user_id +:+ " no encontrado"))
    | Some _ =>
        (Some {| profiles := Dict.del (profiles (load_data f).2) user_id;
                 palettes := palettes (load_data f).2 |},
         Success ("Perfil " +:+ user_id +:+ " eliminado exitosamente"))
    end.
Proof.
  intros E. unfold tool_delete_profile. rewrite E.
  destruct (load_data f) as [loaded data]. cbn [fst snd].
  rewrite !(arg_present _ _ _ E). cbn [mbind outcome_bind].
  by destruct (Dict.get _ _).
Qed.

Lemma export_loaded args now f user_id :
  args !! "user_id" = Some user_id →
  tool_export_data args now f
  = ((load_data f).1,
     match Dict.get (profiles (load_data f).2) user_id with
     | None => Error ("Perfil " +:+ user_id +:+ " no encontrado")
     | Some profile =>
         let export_palettes :=
           default [] (default ∅ (palettes (load_data f).2) !! user_id) in
         Success
           {| info_of_export :=
                {| export_user_id := user_id; exported_at := now; version := "2.0" |};
              exported_profile := profile;
              exported_palettes := export_palettes;
              summary :=
                {| profile_created := Profile.created_at (Profile.basic_info profile);
                   total_palettes := length export_palettes;
                   color_season :=
                     name (season_data (Profile.season_analysis
                                          (Profile.color_analysis profile))) |} |}
     end).
Proof.
  intros E. unfold tool_export_data. rewrite E.
  destruct (load_data f) as [loaded data]. cbn [fst snd].
  rewrite !(arg_present _ _ _ E). cbn [mbind outcome_bind].
  by destruct (Dict.get _ _).
Qed.



End Tools.


Section Generate.


Lemma harmony_of_variations base rest ty vs :
  harmony_variations (base :: rest) ty = Ok vs →
  generate_harmony_palette (base :: rest) ty = Ok (list_to_set vs).
Proof. unfold generate_harmony_palette. by intros ->. Qed.


Lemma invalid_type_rejected ptype (info : season_info) ev :
  ptype ∉ ["maquillaje"; "ropa"; "accesorios"] →
  (if String.eqb ptype "maquillaje" then
     p ← generate_makeup_palette (best_colors info) info ev;
     Return (Some (MakeupColors p))
   else if String.eqb ptype "ropa" then
     p ← generate_clothing_palette (best_colors info) info ev;
     Return (Some (ClothingColors p))
   else if String.eqb ptype "accesorios" then
     p ← generate_accessories_palette (best_colors info) info ev;
     Return (Some (AccessoriesColors p))
   else Return None)
  = Return None.
Proof.
  intros H.
  destruct (String.eqb_spec ptype "maquillaje") as [->|E1];
    [exfalso; apply H, list_elem_of_In; cbn; auto|].
  destruct (String.eqb_spec ptype "ropa") as [->|E2];
    [exfalso; apply H, list_elem_of_In; cbn; auto|].
  destruct (String.eqb_spec ptype "accesorios") as [->|E3];
    [exfalso; apply H, list_elem_of_In; cbn; auto|].
  reflexivity.
Qed.

End Generate.



(** X15.  Deleting a stored profile removes that profile and nothing
    else: the other profiles are kept, and so are all palettes, those of
    the deleted user included.  Showing the identifier then fails, and when
    a profile is created again under the same identifier, an export returns
    the new profile together with the palettes of the old one. *)
Theorem delete_keeps_palettes
    (args : gmap string string) (f : file) (uid : string) (profile : Profile.t) :
  let old := (load_data f).2 in
  args !! "user_id" = Some uid →
  NoDup (profiles old).*1 →
  Dict.get (profiles old) uid = Some profile →
  ∃ message data,
    tool_delete_profile args f = (Some data, Success message)
    ∧ Dict.get (profiles data) uid = None
    ∧ (∀ other, other ≠ uid → Dict.get (profiles data) other = Dict.get (profiles old) other)
    ∧ length (profiles old) = S (length (profiles data))
    ∧ NoDup (profiles data).*1
    ∧ palettes data = palettes old
    ∧ (∀ query, query !! "user_id" = Some uid →
         tool_show_profile query (Some data)
         = (Some data, Error ("Perfil " +:+ uid +:+ " no encontrado")))
    ∧ (∀ again now query later,
         first_missing create_required_fields again = None →
         again !! "user_id" = Some uid →
         query !! "user_id" = Some uid →
         ∃ created data' e,
           tool_create_profile again now (Some data) = (Some data', Success created)
           ∧ tool_export_data query later (Some data') = (Some data', Success e)
           ∧ exported_profile e = created_profile created
           ∧ exported_palettes e = default [] (default ∅ (palettes old) !! uid)).
Proof.
  intros old Euid Hnd Hget. subst old.
  rewrite (delete_loaded args f uid Euid), Hget.
  eexists _, _. split; [reflexivity|]. cbn [profiles palettes].
  pose proof (get_del_same (profiles (load_data f).2) uid Hnd) as Hgone.
  split_and!.
  - exact Hgone.
  - intros other Hne. by apply get_del_other.
  - by apply (del_length _ _ profile).
  - by apply del_NoDup.
  - reflexivity.
  - intros query Hq. rewrite (show_loaded query _ uid Hq).
    cbn [load_data fst snd profiles]. by rewrite Hgone.
  - intros again now query later Hreq Hagain Hq.
    destruct (create_fresh again now (Some {| profiles := Dict.del (profiles (load_data f).2) uid;
                                              palettes := palettes (load_data f).2 |})
                uid Hreq Hagain Hgone) as (name & p & Heq & _).
    cbn [load_data fst snd profiles palettes] in Heq.
    eexists _, _, _. split; [exact Heq|].
    rewrite (export_loaded query later _ uid Hq). cbn [load_data fst snd profiles palettes].
    rewrite (get_app_absent _ _ _ Hgone).
    split_and!; reflexivity.
Qed.

(** X16.  A request that is turned down stores nothing.  Creating a
    profile that exists, showing, deleting or exporting one that does not,
    generating a palette for one that does not, and asking for a palette
    type other than the three known ones: each answers with its error
    message and leaves the file as [load_data] left it, which is the file
    itself, or the empty document when there was no file. *)
Theorem rejected_requests_store_nothing
    (order : gset string → list string) (args : gmap string string) (now : string)
    (f : file) (uid : string) :
  let loaded := (load_data f).1 in
  let old := (load_data f).2 in
  args !! "user_id" = Some uid →
  (first_missing create_required_fields args = None →
   is_Some (Dict.get (profiles old) uid) →
   tool_create_profile args now f = (loaded, Error ("El perfil " +:+ uid +:+ " ya existe")))
  ∧ (Dict.get (profiles old) uid = None →
     tool_show_profile args f = (loaded, Error ("Perfil " +:+ uid +:+ " no encontrado"))
     ∧ tool_delete_profile args f = (loaded, Error ("Perfil " +:+ uid +:+ " no encontrado"))
     ∧ tool_export_data args now f = (loaded, Error ("Perfil " +:+ uid +:+ " no encontrado"))
     ∧ (is_Some (args !! "palette_type") →
        tool_generate_palette order args now f
        = (loaded, Error ("Perfil " +:+ uid +:+ " no encontrado"))))
  ∧ (∀ ptype, args !! "palette_type" = Some ptype →
       ptype ∉ ["maquillaje"; "ropa"; "accesorios"] →
       is_Some (Dict.get (profiles old) uid) →
       tool_generate_palette order args now f
       = (loaded, Error ("Tipo de paleta no válido: " +:+ ptype)))
  ∧ (loaded = f ∨ (f = None ∧ loaded = Some empty_store)).
Proof.
  intros loaded old Euid. subst loaded old. split_and!.
  - intros Hreq Hin.
    destruct (create_loaded args now f Hreq)
      as (uid' & name & p & E1 & _ & _ & _ & _ & _ & _ & _ & Heq).
    assert (uid' = uid) as -> by congruence.
    by rewrite bool_decide_eq_true_2 in Heq.
  - intros Hnone. split_and!.
    + by rewrite (show_loaded args f uid Euid), Hnone.
    + by rewrite (delete_loaded args f uid Euid), Hnone.
    + by rewrite (export_loaded args now f uid Euid), Hnone.
    + intros [ptype Etype].
      assert (first_missing generate_required_fields args = None) as Hreq.
      { apply first_missing_None. repeat constructor; [by rewrite Euid|by rewrite Etype]. }
      unfold tool_generate_palette. rewrite Hreq.
      destruct (load_data f) as [loaded data]. cbn [fst snd] in *.
      rewrite !(arg_present _ _ _ Euid). cbn [mbind outcome_bind]. by rewrite Hnone.
  - intros ptype Etype Hbad [profile Hget].
    assert (first_missing generate_required_fields args = None) as Hreq.
    { apply first_missing_None. repeat constructor; [by rewrite Euid|by rewrite Etype]. }
    unfold tool_generate_palette. rewrite Hreq.
    destruct (load_data f) as [loaded data]. cbn [fst snd] in *.
    rewrite !(arg_present _ _ _ Euid). cbn [mbind outcome_bind]. rewrite Hget.
    rewrite (arg_present _ _ _ Etype). cbn [mbind outcome_bind].
    by rewrite (invalid_type_rejected ptype _ _ Hbad).
  - destruct f; [by left|by right].
Qed.

(** X17.  A missing required field is reported before the file is read:
    the answer names the first field of the list that the arguments lack,
    and the file is left as it was, not even created.  The tools that only
    need [user_id] answer "Se requiere user_id". *)
Theorem missing_field_reported
    (order : gset string → list string) (args : gmap string string) (now : string)
    (f : file) (before after : list string) (field : string) :
  args !! field = None →
  Forall (λ k, is_Some (args !! k)) before →
  (create_required_fields = before ++ field :: after →
   tool_create_profile args now f = (f, Error ("Campo requerido faltante: " +:+ field)))
  ∧ (generate_required_fields = before ++ field :: after →
     tool_generate_palette order args now f = (f, Error ("Campo requerido: " +:+ field)))
  ∧ (field = "user_id" →
     tool_show_profile args f = (f, Error "Se requiere user_id")
     ∧ tool_delete_profile args f = (f, Error "Se requiere user_id")
     ∧ tool_export_data args now f = (f, Error "Se requiere user_id")).
Proof.
  intros Hmiss Hbefore. split_and!.
  - intros Hsplit.
    assert (first_missing create_required_fields args = Some field) as Hfirst
      by (apply first_missing_Some; by exists before, after).
    unfold tool_create_profile. by rewrite Hfirst.
  - intros Hsplit.
    assert (first_missing generate_required_fields args = Some field) as Hfirst
      by (apply first_missing_Some; by exists before, after).
    unfold tool_generate_palette. by rewrite Hfirst.
  - intros ->. unfold tool_show_profile, tool_delete_profile, tool_export_data.
    by rewrite Hmiss.
Qed.


Lemma delete_keeps_palettes_witness :
  ∃ message data,
    tool_delete_profile {[ "user_id" := "ana" ]}
      (tool_create_profile
         {[ "user_id" := "ana"; "name" := "Ana"; "skin_tone" := "clara";
            "vein_color" := "azul"; "jewelry_preference" := "plata";
            "sun_reaction" := "se_quema"; "eye_color" := "azul"; "hair_color" := "rubio";
            "natural_lip_color" := "rosado"; "contrast_level" := "medio" ]}
         "2024-04-30T09:00:00" None).1
    = (Some data, Success message)
    ∧ Dict.get (profiles data) "ana" = None
    ∧ palettes data = Some ∅.
Proof.
  lazymatch goal with
  | |- context [tool_delete_profile ?args ?f] =>
      assert (∃ p, Dict.get (profiles (load_data f).2) "ana" = Some p) as [p Hp]
        by (eexists; vm_compute; reflexivity);
      destruct (delete_keeps_palettes args f "ana" p ltac:(vm_compute; reflexivity)
                  ltac:(vm_compute; apply NoDup_singleton) Hp)
        as (message & data & H & Hgone & _ & _ & _ & Hpal & _)
  end.
  exists message, data. split_and!; [exact H|exact Hgone|exact Hpal].
Defined.

Lemma rejected_requests_store_nothing_witness :
  tool_show_profile {[ "user_id" := "ana" ]} None
  = (Some empty_store, Error "Perfil ana no encontrado").
Proof.
  lazymatch goal with
  | |- context [tool_show_profile ?args None] =>
      destruct (rejected_requests_store_nothing elements args "" None "ana"
                  ltac:(vm_compute; reflexivity)) as (_ & H & _)
  end.
  destruct (H eq_refl) as (Hshow & _). exact Hshow.
Defined.

Lemma missing_field_reported_witness :
  tool_create_profile {[ "user_id" := "ana" ]} "2024-04-30T09:00:00" None
  = (None, Error "Campo requerido faltante: name").
Proof.
  lazymatch goal with
  | |- context [tool_create_profile ?args ?now None] =>
      destruct (missing_field_reported elements args now None ["user_id"]
                  ["skin_tone"; "vein_color"; "jewelry_preference"; "sun_reaction";
                   "eye_color"; "hair_color"; "natural_lip_color"; "contrast_level"] "name"
                  ltac:(vm_compute; reflexivity)
                  ltac:(repeat constructor; eexists; vm_compute; reflexivity)) as (H & _)
  end.
  exact (H eq_refl).
Defined.

(** * Confidence and the palettes of the seasons *)

Section Confidence.

Lemma confidence_ok_sound a q :
  confidence_ok a q = true →
  ∃ c, PyNum.to_Q (confidence a) = Some c
    ∧ (c == PaletteSpec.confidence_of_score q)%Q
    ∧ (0 <= c)%Q ∧ (c <= 100)%Q
    ∧ (undertone a = "neutro" → (c <= 10)%Q)
    ∧ (undertone a ≠ "neutro" → (20 <= c)%Q).
Proof.
  unfold confidence_ok. destruct (PyNum.to_Q (confidence a)) as [c|]; [|done].
  intros H. apply andb_prop in H as [H H4]. apply andb_prop in H as [H H3].
  apply andb_prop in H as [H1 H2].
  apply Qeq_bool_iff in H1. apply Qle_bool_iff in H2, H3.
  exists c. split_and!; try done.
  - intros Hn. rewrite Hn in H4. by apply Qle_bool_iff.
  - intros Hn. apply String.eqb_neq in Hn. rewrite Hn in H4. by apply Qle_bool_iff.
Qed.

End Confidence.

(** X18.  The confidence of an undertone analysis is twenty times the
    absolute value of the exact score, capped at a hundred, so it lies in
    0..100.  A neutral result never has a confidence above 10 and a cold or
    warm one never has one below 20. *)
Theorem undertone_confidence (v j s l : string) :
  ∃ c,
    PyNum.to_Q (confidence (analyze_undertone v j s l)) = Some c
    ∧ (c == PaletteSpec.confidence_of_score (Spec.undertone_score v j s l))%Q
    ∧ (0 <= c)%Q ∧ (c <= 100)%Q
    ∧ (undertone (analyze_undertone v j s l) = "neutro" → (c <= 10)%Q)
    ∧ (undertone (analyze_undertone v j s l) ≠ "neutro" → (20 <= c)%Q).
Proof.
  apply confidence_ok_sound.
  unfold confidence_ok, analyze_undertone, Spec.undertone_score, Spec.vein_term.
  cbn [confidence undertone].
  pose proof (vein_lookup v) as Hv. pose proof (jewelry_lookup j) as Hj.
  pose proof (sun_lookup s) as Hs. pose proof (lip_lookup l) as Hl.
  set (a := get_num vein_scores v) in *. set (qa := Spec.vein_value v) in *.
  set (b := get_num jewelry_scores j) in *. set (qb := Spec.jewelry_term j) in *.
  set (c := get_num sun_scores s) in *. set (qc := Spec.sun_term s) in *.
  set (d := get_num lip_scores l) in *. set (qd := Spec.lip_term l) in *.
  clearbody a qa b qb c qc d qd.
  apply list_elem_of_In in Hv, Hj, Hs, Hl. cbn [In] in Hv, Hj, Hs, Hl.
  destruct_or!; try done; simplify_eq; vm_compute; reflexivity.
Qed.

Section SeasonPalettes.

Lemma palette_ok_sound base_colors ty :
  palette_ok base_colors ty = true →
  ∃ vs, harmony_variations base_colors ty = Ok vs
    ∧ vs ≠ []
    ∧ Forall (λ c, Spec.well_formed_hex c = true) vs.
Proof.
  unfold palette_ok. destruct (harmony_variations base_colors ty) as [vs|]; [|done].
  intros H. apply andb_prop in H as [H1 H2]. exists vs. split_and!; [done| |].
  - by destruct vs.
  - apply Forall_forall. intros c Hc. apply list_elem_of_In in Hc.
    by apply (proj1 (forallb_forall _ _) H1).
Qed.

End SeasonPalettes.

(** X19.  The generator never fails on the colours the program itself
    recommends: for each of the eight seasons and each of the four schemes,
    the harmony palette of the best colours of the season is returned, it
    is not empty and has at most nine colours, and each of them is a
    well-formed colour. *)
Theorem harmony_of_seasons (id ty : string) (info : season_info) :
  SEASONS !! id = Some info →
  ty ∈ Spec.schemes →
  ∃ out,
    generate_harmony_palette (best_colors info) ty = Ok out
    ∧ out ≠ ∅
    ∧ (size out ≤ 9)%nat
    ∧ ∀ c, c ∈ out → Spec.well_formed_hex c = true.
Proof.
  intros H Hty.
  assert (palette_ok (best_colors info) ty = true) as Hok.
  { apply scheme_cases in Hty.
    season_cases H; destruct_or!; subst ty; vm_compute; reflexivity. }
  destruct (palette_ok_sound _ _ Hok) as (vs & Hvs & Hne & Hwf).
  assert (∃ base rest, best_colors info = base :: rest) as (base & rest & Hbest).
  { destruct (best_colors info) as [|base rest] eqn:E; [|eauto].
    cbn in Hvs. injection Hvs as <-. done. }
  rewrite Hbest in Hvs |- *.
  exists (list_to_set vs). split_and!.
  - by apply harmony_of_variations.
  - destruct vs as [|c vs]; [done|]. intros Hempty.
    assert (c ∈ (list_to_set (c :: vs) : gset string)) as Hc
      by (apply elem_of_list_to_set; by left).
    rewrite Hempty in Hc. by apply elem_of_empty in Hc.
  - apply (harmony_size_bound (base :: rest) ty). by apply harmony_of_variations.
  - intros c Hc. apply elem_of_list_to_set in Hc.
    by apply (proj1 (Forall_forall _ _) Hwf).
Qed.

Lemma harmony_of_seasons_witness :
  ∃ info out,
    SEASONS !! "verano_frio" = Some info
    ∧ generate_harmony_palette (best_colors info) "triadic" = Ok out
    ∧ out ≠ ∅
    ∧ (size out ≤ 9)%nat.
Proof.
  eexists.
  edestruct (harmony_of_seasons "verano_frio" "triadic")
    as (out & H & Hne & Hsize & _); [vm_compute; reflexivity| |].
  - apply list_elem_of_In. cbn. auto.
  - exists out. split_and!; [reflexivity|exact H|exact Hne|exact Hsize].
Defined.
